(** * Building energy dashboard: synthesis and aggregation engine

    A shallow embedding of the data path of [app.py]: the weekly schedule
    oracle [is_ac_on], the per-room synthesizer [generate_room_data], the
    cached dataset builder [load_data], the range filter [filter_by_range]
    and the aggregations [aggregate_energy], [daily_energy] and the
    per-floor grouping of [building_overview], together with the guard of
    [main] that decides whether a query is evaluated at all.

    Modelling conventions.
    - A [datetime] is the number of microseconds elapsed since
      0001-01-01T00:00:00 (proleptic Gregorian ordinal 1), the resolution
      of Python's [datetime]; a [time] is a number of microseconds since
      midnight.  Comparison of datetimes and of times is comparison of
      these integers.
    - Floating-point columns are modelled by exact rationals ([Qc]):
      rounding is outside the model.  A statement that equates two sums
      taken in different ways is therefore a statement about exact sums;
      module [Float64] has the two ways pandas adds a float64 column,
      which round apart already on three values.
    - [np.random] is a generator state threaded through the code, with the
      two draws the source uses as an interface ([RandomGen]).
    - A [DataFrame] is the list of its rows, in index order. *)

From Stdlib Require Import String.
From Stdlib Require Import ZArith List Bool Lia Permutation.
From Stdlib Require Import QArith Qcanon.
From Stdlib Require Floats.
Import ListNotations.

Local Open Scope Z_scope.

(** ** Dates and times *)

Module Datetime.

Definition datetime := Z.
Definition time := Z.

Definition US_PER_SECOND : Z := 1000000.
Definition US_PER_MINUTE : Z := 60 * US_PER_SECOND.
Definition US_PER_HOUR : Z := 60 * US_PER_MINUTE.
Definition US_PER_DAY : Z := 24 * US_PER_HOUR.

(** CPython's [_is_leap], [_days_before_year], [_days_in_month],
    [_days_before_month] and [_ymd2ord]. *)
Definition is_leap (year : Z) : bool :=
  (year mod 4 =? 0) && (negb (year mod 100 =? 0) || (year mod 400 =? 0)).

Definition days_before_year (year : Z) : Z :=
  let y := year - 1 in
  y * 365 + y / 4 - y / 100 + y / 400.

Definition days_in_month (year month : Z) : Z :=
  if month =? 2 then (if is_leap year then 29 else 28)
  else if (month =? 4) || (month =? 6) || (month =? 9) || (month =? 11)
       then 30 else 31.

Fixpoint days_before_month_aux (year : Z) (m : nat) : Z :=
  match m with
  | O => 0
  | S k => days_before_month_aux year k + days_in_month year (Z.of_nat (S k))
  end.

Definition days_before_month (year month : Z) : Z :=
  days_before_month_aux year (Z.to_nat (month - 1)).

Definition ymd2ord (year month day : Z) : Z :=
  days_before_year year + days_before_month year month + day.

(** [time(h, m)] and [datetime(y, mo, d, h, mi)]. *)
Definition mk_time (h m : Z) : time :=
  h * US_PER_HOUR + m * US_PER_MINUTE.

Definition mk_datetime (y mo d h mi : Z) : datetime :=
  (ymd2ord y mo d - 1) * US_PER_DAY + mk_time h mi.

Definition toordinal (ts : datetime) : Z := ts / US_PER_DAY + 1.

(** [ts.weekday()]: 0 = Monday ... 6 = Sunday. *)
Definition weekday (ts : datetime) : Z := (toordinal ts + 6) mod 7.

(** [ts.time()]. *)
Definition time_of (ts : datetime) : time := ts mod US_PER_DAY.

(** [ts.date()], as the proleptic ordinal of the day. *)
Definition date_of (ts : datetime) : Z := toordinal ts.

(** [datetime.combine(date, time)]. *)
Definition combine (date : Z) (t : time) : datetime :=
  (date - 1) * US_PER_DAY + t.

(** [timedelta(minutes=n)]. *)
Definition minutes (n : Z) : Z := n * US_PER_MINUTE.

End Datetime.

Import Datetime.

(** ** Constants and configuration *)

Definition START_DATE : datetime := mk_datetime 2025 11 1 0 0.
Definition END_DATE : datetime := mk_datetime 2025 11 15 23 45.
Definition TIME_FREQ_MIN : Z := 15.

(** Integer and decimal literals of the source, as exact rationals. *)
Definition qz (z : Z) : Qc := Q2Qc (inject_Z z).
Definition qfrac (n : Z) (d : positive) : Qc := Q2Qc (n # d).

Definition TARIFF_PER_KWH : Qc := qz 8.
Definition CO2_PER_KWH_KG : Qc := qfrac 6 10.

Definition FLOORS : list (string * list (string * string)) :=
  [ ("Floor 1", [ ("F1-101", "Computer Lab 1");
                  ("F1-102", "Computer Lab 2");
                  ("F1-103", "Faculty Room 1") ]);
    ("Floor 2", [ ("F2-201", "Classroom 201");
                  ("F2-202", "Classroom 202");
                  ("F2-203", "Seminar Room") ]);
    ("Floor 3", [ ("F3-301", "Classroom 301");
                  ("F3-302", "Classroom 302");
                  ("F3-303", "Conference Room") ]) ]%string.

(** The module-level constants that fix the horizon.  The functions below
    read them from a [Config], so that statements can range over other
    horizons; [app_config] is the one the source defines. *)
Record Config : Type := mkConfig {
  start_date : datetime;
  end_date : datetime;
  time_freq_min : Z
}.

Definition app_config : Config := mkConfig START_DATE END_DATE TIME_FREQ_MIN.

Definition WEEKDAY_SCHEDULE : list (time * time) :=
  [ (mk_time 9 0, mk_time 12 0);
    (mk_time 13 0, mk_time 17 0) ].

(** ** Schedule oracle *)

(** The [for start_t, end_t in WEEKDAY_SCHEDULE] loop of [is_ac_on]. *)
Fixpoint schedule_loop (t : time) (schedule : list (time * time)) : bool :=
  match schedule with
  | [] => false
  | (start_t, end_t) :: rest =>
      if (start_t <=? t) && (t <=? end_t) then true
      else schedule_loop t rest
  end.

Definition is_ac_on (ts : datetime) : bool :=
  let wd := weekday ts in
  if 5 <=? wd then false
  else schedule_loop (time_of ts) WEEKDAY_SCHEDULE.

(** ** Outcomes of calls, and the generator monad *)

(** Exceptions.  [ZeroDivisionError] and [ValueError] are what the
    libraries raise on a zero stride and on an empty concatenation;
    [StopException] is how [st.stop()] ends a script run.
    [InvalidConfiguration] and [InvalidRange] are the error classes of the
    specification's taxonomy. *)
Inductive exn : Type :=
| ZeroDivisionError
| ValueError
| StopException
| InvalidConfiguration
| InvalidRange.

Inductive outcome (A : Type) : Type :=
| Returned (a : A)
| Raised (e : exn).

Arguments Returned {A} a.
Arguments Raised {A} e.

(** The interface of [np.random] the source uses: [uniform(low, high)] and
    [normal(loc, scale, size=n)], each consuming generator state. *)
Class RandomGen (G : Type) : Type := {
  uniform : Qc -> Qc -> G -> Qc * G;
  normal : Qc -> Qc -> nat -> G -> list Qc * G;
  uniform_range : forall low high g,
    (low <= high)%Qc ->
    (low <= fst (uniform low high g) <= high)%Qc;
  normal_size : forall loc scale n g,
    length (fst (normal loc scale n g)) = n
}.

(** A computation that draws from the generator and may raise. *)
Definition M (G A : Type) : Type := G -> outcome A * G.

Definition ret {G A} (a : A) : M G A := fun g => (Returned a, g).

Definition bind {G A B} (m : M G A) (k : A -> M G B) : M G B :=
  fun g =>
    match m g with
    | (Returned a, g') => k a g'
    | (Raised e, g') => (Raised e, g')
    end.

Definition lift_outcome {G A} (o : outcome A) : M G A := fun g => (o, g).

Definition draw {G A} (f : G -> A * G) : M G A :=
  fun g => let (a, g') := f g in (Returned a, g').

Declare Scope gen_scope.
Delimit Scope gen_scope with gen.
Notation "x <- m ;; k" := (bind m (fun x => k))
  (at level 100, m at next level, right associativity) : gen_scope.

(** ** Array helpers *)

(** [np.arange(b, e, stride)] on integers, for a non-zero stride: the
    values [b + i * stride] for [0 <= i < ceil((e - b) / stride)]. *)
Definition np_arange (b e stride : Z) : list Z :=
  let len := Z.to_nat (- ((b - e) / stride)) in
  map (fun i => b + Z.of_nat i * stride) (seq 0 len).

(** [pd.date_range(start, end, freq=f"{freq_min}min")] for a fixed
    frequency: pandas computes the exclusive bound
    [e = b + (end - b) // stride * stride + stride // 2 + 1] and returns
    [np.arange(b, e, stride)]; the floor division by a zero stride
    raises. *)
Definition date_range (start end_ : datetime) (freq_min : Z)
  : outcome (list datetime) :=
  let stride := minutes freq_min in
  if stride =? 0 then Raised ZeroDivisionError
  else
    let b := start in
    let e := b + (end_ - b) / stride * stride + stride / 2 + 1 in
    Returned (np_arange b e stride).

(** [np.where(cond, x, y)] on arrays of one length. *)
Fixpoint np_where {A} (cond : list bool) (x y : list A) : list A :=
  match cond, x, y with
  | c :: cond', a :: x', b :: y' =>
      (if c then a else b) :: np_where cond' x' y'
  | _, _, _ => []
  end.

(** Elementwise product of two arrays. *)
Fixpoint np_mul (x y : list Qc) : list Qc :=
  match x, y with
  | a :: x', b :: y' => (a * b)%Qc :: np_mul x' y'
  | _, _ => []
  end.

Definition Qc_ltb (x y : Qc) : bool :=
  match (x ?= y)%Qc with Lt => true | _ => false end.

(** [np.clip(a, a_min, None)]. *)
Definition np_clip_min (a : list Qc) (a_min : Qc) : list Qc :=
  map (fun x => if Qc_ltb x a_min then a_min else x) a.

(** ** Samples and frames *)

Record Sample : Type := mkSample {
  timestamp : datetime;
  floor : string;
  room_id : string;
  room_name : string;
  voltage : Qc;
  current : Qc;
  power_kw : Qc;
  energy_kwh_step : Qc;
  is_on : bool
}.

Definition DataFrame := list Sample.

(** [pd.DataFrame({...})] from one index column, three scalars broadcast
    to every row, and five array columns: row [i] takes entry [i] of each
    array. *)
Definition make_frame (idx : list datetime) (floor_ room_id_ room_name_ : string)
    (voltage_ current_ power_kw_ energy_ : list Qc) (is_on_ : list bool)
  : DataFrame :=
  map (fun i =>
         mkSample (nth i idx 0) floor_ room_id_ room_name_
                  (nth i voltage_ 0%Qc) (nth i current_ 0%Qc)
                  (nth i power_kw_ 0%Qc) (nth i energy_ 0%Qc)
                  (nth i is_on_ false))
      (seq 0 (length idx)).

(** ** Signal synthesizer *)

Section Synthesis.

Context {G : Type} `{RandomGen G}.

Local Open Scope gen_scope.

Definition generate_room_data (cfg : Config)
    (room_id_ floor_ room_name_ : string) : M G DataFrame :=
  idx <- lift_outcome
           (date_range (start_date cfg) (end_date cfg) (time_freq_min cfg)) ;;
  let n := length idx in
  let is_on_ := map is_ac_on idx in
  base_current <- draw (uniform (qz 7) (qz 10)) ;;
  base_voltage <- draw (uniform (qz 225) (qz 235)) ;;
  v_on <- draw (normal base_voltage (qz 2) n) ;;
  v_off <- draw (normal (base_voltage - qz 2)%Qc (qz 1) n) ;;
  let voltage_ := np_where is_on_ v_on v_off in
  c_on <- draw (normal base_current (qfrac 8 10) n) ;;
  c_off <- draw (normal (qfrac 3 10) (qfrac 1 10) n) ;;
  let current_ := np_where is_on_ c_on c_off in
  let power := map (fun p => (p / qz 1000)%Qc) (np_mul voltage_ current_) in
  let power := np_clip_min power (qz 0) in
  let step_hours := (qz (time_freq_min cfg) / qz 60)%Qc in
  let energy := map (fun p => (p * step_hours)%Qc) power in
  ret (make_frame idx floor_ room_id_ room_name_
                  voltage_ current_ power energy is_on_).

(** ** Dataset builder *)

(** The inner loop of [load_data], over the rooms of one floor. *)
Fixpoint rooms_loop (cfg : Config) (floor_ : string)
    (rooms : list (string * string)) (frames : list DataFrame)
  : M G (list DataFrame) :=
  match rooms with
  | [] => ret frames
  | (room_id_, room_name_) :: rest =>
      df <- generate_room_data cfg room_id_ floor_ room_name_ ;;
      rooms_loop cfg floor_ rest (frames ++ [df])
  end.

(** The outer loop, over [FLOORS.items()]. *)
Fixpoint floors_loop (cfg : Config)
    (floors : list (string * list (string * string)))
    (frames : list DataFrame) : M G (list DataFrame) :=
  match floors with
  | [] => ret frames
  | (floor_, rooms) :: rest =>
      frames' <- rooms_loop cfg floor_ rooms frames ;;
      floors_loop cfg rest frames'
  end.

(** The frames obtained by synthesizing a list of rooms one after the
    other, each run starting from the generator state the previous one
    left: the relation the two loops of [load_data] compute. *)
Inductive frames_of (cfg : Config)
  : list (string * string * string) -> G -> list DataFrame -> G -> Prop :=
| frames_of_nil g : frames_of cfg [] g [] g
| frames_of_cons room_id_ floor_ room_name_ rest g df g1 dfs g2 :
    generate_room_data cfg room_id_ floor_ room_name_ g = (Returned df, g1) ->
    frames_of cfg rest g1 dfs g2 ->
    frames_of cfg ((room_id_, floor_, room_name_) :: rest) g (df :: dfs) g2.

(** [pd.concat(frames, ignore_index=True)]. *)
Definition pd_concat (frames : list DataFrame) : outcome DataFrame :=
  match frames with
  | [] => Raised ValueError
  | _ => Returned (concat frames)
  end.

(** The body of [load_data], before the cache decorator. *)
Definition load_data_body (cfg : Config)
    (floors : list (string * list (string * string))) : M G DataFrame :=
  frames <- floors_loop cfg floors [] ;;
  lift_outcome (pd_concat frames).

(** A process: the generator state and the [st.cache_data] entry of
    [load_data], empty until the first successful build. *)
Record Process : Type := mkProcess {
  rng : G;
  cache : option DataFrame
}.

Definition fresh (g : G) : Process := mkProcess g None.

(** [load_data()] under [@st.cache_data]: a cached value is served
    without running the body; a computed value is stored; an exception
    stores nothing. *)
Definition load_data (cfg : Config) (p : Process)
  : outcome DataFrame * Process :=
  match cache p with
  | Some df => (Returned df, p)
  | None =>
      match load_data_body cfg FLOORS (rng p) with
      | (Returned df, g') => (Returned df, mkProcess g' (Some df))
      | (Raised e, g') => (Raised e, mkProcess g' None)
      end
  end.

End Synthesis.

(** ** Range filter and aggregation *)

(** [df[name]]: one column of a frame. *)
Definition column {A} (f : Sample -> A) (df : DataFrame) : list A := map f df.

(** [a & b] on boolean columns. *)
Fixpoint mask_and (a b : list bool) : list bool :=
  match a, b with
  | x :: a', y :: b' => (x && y) :: mask_and a' b'
  | _, _ => []
  end.

(** [df[mask]]: the rows whose mask entry is set, in index order. *)
Fixpoint loc_mask (df : DataFrame) (mask : list bool) : DataFrame :=
  match df, mask with
  | r :: df', m :: mask' =>
      if m then r :: loc_mask df' mask' else loc_mask df' mask'
  | _, _ => []
  end.

Definition filter_by_range (df : DataFrame) (start_dt end_dt : datetime)
  : DataFrame :=
  loc_mask df
    (mask_and (map (fun t => start_dt <=? t) (column timestamp df))
              (map (fun t => t <=? end_dt) (column timestamp df))).

(** [series.sum()], the column read as exact rationals: the sum of its
    values.  The binary64 routine is [Float64.series_sum]. *)
Definition series_sum (xs : list Qc) : Qc := fold_left Qcplus xs 0%Qc.

Definition aggregate_energy (df : DataFrame) : Qc * Qc * Qc :=
  let total_energy := series_sum (column energy_kwh_step df) in
  let total_cost := (total_energy * TARIFF_PER_KWH)%Qc in
  let total_co2_kg := (total_energy * CO2_PER_KWH_KG)%Qc in
  (total_energy, total_cost, total_co2_kg).

Section GroupBy.

(** Group keys with their equality and their sort order. *)
Context {K : Type} (eqb ltb : K -> K -> bool).

(** Add one row's value to its group, keeping the groups in key order. *)
Fixpoint group_add (k : K) (v : Qc) (groups : list (K * Qc))
  : list (K * Qc) :=
  match groups with
  | [] => [(k, v)]
  | (k', s) :: rest =>
      if eqb k k' then (k', (s + v)%Qc) :: rest
      else if ltb k k' then (k, v) :: (k', s) :: rest
      else (k', s) :: group_add k v rest
  end.

(** [df.groupby(key)[val].sum().reset_index()]: one row per distinct
    key, keys ascending, each with the sum of its rows' values taken in
    index order. *)
Definition groupby_sum (key : Sample -> K) (val : Sample -> Qc)
    (df : DataFrame) : list (K * Qc) :=
  fold_left (fun groups r => group_add (key r) (val r) groups) df [].

(** [.sort_values(val, ascending=False)]. *)
Fixpoint insert_desc (x : K * Qc) (rows : list (K * Qc)) : list (K * Qc) :=
  match rows with
  | [] => [x]
  | y :: rest =>
      if Qc_ltb (snd x) (snd y) then y :: insert_desc x rest
      else x :: y :: rest
  end.

Definition sort_values_desc (rows : list (K * Qc)) : list (K * Qc) :=
  fold_right insert_desc [] rows.

End GroupBy.

Definition daily_energy (df : DataFrame) : list (Z * Qc) :=
  groupby_sum Z.eqb Z.ltb (fun r => date_of (timestamp r)) energy_kwh_step df.

(** The "Energy by Floor" chart of [building_overview]. *)
Definition energy_by_floor (df_range : DataFrame) : list (string * Qc) :=
  sort_values_desc
    (groupby_sum String.eqb String.ltb floor energy_kwh_step df_range).

(** ** Sums in binary64

    The columns of the running program are float64, and pandas adds a
    column in two ways.  [Series.sum] hands the values to numpy, which adds
    them pairwise: fewer than eight values one after the other, up to 128
    values in eight interleaved running sums that are combined at the end,
    and a longer column as the sum of its two halves.  The sum of a
    [groupby] keeps, for every group, a running sum and a Kahan
    compensation term, and skips NaN.  Both routines belong to the
    libraries, not to [app.py]; they are written out here as the libraries
    define them. *)

Module Float64.

Import PrimFloat.
Local Open Scope float_scope.
#[local] Set Warnings "-inexact-float".

Definition TARIFF_PER_KWH : float := 8.0.
Definition CO2_PER_KWH_KG : float := 0.6.

(** [for x in xs: res += x]. *)
Definition add_all (res : float) (xs : list float) : float :=
  fold_left add xs res.

(** [r[j] += xs[j]] on the eight running sums. *)
Fixpoint lanes_add (r xs : list float) : list float :=
  match r, xs with
  | a :: r', x :: xs' => (a + x) :: lanes_add r' xs'
  | _, _ => r
  end.

(** The unrolled loop over whole blocks of eight values; the result is
    the running sums and the values left over. *)
Fixpoint unrolled (blocks : nat) (r xs : list float)
  : list float * list float :=
  match blocks with
  | O => (r, xs)
  | S b => unrolled b (lanes_add r (firstn 8 xs)) (skipn 8 xs)
  end.

(** A column of 8 to 128 values. *)
Definition block_sum (xs : list float) : float :=
  let n := length xs in
  let (r, rest) := unrolled (n / 8 - 1) (firstn 8 xs) (skipn 8 xs) in
  match r with
  | [r0; r1; r2; r3; r4; r5; r6; r7] =>
      add_all (((r0 + r1) + (r2 + r3)) + ((r4 + r5) + (r6 + r7))) rest
  | _ => add_all (-0) xs
  end.

(** numpy's pairwise sum; [depth] bounds the halving, and the length of
    the column is enough. *)
Fixpoint pairwise_sum (depth : nat) (xs : list float) : float :=
  let n := length xs in
  if (n <? 8)%nat then add_all (-0) xs
  else if (n <=? 128)%nat then block_sum xs
  else
    match depth with
    | O => block_sum xs
    | S d =>
        let n2 := (n / 2 - (n / 2) mod 8)%nat in
        pairwise_sum d (firstn n2 xs) + pairwise_sum d (skipn n2 xs)
    end.

(** [series.sum()] on a float64 column. *)
Definition series_sum (xs : list float) : float :=
  0 + pairwise_sum (length xs) xs.

(** [aggregate_energy] on the energy column of a frame. *)
Definition aggregate_energy (energy_kwh_step : list float)
  : float * float * float :=
  let total_energy := series_sum energy_kwh_step in
  let total_cost := total_energy * TARIFF_PER_KWH in
  let total_co2_kg := total_energy * CO2_PER_KWH_KG in
  (total_energy, total_cost, total_co2_kg).

(** One step of the group sum on a pair (running sum, compensation). *)
Definition kahan_add (acc : float * float) (val : float) : float * float :=
  if is_nan val then acc
  else
    let (sumx, compensation) := acc in
    let y := val - compensation in
    let t := sumx + y in
    let c := t - sumx - y in
    (t, if is_nan c then 0 else c).

Section GroupBy.

Context {K : Type} (eqb ltb : K -> K -> bool).

Fixpoint group_add (k : K) (val : float) (groups : list (K * (float * float)))
  : list (K * (float * float)) :=
  match groups with
  | [] => [(k, kahan_add (0, 0) val)]
  | (k', acc) :: rest =>
      if eqb k k' then (k', kahan_add acc val) :: rest
      else if ltb k k' then (k, kahan_add (0, 0) val) :: (k', acc) :: rest
      else (k', acc) :: group_add k val rest
  end.

(** [df.groupby(key)[val].sum().reset_index()] on the two columns
    (key, value) of a frame. *)
Definition groupby_sum (rows : list (K * float)) : list (K * float) :=
  map (fun g => (fst g, fst (snd g)))
      (fold_left (fun groups r => group_add (fst r) (snd r) groups) rows []).

End GroupBy.

End Float64.

(** ** Query entry point *)

Inductive View : Type :=
| BuildingOverview
| FloorView
| RoomView
| ManageDevices.

(** What a run writes besides the selected view. *)
Inductive notice : Type :=
| SidebarError      (* "End datetime must be after start datetime." *)
| SidebarCaption (start_dt end_dt : datetime)
| NoDataWarning.    (* "No data in the selected range. ..." *)

(** The figures of [building_overview] that come from the aggregation
    helpers: the three totals, the per-floor energy and the daily trend
    (the room tiles and the load profile are left out). *)
Record Overview : Type := mkOverview {
  totals : Qc * Qc * Qc;
  by_floor : list (string * Qc);
  daily : list (Z * Qc)
}.

Inductive Page : Type :=
| OverviewPage (o : Overview)
| OtherPage (view : View) (df_range : DataFrame).

Definition building_overview (df_range : DataFrame) : Overview :=
  mkOverview (aggregate_energy df_range)
             (energy_by_floor df_range)
             (daily_energy df_range).

(** The range check of [sidebar_controls]; it reports and returns the
    pair all the same. *)
Definition sidebar_notice (start_dt end_dt : datetime) : notice :=
  if end_dt <=? start_dt then SidebarError
  else SidebarCaption start_dt end_dt.

(** [main], from the loaded frame and the sidebar's return value on. *)
Definition main (df : DataFrame) (view : View) (start_dt end_dt : datetime)
  : list notice * outcome Page :=
  let shown := [sidebar_notice start_dt end_dt] in
  if end_dt <=? start_dt then (shown, Raised StopException)
  else
    let df_range := filter_by_range df start_dt end_dt in
    match df_range with
    | [] => (shown ++ [NoDataWarning], Raised StopException)
    | _ =>
        match view with
        | BuildingOverview =>
            (shown, Returned (OverviewPage (building_overview df_range)))
        | _ => (shown, Returned (OtherPage view df_range))
        end
    end.

(** ** Vocabulary of the statements *)

(** The weekdays on which the schedule applies: Monday (0) to Friday (4). *)
Definition active_weekday (wd : Z) : Prop := 0 <= wd < 5.

(** A time of day lies in a window, both ends included. *)
Definition within_window (t : time) (w : time * time) : Prop :=
  fst w <= t <= snd w.

(** The test "start <= timestamp <= end" on a row. *)
Definition in_range (start_dt end_dt : datetime) (r : Sample) : bool :=
  (start_dt <=? timestamp r) && (timestamp r <=? end_dt).

(** The grid [start, start + stride, ...] of [n] points. *)
Definition regular_grid (start stride : Z) (n : nat) : list datetime :=
  map (fun k => start + Z.of_nat k * stride) (seq 0 n).

(** The rows of one room. *)
Definition rows_of_room (room : string) (df : DataFrame) : DataFrame :=
  filter (fun r => String.eqb (room_id r) room) df.

(** The larger of two rationals. *)
Definition Qcmax (x y : Qc) : Qc := if Qclt_le_dec x y then y else x.

(** One entry of [np.clip(a, 0, None)]. *)
Definition clip0 (x : Qc) : Qc := if Qc_ltb x (qz 0) then qz 0 else x.

(** Row [i] of a room's frame, written from the grid and the four arrays
    drawn for the room: the schedule state picks the "on" or the "off"
    draw of voltage and of current, the power is the clipped product and
    the energy is the power times the step in hours. *)
Definition room_row (cfg : Config) (room_id_ floor_ room_name_ : string)
    (idx : list datetime) (v_on v_off c_on c_off : list Qc) (i : nat)
  : Sample :=
  let ts := nth i idx 0 in
  let on := is_ac_on ts in
  let v := if on then nth i v_on 0%Qc else nth i v_off 0%Qc in
  let c := if on then nth i c_on 0%Qc else nth i c_off 0%Qc in
  let p := clip0 (v * c / qz 1000)%Qc in
  mkSample ts floor_ room_id_ room_name_ v c p
           (p * (qz (time_freq_min cfg) / qz 60))%Qc on.

(** A frame is the frame of a room when it is the rows [room_row] over
    the configured grid, for some four drawn arrays. *)
Definition room_frame (cfg : Config) (u : string * string * string)
    (df : DataFrame) : Prop :=
  exists idx v_on v_off c_on c_off,
    date_range (start_date cfg) (end_date cfg) (time_freq_min cfg)
    = Returned idx /\
    df = map (room_row cfg (fst (fst u)) (snd (fst u)) (snd u)
                       idx v_on v_off c_on c_off)
             (seq 0 (length idx)).

(** The rooms of a catalog in the order [load_data] visits them, as
    (room id, floor, room name). *)
Definition catalog (floors : list (string * list (string * string)))
  : list (string * string * string) :=
  flat_map (fun fr => map (fun rm => (fst rm, fst fr, snd rm)) (snd fr)) floors.

(** A row with the given timestamp, floor, room and step energy, for
    running the filter and the aggregations on small frames. *)
Definition demo_row (ts : datetime) (floor_ room_id_ : string) (energy : Qc)
  : Sample :=
  mkSample ts floor_ room_id_ room_id_ (qz 230) (qz 8) (energy * qz 4)%Qc
           energy true.

(** ** A concrete generator

    A deterministic stand-in for [np.random], used to run the model: the
    state is a counter, [uniform] alternates between the lower bound and
    the midpoint, and [normal] offsets [loc] by [scale] times a value that
    cycles through -4, ..., 4. *)

Definition noise (k : nat) : Qc := qz (Z.of_nat (k mod 9) - 4).

Definition counter_uniform (low high : Qc) (g : nat) : Qc * nat :=
  ((if Nat.even g then low else (low + high) / qz 2)%Qc, S g).

Definition counter_normal (loc scale : Qc) (n : nat) (g : nat)
  : list Qc * nat :=
  (map (fun i => (loc + scale * noise (g + i))%Qc) (seq 0 n), (g + n)%nat).

Lemma counter_uniform_range (low high : Qc) (g : nat) :
  (low <= high)%Qc ->
  (low <= fst (counter_uniform low high g) <= high)%Qc.
Proof.
  intros Hle. unfold counter_uniform; simpl.
  destruct (Nat.even g).
  - split; [apply Qcle_refl | exact Hle].
  - unfold Qcle in *.
    assert (Hmid : ((low + high) / qz 2)%Qc == (low + high) / 2).
    { unfold Qcdiv, Qcmult, Qcinv, Qcplus, qz, Q2Qc; cbn [this].
      rewrite !Qred_correct. reflexivity. }
    rewrite Hmid. split.
    + apply Qle_shift_div_l; [reflexivity |].
      setoid_replace (low * 2)%Q with (low + low)%Q by ring.
      apply Qplus_le_compat; [apply Qle_refl | exact Hle].
    + apply Qle_shift_div_r; [reflexivity |].
      setoid_replace (high * 2)%Q with (high + high)%Q by ring.
      apply Qplus_le_compat; [exact Hle | apply Qle_refl].
Qed.

Lemma counter_normal_size (loc scale : Qc) (n g : nat) :
  length (fst (counter_normal loc scale n g)) = n.
Proof. unfold counter_normal; simpl. now rewrite length_map, length_seq. Qed.

#[export] Instance counter_gen : RandomGen nat := {
  uniform := counter_uniform;
  normal := counter_normal;
  uniform_range := counter_uniform_range;
  normal_size := counter_normal_size
}.

(** Saturday 2025-11-01, 00:00 to 01:00 in steps of 15 minutes: five grid
    points, all outside the schedule. *)
Definition short_config : Config :=
  mkConfig (mk_datetime 2025 11 1 0 0) (mk_datetime 2025 11 1 1 0) 15.

(** ** A generator that records its calls

    Any generator can be wrapped so that every call of [uniform] and
    [normal] is appended, with its arguments and its result, to a log
    carried next to the state.  The values drawn are those of the wrapped
    generator; the log shows which draws a computation made, in order. *)

Inductive draw_call : Type :=
| Uniform (low high : Qc) (result : Qc)
| Normal (loc scale : Qc) (size : nat) (result : list Qc).

Definition Logged (G : Type) : Type := (G * list draw_call)%type.

Section Logging.

Context {G : Type} `{RandomGen G}.

Definition logged_uniform (low high : Qc) (s : Logged G) : Qc * Logged G :=
  let (x, g') := uniform low high (fst s) in
  (x, (g', snd s ++ [Uniform low high x])).

Definition logged_normal (loc scale : Qc) (n : nat) (s : Logged G)
  : list Qc * Logged G :=
  let (xs, g') := normal loc scale n (fst s) in
  (xs, (g', snd s ++ [Normal loc scale n xs])).

Lemma logged_uniform_range low high (s : Logged G) :
  (low <= high)%Qc ->
  (low <= fst (logged_uniform low high s) <= high)%Qc.
Proof.
  intros Hle. unfold logged_uniform.
  pose proof (uniform_range low high (fst s) Hle) as Hr.
  destruct (uniform low high (fst s)). exact Hr.
Qed.

Lemma logged_normal_size loc scale n (s : Logged G) :
  length (fst (logged_normal loc scale n s)) = n.
Proof.
  unfold logged_normal.
  pose proof (normal_size loc scale n (fst s)) as Hn.
  destruct (normal loc scale n (fst s)). exact Hn.
Qed.

#[export] Instance logged_gen : RandomGen (Logged G) := {
  uniform := logged_uniform;
  normal := logged_normal;
  uniform_range := logged_uniform_range;
  normal_size := logged_normal_size
}.

End Logging.

(** * Properties *)

(** ** Schedule oracle *)

Lemma weekday_range ts : 0 <= weekday ts < 7.
Proof. unfold weekday. apply Z.mod_pos_bound. lia. Qed.

Lemma schedule_loop_spec t schedule :
  schedule_loop t schedule = true <->
  exists w, In w schedule /\ within_window t w.
Proof.
  induction schedule as [| [s e] rest IH]; simpl.
  - split; [discriminate | intros (w & [] & _)].
  - destruct ((s <=? t) && (t <=? e)) eqn:Hw.
    + split; [intros _ | reflexivity].
      apply andb_true_iff in Hw as [Hs He].
      exists (s, e). split; [now left |]. unfold within_window; simpl. lia.
    + rewrite IH. split.
      * intros (w & Hin & Hin'). exists w. split; [now right | assumption].
      * intros (w & [Heq | Hin] & Hww); [| now exists w].
        subst w. unfold within_window in Hww; simpl in Hww.
        apply andb_false_iff in Hw as [Hs | He]; lia.
Qed.

Lemma is_ac_on_inactive ts :
  ~ active_weekday (weekday ts) -> is_ac_on ts = false.
Proof.
  intros Hna. unfold is_ac_on.
  destruct (5 <=? weekday ts) eqn:Hwd; [reflexivity |].
  exfalso. apply Hna. pose proof (weekday_range ts).
  unfold active_weekday. lia.
Qed.

Lemma is_ac_on_active ts :
  active_weekday (weekday ts) ->
  is_ac_on ts = schedule_loop (time_of ts) WEEKDAY_SCHEDULE.
Proof.
  intros [_ Hlt]. unfold is_ac_on.
  destruct (5 <=? weekday ts) eqn:Hwd; [lia | reflexivity].
Qed.

(** C3. [is_ac_on] is false on every timestamp whose weekday is not an
    active one, in particular on every Saturday (5) and Sunday (6); on an
    active weekday it is true exactly when the time of day lies in one of
    the windows of [WEEKDAY_SCHEDULE], both ends included, so that 09:00:00
    and 12:00:00 sharp are active. *)
Theorem is_ac_on_schedule :
  (forall ts, ~ active_weekday (weekday ts) -> is_ac_on ts = false) /\
  (forall ts, weekday ts = 5 \/ weekday ts = 6 -> is_ac_on ts = false) /\
  (forall ts, active_weekday (weekday ts) ->
     (is_ac_on ts = true <->
      exists w, In w WEEKDAY_SCHEDULE /\ within_window (time_of ts) w)) /\
  (forall ts, active_weekday (weekday ts) ->
     time_of ts = mk_time 9 0 \/ time_of ts = mk_time 12 0 ->
     is_ac_on ts = true).
Proof.
  split; [exact is_ac_on_inactive |].
  split.
  { intros ts Hwe. apply is_ac_on_inactive. unfold active_weekday. lia. }
  split.
  { intros ts Hact. rewrite (is_ac_on_active ts Hact).
    apply schedule_loop_spec. }
  intros ts Hact Hb. rewrite (is_ac_on_active ts Hact).
  destruct Hb as [-> | ->]; reflexivity.
Qed.

(** Saturday 2025-11-01 10:00 is inactive; Monday 2025-11-03 is active at
    09:00 and at 12:00 sharp. *)
Lemma is_ac_on_schedule_witness :
  is_ac_on (mk_datetime 2025 11 1 10 0) = false /\
  is_ac_on (mk_datetime 2025 11 3 9 0) = true /\
  is_ac_on (mk_datetime 2025 11 3 12 0) = true /\
  (exists w, In w WEEKDAY_SCHEDULE /\
             within_window (time_of (mk_datetime 2025 11 3 12 0)) w).
Proof.
  destruct is_ac_on_schedule as (Hoff & Hwe & Hiff & Hedge).
  assert (Hnine : active_weekday (weekday (mk_datetime 2025 11 3 9 0)))
    by (vm_compute; split; [discriminate | reflexivity]).
  assert (Hnoon : active_weekday (weekday (mk_datetime 2025 11 3 12 0)))
    by (vm_compute; split; [discriminate | reflexivity]).
  split; [apply Hwe; left; reflexivity |].
  split; [apply (Hedge _ Hnine); left; reflexivity |].
  split; [apply (Hedge _ Hnoon); right; reflexivity |].
  apply (proj1 (Hiff _ Hnoon)).
  apply (Hedge _ Hnoon). right. reflexivity.
Defined.

(** ** Range filter *)

Lemma filter_by_range_filter df start_dt end_dt :
  filter_by_range df start_dt end_dt = filter (in_range start_dt end_dt) df.
Proof.
  unfold filter_by_range, column.
  induction df as [| r df IH]; simpl; [reflexivity |].
  unfold in_range at 1.
  destruct ((start_dt <=? timestamp r) && (timestamp r <=? end_dt));
    now rewrite IH.
Qed.

Lemma in_range_spec start_dt end_dt r :
  in_range start_dt end_dt r = true <-> start_dt <= timestamp r <= end_dt.
Proof. unfold in_range. rewrite andb_true_iff. lia. Qed.

Lemma filter_by_range_In df start_dt end_dt r :
  In r (filter_by_range df start_dt end_dt) <->
  In r df /\ start_dt <= timestamp r <= end_dt.
Proof.
  rewrite filter_by_range_filter, filter_In, in_range_spec. reflexivity.
Qed.

Lemma filter_nil_iff {A} (f : A -> bool) (l : list A) :
  filter f l = [] <-> forall x, In x l -> f x = false.
Proof.
  induction l as [| a l IH]; simpl.
  - split; [intros _ x [] | reflexivity].
  - destruct (f a) eqn:Hfa.
    + split; [discriminate |]. intros Hall.
      rewrite (Hall a (or_introl eq_refl)) in Hfa. discriminate.
    + rewrite IH. split.
      * intros Hall x [<- | Hin]; [exact Hfa | now apply Hall].
      * intros Hall x Hin. apply Hall. now right.
Qed.

Lemma filter_by_range_nil_iff df start_dt end_dt :
  filter_by_range df start_dt end_dt = [] <->
  forall r, In r df -> ~ (start_dt <= timestamp r <= end_dt).
Proof.
  rewrite filter_by_range_filter. split.
  - intros Hnil r Hin Hr. apply in_range_spec in Hr.
    rewrite (proj1 (filter_nil_iff _ _) Hnil r Hin) in Hr. discriminate.
  - intros Hall. apply filter_nil_iff. intros r Hin.
    destruct (in_range start_dt end_dt r) eqn:Hr; [| reflexivity].
    exfalso. apply (Hall r Hin). now apply in_range_spec.
Qed.

(** C7. [filter_by_range] keeps, in index order, exactly the rows with
    [start_dt <= timestamp <= end_dt]: a row of the frame is in the result
    iff its timestamp lies in the closed interval; with
    [start_dt <= end_dt] a row stamped [end_dt] is kept, and a row stamped
    one positive step after [end_dt] is not.  The call always returns a
    frame, which is empty exactly when no row lies in the range. *)
Theorem filter_by_range_inclusive (df : DataFrame) (start_dt end_dt : datetime) :
  filter_by_range df start_dt end_dt = filter (in_range start_dt end_dt) df /\
  (forall r, In r (filter_by_range df start_dt end_dt) <->
             In r df /\ start_dt <= timestamp r <= end_dt) /\
  (start_dt <= end_dt ->
   forall r, In r df -> timestamp r = end_dt ->
             In r (filter_by_range df start_dt end_dt)) /\
  (forall r step, 0 < step -> timestamp r = end_dt + step ->
                  ~ In r (filter_by_range df start_dt end_dt)) /\
  (filter_by_range df start_dt end_dt = [] <->
   forall r, In r df -> ~ (start_dt <= timestamp r <= end_dt)).
Proof.
  split; [apply filter_by_range_filter |].
  split; [apply filter_by_range_In |].
  split.
  { intros Hse r Hin Hts. apply filter_by_range_In. split; [exact Hin | lia]. }
  split.
  { intros r step Hpos Hts Hin. apply filter_by_range_In in Hin. lia. }
  apply filter_by_range_nil_iff.
Qed.

(** Three rows a quarter of an hour apart, filtered to the first two
    stamps: the row at the end stamp is kept, the next one is not. *)
Lemma filter_by_range_inclusive_witness :
  let df := [ demo_row 0 "Floor 1" "F1-101" (qz 1);
              demo_row (minutes 15) "Floor 1" "F1-101" (qz 2);
              demo_row (minutes 30) "Floor 1" "F1-101" (qz 3) ] in
  In (demo_row (minutes 15) "Floor 1" "F1-101" (qz 2))
     (filter_by_range df 0 (minutes 15)) /\
  ~ In (demo_row (minutes 30) "Floor 1" "F1-101" (qz 3))
       (filter_by_range df 0 (minutes 15)).
Proof.
  intros df.
  destruct (filter_by_range_inclusive df 0 (minutes 15))
    as (_ & _ & Hend & Hnext & _).
  split.
  - apply Hend; [vm_compute; discriminate | | reflexivity].
    right; left; reflexivity.
  - apply (Hnext _ (minutes 15)); [reflexivity | reflexivity].
Defined.

(** ** Totals *)

Lemma fold_left_Qcplus (xs : list Qc) (a : Qc) :
  fold_left Qcplus xs a = (a + series_sum xs)%Qc.
Proof.
  unfold series_sum. revert a.
  induction xs as [| x xs IH]; intros a; simpl.
  - ring.
  - rewrite (IH (a + x)%Qc), (IH (0 + x)%Qc). ring.
Qed.

Lemma series_sum_nil : series_sum [] = 0%Qc.
Proof. reflexivity. Qed.

Lemma series_sum_cons x xs : series_sum (x :: xs) = (x + series_sum xs)%Qc.
Proof.
  unfold series_sum at 1; simpl. rewrite fold_left_Qcplus. ring.
Qed.

Lemma series_sum_app xs ys :
  series_sum (xs ++ ys) = (series_sum xs + series_sum ys)%Qc.
Proof.
  induction xs as [| x xs IH]; simpl.
  - rewrite series_sum_nil. ring.
  - rewrite !series_sum_cons, IH. ring.
Qed.

(** C10. On an empty frame [aggregate_energy] returns the triple
    (0, 0, 0): the empty sum is zero and so are the cost and the emissions
    derived from it.  This is what it returns on every range that selects
    no row. *)
Theorem aggregate_energy_empty :
  aggregate_energy [] = (0%Qc, 0%Qc, 0%Qc) /\
  (forall df start_dt end_dt,
     (forall r, In r df -> ~ (start_dt <= timestamp r <= end_dt)) ->
     aggregate_energy (filter_by_range df start_dt end_dt)
     = (0%Qc, 0%Qc, 0%Qc)).
Proof.
  assert (Hnil : aggregate_energy [] = (0%Qc, 0%Qc, 0%Qc)).
  { unfold aggregate_energy, column; simpl. rewrite series_sum_nil.
    now rewrite !Qcmult_0_l. }
  split; [exact Hnil |].
  intros df start_dt end_dt Hnone.
  rewrite (proj2 (filter_by_range_nil_iff df start_dt end_dt) Hnone).
  exact Hnil.
Qed.

(** A frame whose only row is stamped after the queried range. *)
Lemma aggregate_energy_empty_witness :
  aggregate_energy
    (filter_by_range [demo_row (minutes 30) "Floor 1" "F1-101" (qz 3)]
                     0 (minutes 15))
  = (0%Qc, 0%Qc, 0%Qc).
Proof.
  apply (proj2 aggregate_energy_empty).
  intros r [<- | []]. vm_compute. intros [_ Hle]. apply Hle. reflexivity.
Defined.

(** ** Grouped sums *)

Section GroupByFacts.

Context {K : Type} (eqb ltb : K -> K -> bool).

Lemma group_add_sum k v (groups : list (K * Qc)) :
  series_sum (map snd (group_add eqb ltb k v groups))
  = (series_sum (map snd groups) + v)%Qc.
Proof.
  induction groups as [| [k' s] rest IH]; simpl.
  - rewrite series_sum_cons, !series_sum_nil. ring.
  - destruct (eqb k k'); [| destruct (ltb k k')]; simpl;
      rewrite !series_sum_cons; try rewrite IH; ring.
Qed.

Lemma fold_group_add_sum (key : Sample -> K) (val : Sample -> Qc)
    (df : DataFrame) (groups : list (K * Qc)) :
  series_sum
    (map snd
       (fold_left (fun gs r => group_add eqb ltb (key r) (val r) gs)
                  df groups))
  = (series_sum (map snd groups) + series_sum (map val df))%Qc.
Proof.
  revert groups.
  induction df as [| r df IH]; intros groups; simpl.
  - rewrite series_sum_nil. ring.
  - rewrite IH, group_add_sum, series_sum_cons. ring.
Qed.

Lemma groupby_sum_total (key : Sample -> K) (val : Sample -> Qc)
    (df : DataFrame) :
  series_sum (map snd (groupby_sum eqb ltb key val df))
  = series_sum (column val df).
Proof.
  unfold groupby_sum, column. rewrite fold_group_add_sum; simpl.
  rewrite series_sum_nil. ring.
Qed.

Lemma insert_desc_sum (x : K * Qc) (rows : list (K * Qc)) :
  series_sum (map snd (insert_desc x rows))
  = (snd x + series_sum (map snd rows))%Qc.
Proof.
  induction rows as [| y rest IH]; simpl.
  - now rewrite series_sum_cons.
  - destruct (Qc_ltb (snd x) (snd y)); simpl;
      rewrite !series_sum_cons; try rewrite IH; ring.
Qed.

Lemma sort_values_desc_sum (rows : list (K * Qc)) :
  series_sum (map snd (sort_values_desc rows))
  = series_sum (map snd rows).
Proof.
  induction rows as [| x rest IH]; simpl; [reflexivity |].
  now rewrite insert_desc_sum, IH, series_sum_cons.
Qed.

End GroupByFacts.

(** C8, for exact sums.  With the sums taken exactly, whatever the
    grouping key (with its equality test and its sort order), the
    per-group energy sums of a frame add up to the total energy that
    [aggregate_energy] computes on the same frame; so do the rows of the
    per-floor chart of [building_overview] and the rows of
    [daily_energy].  In binary64 the two sides are rounded in different
    ways and need not be equal, as the three readings below show. *)
Theorem grouped_energy_sums_to_total :
  (forall (K : Type) (eqb ltb : K -> K -> bool) (key : Sample -> K)
          (df : DataFrame),
     series_sum (map snd (groupby_sum eqb ltb key energy_kwh_step df))
     = fst (fst (aggregate_energy df))) /\
  (forall df : DataFrame,
     series_sum (map snd (energy_by_floor df))
     = fst (fst (aggregate_energy df))) /\
  (forall df : DataFrame,
     series_sum (map snd (daily_energy df))
     = fst (fst (aggregate_energy df))).
Proof.
  split; [| split].
  - intros K eqb ltb key df. apply groupby_sum_total.
  - intros df. unfold energy_by_floor.
    rewrite sort_values_desc_sum. apply groupby_sum_total.
  - intros df. apply groupby_sum_total.
Qed.

Section Binary64Sums.

Import PrimFloat.
#[local] Set Warnings "-inexact-float".

(** C8 in binary64.  Three readings of 0.1, 0.2 and 0.3 kWh on one
    floor: grouped by floor they give the one total 0.6, the total of
    [aggregate_energy] on the same rows is 0.6000000000000001, and the
    sum over the groups is not equal to it. *)
Lemma grouped_energy_rounds_apart :
  let rows := [ ("Floor 1"%string, 0.1%float);
                ("Floor 1"%string, 0.2%float);
                ("Floor 1"%string, 0.3%float) ] in
  let groups := Float64.groupby_sum String.eqb String.ltb rows in
  let total_energy := fst (fst (Float64.aggregate_energy (map snd rows))) in
  groups = [("Floor 1"%string, 0.6%float)] /\
  total_energy = 0.6000000000000001%float /\
  PrimFloat.eqb (Float64.series_sum (map snd groups)) total_energy = false.
Proof. vm_compute. repeat split. Qed.

End Binary64Sums.

(** Four rows on two floors and two days: the groups are the distinct
    keys in ascending order, each with the sum of its rows. *)
Example groupby_floor_rows :
  map (fun kv => (fst kv, this (snd kv)))
      (groupby_sum String.eqb String.ltb floor energy_kwh_step
         [ demo_row 0 "Floor 2" "F2-201" (qz 1);
           demo_row 0 "Floor 1" "F1-101" (qz 2);
           demo_row (minutes 1440) "Floor 2" "F2-202" (qz 3);
           demo_row (minutes 1440) "Floor 1" "F1-101" (qz 5) ])
  = [ ("Floor 1"%string, 7 # 1); ("Floor 2"%string, 4 # 1) ].
Proof. vm_compute. reflexivity. Qed.

Example energy_by_floor_rows :
  map (fun kv => (fst kv, this (snd kv)))
      (energy_by_floor
         [ demo_row 0 "Floor 2" "F2-201" (qz 1);
           demo_row 0 "Floor 1" "F1-101" (qz 2);
           demo_row (minutes 1440) "Floor 2" "F2-202" (qz 30);
           demo_row (minutes 1440) "Floor 1" "F1-101" (qz 5) ])
  = [ ("Floor 2"%string, 31 # 1); ("Floor 1"%string, 7 # 1) ].
Proof. vm_compute. reflexivity. Qed.

Example daily_energy_rows :
  map (fun kv => (fst kv - date_of 0, this (snd kv)))
      (daily_energy
         [ demo_row 0 "Floor 2" "F2-201" (qz 1);
           demo_row (minutes 1439) "Floor 1" "F1-101" (qz 2);
           demo_row (minutes 1440) "Floor 2" "F2-202" (qz 3) ])
  = [ (0, 3 # 1); (1, 3 # 1) ].
Proof. vm_compute. reflexivity. Qed.

(** ** The timestamp grid *)

Lemma nth_map_in {A B} (f : A -> B) (l : list A) (i : nat) (d : B) (d' : A) :
  (i < length l)%nat -> nth i (map f l) d = f (nth i l d').
Proof.
  revert i. induction l as [| a l IH]; intros [| i] Hi; simpl in *;
    try lia; [reflexivity | apply IH; lia].
Qed.

Lemma minutes_pos f : 0 < f -> 0 < minutes f.
Proof. unfold minutes, US_PER_MINUTE, US_PER_SECOND. lia. Qed.

Lemma minutes_eqb_zero f : f <> 0 -> (minutes f =? 0) = false.
Proof.
  intros Hf. apply Z.eqb_neq.
  unfold minutes, US_PER_MINUTE, US_PER_SECOND. lia.
Qed.

Lemma date_range_returns start end_ f :
  f <> 0 -> exists idx, date_range start end_ f = Returned idx.
Proof.
  intros Hf. unfold date_range. rewrite (minutes_eqb_zero f Hf).
  eexists. reflexivity.
Qed.

Lemma date_range_zero start end_ :
  date_range start end_ 0 = Raised ZeroDivisionError.
Proof. reflexivity. Qed.

Lemma date_range_grid start end_ f :
  0 < f -> start <= end_ ->
  date_range start end_ f
  = Returned (regular_grid start (minutes f)
                (Z.to_nat ((end_ - start) / minutes f + 1))).
Proof.
  intros Hf Hse. pose proof (minutes_pos f Hf) as Hpos.
  unfold date_range. rewrite minutes_eqb_zero by lia.
  unfold np_arange, regular_grid. do 3 f_equal.
  set (stride := minutes f) in *.
  set (q := (end_ - start) / stride).
  assert (Hhalf : 0 <= stride / 2 < stride).
  { split; [apply Z.div_pos; lia | apply Z.div_lt_upper_bound; lia]. }
  replace (start - (start + q * stride + stride / 2 + 1))
    with (- (q + 1) * stride + (stride - stride / 2 - 1)) by lia.
  rewrite Z.div_add_l by lia.
  rewrite Z.div_small by lia. lia.
Qed.

Lemma date_range_reversed start end_ f :
  0 < f -> end_ < start -> date_range start end_ f = Returned [].
Proof.
  intros Hf Hes. pose proof (minutes_pos f Hf) as Hpos.
  unfold date_range. rewrite minutes_eqb_zero by lia.
  unfold np_arange.
  set (stride := minutes f) in *.
  set (q := (end_ - start) / stride).
  assert (Hq : q <= -1).
  { assert (q < 0); [| lia]. apply Z.div_lt_upper_bound; lia. }
  assert (Hhalf : 0 <= stride / 2 < stride).
  { split; [apply Z.div_pos; lia | apply Z.div_lt_upper_bound; lia]. }
  assert (Hd : 0 <= (start - (start + q * stride + stride / 2 + 1)) / stride).
  { apply Z.div_pos; [nia | lia]. }
  replace (Z.to_nat _) with 0%nat by lia. reflexivity.
Qed.

Lemma regular_grid_length start stride n :
  length (regular_grid start stride n) = n.
Proof. unfold regular_grid. now rewrite length_map, length_seq. Qed.

Lemma regular_grid_nth start stride n i :
  (i < n)%nat ->
  nth i (regular_grid start stride n) 0 = start + Z.of_nat i * stride.
Proof.
  intros Hi. unfold regular_grid.
  rewrite (nth_map_in _ _ _ _ 0%nat) by now rewrite length_seq.
  now rewrite seq_nth.
Qed.

Lemma regular_grid_NoDup start stride n :
  0 < stride -> NoDup (regular_grid start stride n).
Proof.
  intros Hpos. unfold regular_grid.
  apply Finite.Injective_map_NoDup; [| apply seq_NoDup].
  intros a b Hab. nia.
Qed.

Lemma regular_grid_last start stride end_ :
  0 < stride -> start <= end_ -> (stride | end_ - start) ->
  let n := Z.to_nat ((end_ - start) / stride + 1) in
  nth (n - 1) (regular_grid start stride n) 0 = end_.
Proof.
  intros Hpos Hse [k Hk] n.
  assert (Hq : (end_ - start) / stride = k).
  { rewrite Hk. apply Z.div_mul. lia. }
  assert (Hk0 : 0 <= k) by (rewrite <- Hq; apply Z.div_pos; lia).
  rewrite regular_grid_nth by (subst n; lia).
  subst n. rewrite Hq.
  replace (Z.of_nat (Z.to_nat (k + 1) - 1)) with k by lia. lia.
Qed.

(** ** Arrays *)

Lemma np_where_length {A} (cond : list bool) (x y : list A) :
  length x = length cond -> length y = length cond ->
  length (np_where cond x y) = length cond.
Proof.
  revert x y. induction cond as [| c cond IH]; intros [| a x] [| b y];
    simpl; intros Hx Hy; try discriminate; [reflexivity |].
  f_equal. apply IH; congruence.
Qed.

Lemma np_where_nth {A} (cond : list bool) (x y : list A) (i : nat) (d : A) :
  length x = length cond -> length y = length cond ->
  nth i (np_where cond x y) d
  = if nth i cond false then nth i x d else nth i y d.
Proof.
  revert x y i. induction cond as [| c cond IH]; intros [| a x] [| b y] i;
    simpl; intros Hx Hy; try discriminate.
  - destruct i; reflexivity.
  - destruct i as [| i]; [reflexivity |]. apply IH; congruence.
Qed.

Lemma np_mul_length (x y : list Qc) :
  length y = length x -> length (np_mul x y) = length x.
Proof.
  revert y. induction x as [| a x IH]; intros [| b y]; simpl; intros Hy;
    try discriminate; [reflexivity |].
  f_equal. apply IH. congruence.
Qed.

Lemma np_mul_nth (x y : list Qc) (i : nat) :
  length y = length x ->
  nth i (np_mul x y) 0%Qc = (nth i x 0%Qc * nth i y 0%Qc)%Qc.
Proof.
  revert y i. induction x as [| a x IH]; intros [| b y] i; simpl; intros Hy;
    try discriminate.
  - destruct i; ring.
  - destruct i as [| i]; [reflexivity |]. apply IH. congruence.
Qed.

(** ** Signal synthesizer *)

Section SynthesisFacts.

Context {G : Type} `{RandomGen G}.

(** One run of [generate_room_data], draw by draw: the frame has one
    row per grid point, and row [i] is [room_row] at [i]. *)
Lemma generate_room_data_run cfg rid fl rn (g : G) idx
      bc g1 bv g2 v_on g3 v_off g4 c_on g5 c_off g6 :
  date_range (start_date cfg) (end_date cfg) (time_freq_min cfg)
  = Returned idx ->
  uniform (qz 7) (qz 10) g = (bc, g1) ->
  uniform (qz 225) (qz 235) g1 = (bv, g2) ->
  normal bv (qz 2) (length idx) g2 = (v_on, g3) ->
  normal (bv - qz 2)%Qc (qz 1) (length idx) g3 = (v_off, g4) ->
  normal bc (qfrac 8 10) (length idx) g4 = (c_on, g5) ->
  normal (qfrac 3 10) (qfrac 1 10) (length idx) g5 = (c_off, g6) ->
  generate_room_data cfg rid fl rn g
  = (Returned (map (room_row cfg rid fl rn idx v_on v_off c_on c_off)
                   (seq 0 (length idx))), g6).
Proof.
  intros Hidx Hbc Hbv Hvon Hvoff Hcon Hcoff.
  unfold generate_room_data, bind, lift_outcome, draw, ret.
  rewrite Hidx, Hbc, Hbv, Hvon, Hvoff, Hcon, Hcoff.
  f_equal. f_equal. unfold make_frame.
  assert (Lvon : length v_on = length idx)
    by (rewrite <- (normal_size bv (qz 2) (length idx) g2); now rewrite Hvon).
  assert (Lvoff : length v_off = length idx)
    by (rewrite <- (normal_size (bv - qz 2)%Qc (qz 1) (length idx) g3);
        now rewrite Hvoff).
  assert (Lcon : length c_on = length idx)
    by (rewrite <- (normal_size bc (qfrac 8 10) (length idx) g4);
        now rewrite Hcon).
  assert (Lcoff : length c_off = length idx)
    by (rewrite <- (normal_size (qfrac 3 10) (qfrac 1 10) (length idx) g5);
        now rewrite Hcoff).
  set (on := map is_ac_on idx).
  assert (Lon : length on = length idx) by (subst on; apply length_map).
  set (vs := np_where on v_on v_off).
  set (cs := np_where on c_on c_off).
  assert (Lvs : length vs = length idx)
    by (subst vs; rewrite np_where_length; congruence).
  assert (Lcs : length cs = length idx)
    by (subst cs; rewrite np_where_length; congruence).
  apply map_ext_in. intros i Hi. apply in_seq in Hi.
  assert (Hon : nth i on false = is_ac_on (nth i idx 0)).
  { subst on. apply nth_map_in. lia. }
  assert (Hv : nth i vs 0%Qc
               = if is_ac_on (nth i idx 0) then nth i v_on 0%Qc
                 else nth i v_off 0%Qc).
  { subst vs. rewrite np_where_nth, Hon by congruence. reflexivity. }
  assert (Hc : nth i cs 0%Qc
               = if is_ac_on (nth i idx 0) then nth i c_on 0%Qc
                 else nth i c_off 0%Qc).
  { subst cs. rewrite np_where_nth, Hon by congruence. reflexivity. }
  assert (Hp : nth i (np_clip_min
                        (map (fun p => (p / qz 1000)%Qc) (np_mul vs cs))
                        (qz 0)) 0%Qc
               = clip0 (nth i vs 0%Qc * nth i cs 0%Qc / qz 1000)%Qc).
  { unfold np_clip_min.
    rewrite (nth_map_in _ _ _ _ 0%Qc)
      by (rewrite length_map, np_mul_length; lia).
    rewrite (nth_map_in _ _ _ _ 0%Qc) by (rewrite np_mul_length; lia).
    rewrite np_mul_nth by congruence. reflexivity. }
  unfold room_row. rewrite Hon, <- Hv, <- Hc, <- Hp.
  f_equal.
  rewrite (nth_map_in _ _ _ _ 0%Qc); [reflexivity |].
  unfold np_clip_min. rewrite !length_map, np_mul_length; lia.
Qed.

(** With a non-zero step the synthesizer returns, whatever the
    generator state. *)
Lemma generate_room_data_returns cfg rid fl rn (g : G) :
  time_freq_min cfg <> 0 ->
  exists idx v_on v_off c_on c_off g',
    date_range (start_date cfg) (end_date cfg) (time_freq_min cfg)
    = Returned idx /\
    generate_room_data cfg rid fl rn g
    = (Returned (map (room_row cfg rid fl rn idx v_on v_off c_on c_off)
                     (seq 0 (length idx))), g').
Proof.
  intros Hf.
  destruct (date_range_returns (start_date cfg) (end_date cfg) _ Hf)
    as [idx Hidx].
  destruct (uniform (qz 7) (qz 10) g) as [bc g1] eqn:Hbc.
  destruct (uniform (qz 225) (qz 235) g1) as [bv g2] eqn:Hbv.
  destruct (normal bv (qz 2) (length idx) g2) as [v_on g3] eqn:Hvon.
  destruct (normal (bv - qz 2)%Qc (qz 1) (length idx) g3)
    as [v_off g4] eqn:Hvoff.
  destruct (normal bc (qfrac 8 10) (length idx) g4) as [c_on g5] eqn:Hcon.
  destruct (normal (qfrac 3 10) (qfrac 1 10) (length idx) g5)
    as [c_off g6] eqn:Hcoff.
  exists idx, v_on, v_off, c_on, c_off, g6.
  split; [exact Hidx |].
  eapply generate_room_data_run; eassumption.
Qed.

End SynthesisFacts.

(** ** Dataset builder *)

Section BuilderFacts.

Context {G : Type} `{RandomGen G}.

Lemma frames_of_total cfg us (g : G) :
  time_freq_min cfg <> 0 -> exists dfs g', frames_of cfg us g dfs g'.
Proof.
  intros Hf. revert g.
  induction us as [| [[rid fl] rn] us IH]; intros g.
  - exists [], g. constructor.
  - destruct (generate_room_data_returns cfg rid fl rn g Hf)
      as (idx & v_on & v_off & c_on & c_off & g1 & _ & Hrun).
    destruct (IH g1) as (dfs & g2 & Hrest).
    eexists (_ :: dfs), g2. econstructor; eassumption.
Qed.

Lemma frames_of_app_inv cfg us1 us2 (g g' : G) dfs :
  frames_of cfg (us1 ++ us2) g dfs g' ->
  exists dfs1 g1 dfs2,
    frames_of cfg us1 g dfs1 g1 /\ frames_of cfg us2 g1 dfs2 g' /\
    dfs = dfs1 ++ dfs2.
Proof.
  revert g dfs.
  induction us1 as [| u us1 IH]; intros g dfs Hfr; simpl in Hfr.
  - exists [], g, dfs. repeat split; [constructor | exact Hfr].
  - inversion Hfr as [| rid fl rn rest g0 df g1 dfs' g2 Hrun Hrest]; subst.
    destruct (IH _ _ Hrest) as (dfs1 & g1' & dfs2 & H1 & H2 & ->).
    exists (df :: dfs1), g1', dfs2.
    repeat split; [econstructor; eassumption | exact H2].
Qed.

Lemma frames_of_length cfg us (g g' : G) dfs :
  frames_of cfg us g dfs g' -> length dfs = length us.
Proof. induction 1; simpl; congruence. Qed.

Lemma rooms_loop_frames cfg fl rooms frames (g g' : G) dfs :
  frames_of cfg (map (fun rm => (fst rm, fl, snd rm)) rooms) g dfs g' ->
  rooms_loop cfg fl rooms frames g = (Returned (frames ++ dfs), g').
Proof.
  revert frames g dfs.
  induction rooms as [| [rid rn] rooms IH]; intros frames g dfs Hfr;
    simpl in *.
  - inversion Hfr; subst. unfold ret. now rewrite app_nil_r.
  - inversion Hfr as [| ? ? ? ? ? df g1 dfs' ? Hrun Hrest]; subst.
    unfold bind. rewrite Hrun. rewrite (IH _ _ _ Hrest).
    now rewrite <- app_assoc.
Qed.

Lemma floors_loop_frames cfg floors frames (g g' : G) dfs :
  frames_of cfg (catalog floors) g dfs g' ->
  floors_loop cfg floors frames g = (Returned (frames ++ dfs), g').
Proof.
  revert frames g dfs.
  induction floors as [| [fl rooms] floors IH]; intros frames g dfs Hfr;
    simpl in *.
  - inversion Hfr; subst. unfold ret. now rewrite app_nil_r.
  - apply frames_of_app_inv in Hfr as (dfs1 & g1 & dfs2 & H1 & H2 & ->).
    unfold bind. rewrite (rooms_loop_frames _ _ _ _ _ _ _ H1).
    rewrite (IH _ _ _ H2). now rewrite <- app_assoc.
Qed.

Lemma load_data_body_frames cfg floors (g g' : G) dfs :
  frames_of cfg (catalog floors) g dfs g' ->
  load_data_body cfg floors g = (pd_concat dfs, g').
Proof.
  intros Hfr. unfold load_data_body, bind, lift_outcome.
  now rewrite (floors_loop_frames _ _ [] _ _ _ Hfr).
Qed.

(** Each frame of a run is the frame of its room. *)
Lemma frames_of_room_frame cfg us (g g' : G) dfs :
  time_freq_min cfg <> 0 ->
  frames_of cfg us g dfs g' -> Forall2 (room_frame cfg) us dfs.
Proof.
  intros Hf. induction 1 as [| rid fl rn rest g df g1 dfs g2 Hrun _ IH];
    constructor; [| exact IH].
  destruct (generate_room_data_returns cfg rid fl rn g Hf)
    as (idx & v_on & v_off & c_on & c_off & g1' & Hidx & Hrun').
  rewrite Hrun in Hrun'. injection Hrun' as -> _.
  exists idx, v_on, v_off, c_on, c_off. split; [exact Hidx | reflexivity].
Qed.

(** With a non-zero step the first build of the catalog of the source
    returns the concatenation of its nine rooms' frames. *)
Lemma load_data_body_returns cfg (g : G) :
  time_freq_min cfg <> 0 ->
  exists dfs g',
    frames_of cfg (catalog FLOORS) g dfs g' /\
    load_data_body cfg FLOORS g = (Returned (concat dfs), g').
Proof.
  intros Hf.
  destruct (frames_of_total cfg (catalog FLOORS) g Hf) as (dfs & g' & Hfr).
  exists dfs, g'. split; [exact Hfr |].
  rewrite (load_data_body_frames _ _ _ _ _ Hfr).
  apply frames_of_length in Hfr.
  destruct dfs; [discriminate | reflexivity].
Qed.

End BuilderFacts.

(** C6. Within one cache epoch [load_data] is idempotent: from any process
    state the call returns a dataset, and a second call returns the very
    same dataset and leaves the process, generator state included,
    untouched, so that no new value is drawn. *)
Theorem load_data_idempotent {G : Type} `{RandomGen G}
    (cfg : Config) (p : Process) :
  time_freq_min cfg <> 0 ->
  exists df p1,
    load_data cfg p = (Returned df, p1) /\
    load_data cfg p1 = (Returned df, p1) /\
    cache p1 = Some df.
Proof.
  intros Hf. unfold load_data at 1.
  destruct (cache p) as [df |] eqn:Hc.
  - exists df, p. unfold load_data. rewrite Hc. auto.
  - destruct (load_data_body_returns cfg (rng p) Hf) as (dfs & g' & _ & Hrun).
    rewrite Hrun.
    exists (concat dfs), (mkProcess g' (Some (concat dfs))).
    unfold load_data; simpl. auto.
Qed.

(** The dataset of the source's constants, built from a fresh process on
    the counter generator and requested again. *)
Lemma load_data_idempotent_witness :
  exists df p1,
    load_data app_config (fresh 0%nat) = (Returned df, p1) /\
    load_data app_config p1 = (Returned df, p1) /\
    cache p1 = Some df.
Proof.
  apply (load_data_idempotent app_config (fresh 0%nat)).
  vm_compute. discriminate.
Defined.

(** ** Per-room series *)

Lemma room_frame_room_id cfg u df r :
  room_frame cfg u df -> In r df -> room_id r = fst (fst u).
Proof.
  intros (idx & v_on & v_off & c_on & c_off & _ & ->) Hin.
  apply in_map_iff in Hin as (i & <- & _). reflexivity.
Qed.

Lemma room_frame_timestamps cfg u df :
  room_frame cfg u df ->
  date_range (start_date cfg) (end_date cfg) (time_freq_min cfg)
  = Returned (map timestamp df).
Proof.
  intros (idx & v_on & v_off & c_on & c_off & Hidx & ->).
  rewrite Hidx. f_equal. rewrite map_map. unfold room_row; simpl.
  apply nth_ext with (d := 0) (d' := 0).
  - now rewrite length_map, length_seq.
  - intros i Hi.
    rewrite (nth_map_in _ _ _ _ 0%nat) by now rewrite length_seq.
    now rewrite seq_nth.
Qed.

Lemma rows_of_room_all room df :
  (forall r, In r df -> room_id r = room) -> rows_of_room room df = df.
Proof.
  intros Hall. unfold rows_of_room.
  induction df as [| r df IH]; simpl; [reflexivity |].
  rewrite (Hall r (or_introl eq_refl)), String.eqb_refl.
  f_equal. apply IH. intros r' Hr'. apply Hall. now right.
Qed.

Lemma rows_of_room_none room df :
  (forall r, In r df -> room_id r <> room) -> rows_of_room room df = [].
Proof.
  intros Hall. apply filter_nil_iff. intros r Hr.
  apply String.eqb_neq. now apply Hall.
Qed.

Lemma rows_of_room_app room df1 df2 :
  rows_of_room room (df1 ++ df2)
  = rows_of_room room df1 ++ rows_of_room room df2.
Proof. apply filter_app. Qed.

Lemma rows_of_room_absent cfg us dfs room :
  Forall2 (room_frame cfg) us dfs ->
  ~ In room (map (fun u => fst (fst u)) us) ->
  rows_of_room room (concat dfs) = [].
Proof.
  induction 1 as [| u df us dfs Hu _ IH]; simpl; intros Hnot;
    [reflexivity |].
  rewrite rows_of_room_app, IH by tauto.
  rewrite rows_of_room_none; [reflexivity |].
  intros r Hr Heq. rewrite (room_frame_room_id _ _ _ _ Hu Hr) in Heq. tauto.
Qed.

(** In the concatenation of the frames of rooms with distinct ids, the
    rows of a room are its own frame. *)
Lemma rows_of_room_concat cfg us dfs u :
  Forall2 (room_frame cfg) us dfs ->
  NoDup (map (fun u => fst (fst u)) us) ->
  In u us ->
  room_frame cfg u (rows_of_room (fst (fst u)) (concat dfs)).
Proof.
  induction 1 as [| u0 df us dfs Hu0 Hrest IH]; simpl; intros Hnd Hin;
    [contradiction |].
  inversion Hnd as [| ? ? Hnotin Hnd']; subst.
  rewrite rows_of_room_app.
  destruct Hin as [-> | Hin].
  - rewrite (rows_of_room_absent _ _ _ _ Hrest Hnotin), app_nil_r.
    rewrite rows_of_room_all; [exact Hu0 |].
    intros r Hr. exact (room_frame_room_id _ _ _ _ Hu0 Hr).
  - rewrite rows_of_room_none; [now apply IH |].
    intros r Hr Heq. rewrite (room_frame_room_id _ _ _ _ Hu0 Hr) in Heq.
    apply Hnotin. rewrite Heq.
    exact (in_map (fun u => fst (fst u)) _ _ Hin).
Qed.

Lemma catalog_FLOORS_NoDup :
  NoDup (map (fun u : string * string * string => fst (fst u))
             (catalog FLOORS)).
Proof.
  simpl. repeat constructor; simpl; intuition discriminate.
Qed.

Lemma last_nth {A} (l : list A) (d : A) : last l d = nth (length l - 1) l d.
Proof.
  induction l as [| a [| b l] IH]; try reflexivity.
  change (last (a :: b :: l) d) with (last (b :: l) d). rewrite IH.
  simpl. now rewrite Nat.sub_0_r.
Qed.

(** C4. For a horizon with a positive step and an end not before its
    start, the dataset is built, and for every room of the catalog the
    timestamps of the room's rows, in order, are the grid
    [start, start + step, ...] of [(end - start) / step + 1] points: they
    begin at the start, are pairwise distinct, and, when the end lies on
    the grid (as with the constants of the source), finish at the end. *)
Theorem dataset_timestamps_regular_grid {G : Type} `{RandomGen G}
    (cfg : Config) (g : G) :
  0 < time_freq_min cfg ->
  start_date cfg <= end_date cfg ->
  exists df p',
    load_data cfg (fresh g) = (Returned df, p') /\
    forall u, In u (catalog FLOORS) ->
      let stamps := map timestamp (rows_of_room (fst (fst u)) df) in
      let step := minutes (time_freq_min cfg) in
      let n := (end_date cfg - start_date cfg) / step + 1 in
      stamps = regular_grid (start_date cfg) step (Z.to_nat n) /\
      Z.of_nat (length stamps) = n /\
      NoDup stamps /\
      hd 0 stamps = start_date cfg /\
      ((step | end_date cfg - start_date cfg) ->
       last stamps 0 = end_date cfg).
Proof.
  intros Hf Hse.
  assert (Hf0 : time_freq_min cfg <> 0) by lia.
  destruct (load_data_body_returns cfg g Hf0) as (dfs & g' & Hfr & Hrun).
  exists (concat dfs), (mkProcess g' (Some (concat dfs))).
  split.
  { unfold load_data, fresh; simpl. now rewrite Hrun. }
  intros u Hu stamps step n.
  pose proof (minutes_pos _ Hf) as Hstep. fold step in Hstep.
  assert (Hn : 1 <= n).
  { subst n. assert (0 <= (end_date cfg - start_date cfg) / step);
      [apply Z.div_pos; lia | lia]. }
  pose proof (rows_of_room_concat cfg _ _ u
                (frames_of_room_frame _ _ _ _ _ Hf0 Hfr)
                catalog_FLOORS_NoDup Hu) as Hroom.
  apply room_frame_timestamps in Hroom. fold stamps in Hroom.
  rewrite (date_range_grid _ _ _ Hf Hse) in Hroom.
  injection Hroom as Hgrid. fold step in Hgrid. fold n in Hgrid.
  split; [now symmetry |].
  split.
  { rewrite <- Hgrid, regular_grid_length. lia. }
  split.
  { rewrite <- Hgrid. now apply regular_grid_NoDup. }
  split.
  { rewrite <- Hgrid.
    destruct (Z.to_nat n) eqn:Hz; [lia |].
    unfold regular_grid; simpl. lia. }
  intros Hdiv. rewrite <- Hgrid, last_nth, regular_grid_length.
  apply (regular_grid_last _ _ _ Hstep Hse Hdiv).
Qed.

(** The constants of the source: step 15 min, 2025-11-01 00:00 to
    2025-11-15 23:45, an end that lies on the grid; each room has 1440
    rows, the last one stamped with the end. *)
Lemma dataset_timestamps_regular_grid_witness :
  exists df p',
    load_data app_config (fresh 0%nat) = (Returned df, p') /\
    let stamps := map timestamp (rows_of_room "F1-101" df) in
    Z.of_nat (length stamps) = 1440 /\
    hd 0 stamps = START_DATE /\
    last stamps 0 = END_DATE.
Proof.
  destruct (dataset_timestamps_regular_grid app_config 0%nat)
    as (df & p' & Hload & Hrooms).
  - reflexivity.
  - vm_compute. discriminate.
  - exists df, p'. split; [exact Hload |].
    destruct (Hrooms ("F1-101", "Floor 1", "Computer Lab 1")%string)
      as (_ & Hlen & _ & Hhd & Hlast).
    + left. reflexivity.
    + split; [exact Hlen |]. split; [exact Hhd |].
      apply Hlast. exists 1439. reflexivity.
Defined.

(** ** Power and energy *)

Lemma Qc_ltb_spec (x y : Qc) : Qc_ltb x y = true <-> (x < y)%Qc.
Proof.
  unfold Qc_ltb. rewrite Qclt_alt.
  destruct (x ?= y)%Qc; split; intros Heq;
    solve [reflexivity | discriminate].
Qed.

Lemma clip0_max (x : Qc) : clip0 x = Qcmax 0%Qc x.
Proof.
  unfold clip0, Qcmax. change (qz 0) with 0%Qc.
  destruct (Qc_ltb x 0%Qc) eqn:Hlt; destruct (Qclt_le_dec 0%Qc x) as [Hp | Hn].
  - apply Qc_ltb_spec in Hlt. exfalso.
    exact (Qclt_not_le _ _ Hp (Qclt_le_weak _ _ Hlt)).
  - reflexivity.
  - reflexivity.
  - apply Qcle_antisym; [exact Hn |].
    apply Qcnot_lt_le. intros Hx. apply Qc_ltb_spec in Hx. congruence.
Qed.

Lemma clip0_nonneg (x : Qc) : (0 <= clip0 x)%Qc.
Proof.
  unfold clip0. change (qz 0) with 0%Qc.
  destruct (Qc_ltb x 0%Qc) eqn:Hlt.
  - apply Qcle_refl.
  - apply Qcnot_lt_le. intros Hx. apply Qc_ltb_spec in Hx. congruence.
Qed.

Lemma room_row_power cfg rid fl rn idx v_on v_off c_on c_off i :
  let r := room_row cfg rid fl rn idx v_on v_off c_on c_off i in
  power_kw r = Qcmax 0%Qc (voltage r * current r / qz 1000)%Qc /\
  (0 <= power_kw r)%Qc /\
  energy_kwh_step r = (power_kw r * (qz (time_freq_min cfg) / qz 60))%Qc.
Proof.
  unfold room_row; simpl.
  split; [apply clip0_max |]. split; [apply clip0_nonneg | reflexivity].
Qed.

Lemma room_frame_power cfg u df r :
  room_frame cfg u df -> In r df ->
  power_kw r = Qcmax 0%Qc (voltage r * current r / qz 1000)%Qc /\
  (0 <= power_kw r)%Qc /\
  energy_kwh_step r = (power_kw r * (qz (time_freq_min cfg) / qz 60))%Qc.
Proof.
  intros (idx & v_on & v_off & c_on & c_off & _ & ->) Hin.
  apply in_map_iff in Hin as (i & <- & _). apply room_row_power.
Qed.

(** C5. With a non-zero step the synthesizer returns a frame, and so does
    the dataset builder; in every row of either the power is
    [max(0, voltage * current / 1000)], hence never negative, and the
    step energy is the power times [step_minutes / 60]. *)
Theorem power_clamped_energy_scaled {G : Type} `{RandomGen G}
    (cfg : Config) (g : G) :
  time_freq_min cfg <> 0 ->
  (forall room_id_ floor_ room_name_,
   exists df g',
     generate_room_data cfg room_id_ floor_ room_name_ g = (Returned df, g') /\
     forall r, In r df ->
       power_kw r = Qcmax 0%Qc (voltage r * current r / qz 1000)%Qc /\
       (0 <= power_kw r)%Qc /\
       energy_kwh_step r
       = (power_kw r * (qz (time_freq_min cfg) / qz 60))%Qc) /\
  (exists df p',
     load_data cfg (fresh g) = (Returned df, p') /\
     forall r, In r df ->
       power_kw r = Qcmax 0%Qc (voltage r * current r / qz 1000)%Qc /\
       (0 <= power_kw r)%Qc /\
       energy_kwh_step r
       = (power_kw r * (qz (time_freq_min cfg) / qz 60))%Qc).
Proof.
  intros Hf. split.
  - intros rid fl rn.
    destruct (generate_room_data_returns cfg rid fl rn g Hf)
      as (idx & v_on & v_off & c_on & c_off & g' & Hidx & Hrun).
    eexists _, g'. split; [exact Hrun |].
    intros r Hin. refine (room_frame_power cfg (rid, fl, rn) _ r _ Hin).
    exists idx, v_on, v_off, c_on, c_off. split; [exact Hidx | reflexivity].
  - destruct (load_data_body_returns cfg g Hf) as (dfs & g' & Hfr & Hrun).
    exists (concat dfs), (mkProcess g' (Some (concat dfs))).
    split.
    { unfold load_data, fresh; simpl. now rewrite Hrun. }
    intros r Hin. apply in_concat in Hin as (df & Hdf & Hr).
    pose proof (frames_of_room_frame _ _ _ _ _ Hf Hfr) as Hall.
    clear Hfr Hrun. induction Hall as [| u d us ds Hu _ IH];
      [contradiction |].
    destruct Hdf as [-> | Hdf]; [| now apply IH].
    exact (room_frame_power _ _ _ _ Hu Hr).
Qed.

(** One hour of a Saturday on the counter generator: the second row draws
    a negative standby current, so its product is negative and its power
    is clamped to zero. *)
Lemma power_clamped_energy_scaled_witness :
  exists df g',
    generate_room_data short_config "F1-101" "Floor 1" "Computer Lab 1" 0%nat
    = (Returned df, g') /\
    (forall r, In r df -> (0 <= power_kw r)%Qc) /\
    exists r, nth_error df 1 = Some r /\
              (voltage r * current r < 0)%Qc /\ power_kw r = 0%Qc.
Proof.
  destruct (power_clamped_energy_scaled short_config 0%nat) as [Hroom _].
  { vm_compute. discriminate. }
  destruct (Hroom "F1-101" "Floor 1" "Computer Lab 1")%string
    as (df & g' & Hrun & Hrows).
  exists df, g'. split; [exact Hrun |].
  split; [intros r Hr; apply (Hrows r Hr) |].
  vm_compute in Hrun. injection Hrun as <- _.
  eexists. split; [reflexivity |].
  split; [reflexivity | apply Qc_is_canon; reflexivity].
Defined.

(** ** Baselines *)

Section BaselineFacts.

Context {G : Type} `{RandomGen G}.

Lemma logged_uniform_run low high (g g1 : G) x log :
  uniform low high g = (x, g1) ->
  uniform (G := Logged G) low high (g, log)
  = (x, (g1, log ++ [Uniform low high x])).
Proof. intros Hu. simpl. unfold logged_uniform; simpl. now rewrite Hu. Qed.

Lemma logged_normal_run loc scale n (g g1 : G) xs log :
  normal loc scale n g = (xs, g1) ->
  normal (G := Logged G) loc scale n (g, log)
  = (xs, (g1, log ++ [Normal loc scale n xs])).
Proof. intros Hn. simpl. unfold logged_normal; simpl. now rewrite Hn. Qed.

(** C9. One run of the synthesizer, on a generator that records its
    calls, makes exactly six draws: [uniform(7, 10)] once, giving the
    baseline current, then [uniform(225, 235)] once, giving the baseline
    voltage, then four arrays of one value per grid point, drawn around
    the baseline voltage, the baseline voltage minus 2, the baseline
    current and the standby current 0.3.  The two baselines lie in
    [7, 10] and [225, 235], and every row of the room takes its voltage
    and its current from those arrays at its own position, so that one
    pair of baselines parameterizes the whole series. *)
Theorem baselines_drawn_once cfg room_id_ floor_ room_name_
    (g : G) (log : list draw_call) :
  time_freq_min cfg <> 0 ->
  exists base_current base_voltage v_on v_off c_on c_off df g',
    let n := length df in
    generate_room_data (G := Logged G) cfg room_id_ floor_ room_name_ (g, log)
    = (Returned df,
       (g', log ++
            [ Uniform (qz 7) (qz 10) base_current;
              Uniform (qz 225) (qz 235) base_voltage;
              Normal base_voltage (qz 2) n v_on;
              Normal (base_voltage - qz 2)%Qc (qz 1) n v_off;
              Normal base_current (qfrac 8 10) n c_on;
              Normal (qfrac 3 10) (qfrac 1 10) n c_off ])) /\
    (qz 7 <= base_current <= qz 10)%Qc /\
    (qz 225 <= base_voltage <= qz 235)%Qc /\
    forall i r, nth_error df i = Some r ->
      voltage r = (if is_on r then nth i v_on 0%Qc else nth i v_off 0%Qc) /\
      current r = (if is_on r then nth i c_on 0%Qc else nth i c_off 0%Qc).
Proof.
  intros Hf.
  destruct (date_range_returns (start_date cfg) (end_date cfg) _ Hf)
    as [idx Hidx].
  destruct (uniform (qz 7) (qz 10) g) as [bc g1] eqn:Hbc.
  destruct (uniform (qz 225) (qz 235) g1) as [bv g2] eqn:Hbv.
  destruct (normal bv (qz 2) (length idx) g2) as [v_on g3] eqn:Hvon.
  destruct (normal (bv - qz 2)%Qc (qz 1) (length idx) g3)
    as [v_off g4] eqn:Hvoff.
  destruct (normal bc (qfrac 8 10) (length idx) g4) as [c_on g5] eqn:Hcon.
  destruct (normal (qfrac 3 10) (qfrac 1 10) (length idx) g5)
    as [c_off g6] eqn:Hcoff.
  exists bc, bv, v_on, v_off, c_on, c_off.
  eexists _, g6. cbv zeta.
  split.
  { rewrite (generate_room_data_run (G := Logged G) cfg _ _ _ (g, log) idx
               _ _ _ _ _ _ _ _ _ _ _ _ Hidx
               (logged_uniform_run _ _ _ _ _ _ Hbc)
               (logged_uniform_run _ _ _ _ _ _ Hbv)
               (logged_normal_run _ _ _ _ _ _ _ Hvon)
               (logged_normal_run _ _ _ _ _ _ _ Hvoff)
               (logged_normal_run _ _ _ _ _ _ _ Hcon)
               (logged_normal_run _ _ _ _ _ _ _ Hcoff)).
    rewrite length_map, length_seq.
    repeat rewrite <- app_assoc. reflexivity. }
  split.
  { replace bc with (fst (uniform (qz 7) (qz 10) g)) by now rewrite Hbc.
    apply uniform_range. discriminate. }
  split.
  { replace bv with (fst (uniform (qz 225) (qz 235) g1)) by now rewrite Hbv.
    apply uniform_range. discriminate. }
  intros i r Hnth.
  assert (Hi : (i < length idx)%nat).
  { match type of Hnth with
    | nth_error ?l _ = _ =>
        assert (Hlt : (i < length l)%nat) by (apply nth_error_Some; congruence)
    end.
    now rewrite length_map, length_seq in Hlt. }
  rewrite (nth_error_nth' _ (room_row cfg room_id_ floor_ room_name_ idx
                               v_on v_off c_on c_off 0%nat)) in Hnth
    by now rewrite length_map, length_seq.
  injection Hnth as <-.
  rewrite (nth_map_in _ _ _ _ 0%nat) by now rewrite length_seq.
  rewrite seq_nth by exact Hi. simpl. split; reflexivity.
Qed.

End BaselineFacts.

(** The logged run of one hour of a Saturday on the counter generator. *)
Lemma baselines_drawn_once_witness :
  exists base_current base_voltage v_on v_off c_on c_off df g',
    let n := length df in
    generate_room_data (G := Logged nat) short_config
                       "F1-101" "Floor 1" "Computer Lab 1" (0%nat, [])
    = (Returned df,
       (g', [] ++
            [ Uniform (qz 7) (qz 10) base_current;
              Uniform (qz 225) (qz 235) base_voltage;
              Normal base_voltage (qz 2) n v_on;
              Normal (base_voltage - qz 2)%Qc (qz 1) n v_off;
              Normal base_current (qfrac 8 10) n c_on;
              Normal (qfrac 3 10) (qfrac 1 10) n c_off ])) /\
    (qz 7 <= base_current <= qz 10)%Qc /\
    (qz 225 <= base_voltage <= qz 235)%Qc /\
    forall i r, nth_error df i = Some r ->
      voltage r = (if is_on r then nth i v_on 0%Qc else nth i v_off 0%Qc) /\
      current r = (if is_on r then nth i c_on 0%Qc else nth i c_off 0%Qc).
Proof.
  apply (baselines_drawn_once (G := nat) short_config
           "F1-101" "Floor 1" "Computer Lab 1" 0%nat []).
  vm_compute. discriminate.
Defined.

(** ** Configuration and range errors *)

(** A horizon whose end is one step before its start. *)
Lemma reversed_horizon_returns_empty_frame :
  let cfg := mkConfig START_DATE (START_DATE - minutes 15) 15 in
  let call :=
    generate_room_data cfg "F1-101" "Floor 1" "Computer Lab 1" 0%nat in
  end_date cfg < start_date cfg /\
  fst call = Returned [] /\
  fst call <> Raised InvalidConfiguration /\
  snd call <> 0%nat.
Proof.
  vm_compute. repeat split; discriminate.
Qed.

Section ConfigurationFacts.

Context {G : Type} `{RandomGen G}.

Lemma generate_room_data_outcome cfg rid fl rn (g : G) :
  (exists df, fst (generate_room_data cfg rid fl rn g) = Returned df) \/
  (time_freq_min cfg = 0 /\
   generate_room_data cfg rid fl rn g = (Raised ZeroDivisionError, g)).
Proof.
  destruct (Z.eq_dec (time_freq_min cfg) 0) as [Hz | Hnz].
  - right. split; [exact Hz |].
    unfold generate_room_data, bind, lift_outcome.
    now rewrite Hz, date_range_zero.
  - left.
    destruct (generate_room_data_returns cfg rid fl rn g Hnz)
      as (idx & v_on & v_off & c_on & c_off & g' & _ & Hrun).
    rewrite Hrun. eexists. reflexivity.
Qed.

Lemma load_data_body_zero_step cfg (g : G) :
  time_freq_min cfg = 0 ->
  load_data_body cfg FLOORS g = (Raised ZeroDivisionError, g).
Proof.
  intros Hz. unfold load_data_body, FLOORS; simpl. unfold bind.
  destruct (generate_room_data_outcome cfg "F1-101" "Floor 1"
              "Computer Lab 1" g) as [[df Hdf] | [_ Hrun]].
  - exfalso. revert Hdf.
    unfold generate_room_data, bind, lift_outcome.
    rewrite Hz, date_range_zero. discriminate.
  - now rewrite Hrun.
Qed.

(** C1, as the code has it.  The horizon and the step are the constants
    of the module, which are well formed: a positive step, an end not
    before the start and on the step grid.  Nothing checks them: no run
    of the synthesizer or of the dataset builder raises
    [InvalidConfiguration], whatever the horizon and the step, and with a
    positive step and an end before the start the synthesizer returns an
    empty frame. *)
Theorem no_configuration_check :
  (0 < time_freq_min app_config /\
   start_date app_config <= end_date app_config /\
   (minutes (time_freq_min app_config)
    | end_date app_config - start_date app_config)) /\
  (forall cfg room_id_ floor_ room_name_ (g : G),
     fst (generate_room_data cfg room_id_ floor_ room_name_ g)
     <> Raised InvalidConfiguration) /\
  (forall cfg (p : Process),
     fst (load_data cfg p) <> Raised InvalidConfiguration) /\
  (forall cfg room_id_ floor_ room_name_ (g : G),
     0 < time_freq_min cfg ->
     end_date cfg < start_date cfg ->
     exists g',
       generate_room_data cfg room_id_ floor_ room_name_ g
       = (Returned [], g')).
Proof.
  split.
  { split; [reflexivity |]. split; [vm_compute; discriminate |].
    exists 1439. reflexivity. }
  split.
  { intros cfg rid fl rn g.
    destruct (generate_room_data_outcome cfg rid fl rn g)
      as [[df ->] | [_ ->]]; discriminate. }
  split.
  { intros cfg p. unfold load_data.
    destruct (cache p); [discriminate |].
    destruct (Z.eq_dec (time_freq_min cfg) 0) as [Hz | Hnz].
    - rewrite (load_data_body_zero_step cfg (rng p) Hz). discriminate.
    - destruct (load_data_body_returns cfg (rng p) Hnz)
        as (dfs & g' & _ & ->). discriminate. }
  intros cfg rid fl rn g Hf Hrev.
  destruct (generate_room_data_returns cfg rid fl rn g)
    as (idx & v_on & v_off & c_on & c_off & g' & Hidx & Hrun); [lia |].
  rewrite (date_range_reversed _ _ _ Hf Hrev) in Hidx.
  injection Hidx as <-. exists g'. exact Hrun.
Qed.

End ConfigurationFacts.

(** The synthesizer on a horizon that ends one day before it starts. *)
Lemma no_configuration_check_witness :
  exists g',
    generate_room_data
      (mkConfig (mk_datetime 2025 11 2 0 0) (mk_datetime 2025 11 1 0 0) 15)
      "F1-101" "Floor 1" "Computer Lab 1" 0%nat
    = (Returned [], g').
Proof.
  apply (proj2 (proj2 (proj2 (no_configuration_check (G := nat))))).
  - reflexivity.
  - reflexivity.
Defined.

(** A query whose end is before its start, on a frame of three rows. *)
Lemma reversed_range_not_rejected :
  let df := [ demo_row 0 "Floor 1" "F1-101" (qz 1);
              demo_row (minutes 15) "Floor 1" "F1-101" (qz 2);
              demo_row (minutes 30) "Floor 1" "F1-101" (qz 3) ] in
  filter_by_range df (minutes 30) 0 = [] /\
  snd (main df BuildingOverview (minutes 30) 0) = Raised StopException /\
  snd (main df BuildingOverview (minutes 30) 0) <> Raised InvalidRange.
Proof.
  vm_compute. repeat split; discriminate.
Qed.

(** C2, as the code has it.  With [end_dt < start_dt] the filter does not
    fail: it returns the empty frame.  The query does not reach it: [main]
    shows the sidebar error and stops the run, before any filtering or
    aggregation, and raises no [InvalidRange]. *)
Theorem reversed_range_stops_query (df : DataFrame) (view : View)
    (start_dt end_dt : datetime) :
  end_dt < start_dt ->
  filter_by_range df start_dt end_dt = [] /\
  main df view start_dt end_dt = ([SidebarError], Raised StopException).
Proof.
  intros Hrev. split.
  - apply filter_by_range_nil_iff. intros r _ Hr. lia.
  - unfold main, sidebar_notice.
    assert (Hle : (end_dt <=? start_dt) = true) by (apply Z.leb_le; lia).
    now rewrite Hle.
Qed.

(** The three-row frame queried from 00:30 back to 00:00. *)
Lemma reversed_range_stops_query_witness :
  filter_by_range [ demo_row 0 "Floor 1" "F1-101" (qz 1);
                    demo_row (minutes 15) "Floor 1" "F1-101" (qz 2);
                    demo_row (minutes 30) "Floor 1" "F1-101" (qz 3) ]
                  (minutes 30) 0 = [] /\
  main [ demo_row 0 "Floor 1" "F1-101" (qz 1);
         demo_row (minutes 15) "Floor 1" "F1-101" (qz 2);
         demo_row (minutes 30) "Floor 1" "F1-101" (qz 3) ]
       BuildingOverview (minutes 30) 0
  = ([SidebarError], Raised StopException).
Proof.
  apply reversed_range_stops_query. reflexivity.
Defined.

(** A query inside the horizon is evaluated: the overview of the rows in
    range. *)
Example main_overview_rows :
  let df := [ demo_row 0 "Floor 1" "F1-101" (qz 1);
              demo_row (minutes 15) "Floor 2" "F2-201" (qz 2);
              demo_row (minutes 30) "Floor 1" "F1-101" (qz 3) ] in
  exists o,
    main df BuildingOverview 0 (minutes 15)
    = ([SidebarCaption 0 (minutes 15)], Returned (OverviewPage o)) /\
    map (fun kv => (fst kv, this (snd kv))) (by_floor o)
    = [ ("Floor 2"%string, 2 # 1); ("Floor 1"%string, 1 # 1) ] /\
    this (fst (fst (totals o))) = 3 # 1.
Proof.
  intros df. eexists. split; [reflexivity |].
  split; vm_compute; reflexivity.
Qed.

(** * Further definitions

    The rest of the query path: grouping with an arbitrary aggregate (the
    room tiles of [building_overview] take a sum and a last value), the
    floor and room views, the selection widgets they read, the sidebar,
    and the device registry. *)

From Stdlib Require Import Sorted.

(** ** Grouping with an aggregate *)

Section Aggregation.

Context {K V : Type} (eqb ltb : K -> K -> bool) (f : V -> V -> V).

(** Fold one row's value into its group with [f], keeping the groups in
    key order; a new group starts with the value itself. *)
Fixpoint agg_add (k : K) (v : V) (groups : list (K * V)) : list (K * V) :=
  match groups with
  | [] => [(k, v)]
  | (k', s) :: rest =>
      if eqb k k' then (k', f s v) :: rest
      else if ltb k k' then (k, v) :: (k', s) :: rest
      else (k', s) :: agg_add k v rest
  end.

(** [df.groupby(key).agg(...)]: one row per distinct key, keys ascending,
    the rows of a group folded in index order. *)
Definition groupby_agg (key : Sample -> K) (val : Sample -> V)
    (df : DataFrame) : list (K * V) :=
  fold_left (fun groups r => agg_add (key r) (val r) groups) df [].

(** The aggregate stored for a key, if the key has a group. *)
Fixpoint agg_lookup (k : K) (groups : list (K * V)) : option V :=
  match groups with
  | [] => None
  | (k', s) :: rest => if eqb k k' then Some s else agg_lookup k rest
  end.

(** A non-empty list of values folded from its first element on. *)
Definition reduce (xs : list V) : option V :=
  match xs with
  | [] => None
  | x :: rest => Some (fold_left f rest x)
  end.

End Aggregation.

(** What the statements about groups assume of a key type: the test
    decides equality and the order is strict and total. *)
Class KeyOrder {K : Type} (eqb ltb : K -> K -> bool) : Prop := {
  key_eqb_eq : forall a b, eqb a b = true <-> a = b;
  key_ltb_irrefl : forall a, ltb a a = false;
  key_ltb_trans : forall a b c, ltb a b = true -> ltb b c = true -> ltb a c = true;
  key_ltb_total : forall a b, ltb a b = false -> a <> b -> ltb b a = true
}.

(** Keys in strictly ascending order. *)
Definition keys_ascending {K V : Type} (ltb : K -> K -> bool)
    (groups : list (K * V)) : Prop :=
  StronglySorted (fun a b => ltb a b = true) (map fst groups).

(** Tuples of keys, compared column by column. *)
Definition pair_eqb {A B : Type} (eqa : A -> A -> bool) (eqb : B -> B -> bool)
    (x y : A * B) : bool :=
  eqa (fst x) (fst y) && eqb (snd x) (snd y).

Definition pair_ltb {A B : Type} (eqa lta : A -> A -> bool)
    (ltb : B -> B -> bool) (x y : A * B) : bool :=
  lta (fst x) (fst y) || (eqa (fst x) (fst y) && ltb (snd x) (snd y)).

(** [df[df[col] == value]] on a string column. *)
Definition select_eq (col : Sample -> string) (value : string)
    (df : DataFrame) : DataFrame :=
  loc_mask df (map (fun x => String.eqb x value) (column col df)).

(** ** Floor view *)

(** The label [f"{room_id} - {room_name}"] of a room. *)
Definition room_label (room_id_ room_name_ : string) : string :=
  (room_id_ ++ " - " ++ room_name_)%string.

(** What [floor_view] draws: the three totals, the power profile, the
    energy by room under the room labels, and the daily trend. *)
Record FloorPage : Type := mkFloorPage {
  floor_totals : Qc * Qc * Qc;
  floor_power_series : list (datetime * Qc);
  floor_energy_by_room : list (string * Qc);
  floor_daily : list (Z * Qc)
}.

(** [floor_view(df_range)] for the floor chosen in the select box; [None]
    is the warning "No data for this floor in the selected range." *)
Definition floor_view (df_range : DataFrame) (floor_sel : string)
  : option FloorPage :=
  let df_floor := select_eq floor floor_sel df_range in
  match df_floor with
  | [] => None
  | _ =>
      let power_series :=
        groupby_sum Z.eqb Z.ltb timestamp power_kw df_floor in
      let energy_by_room :=
        groupby_sum (pair_eqb String.eqb String.eqb)
                    (pair_ltb String.eqb String.ltb String.ltb)
                    (fun r => (room_id r, room_name r))
                    energy_kwh_step df_floor in
      Some (mkFloorPage
              (aggregate_energy df_floor)
              power_series
              (map (fun g => (room_label (fst (fst g)) (snd (fst g)), snd g))
                   energy_by_room)
              (daily_energy df_floor))
  end.

(** The energy a floor's page reports, zero when it only warns. *)
Definition floor_energy (df_range : DataFrame) (floor_sel : string) : Qc :=
  match floor_view df_range floor_sel with
  | Some page => fst (fst (floor_totals page))
  | None => 0%Qc
  end.

(** ** Sorting by timestamp

    [df.sort_values("timestamp")] uses an unstable sort: among rows with
    one timestamp the order is not fixed.  The views below take the sort
    as a function; the statements about them assume no more of it than
    [TimestampSort], and [insertion_sort_timestamp] is one such sort, used
    to run them. *)

Class TimestampSort (sort : DataFrame -> DataFrame) : Prop := {
  sort_permutation : forall df, Permutation (sort df) df;
  sort_ascending : forall df,
    StronglySorted (fun a b => timestamp a <= timestamp b) (sort df)
}.

Fixpoint insert_timestamp (r : Sample) (df : DataFrame) : DataFrame :=
  match df with
  | [] => [r]
  | x :: rest =>
      if timestamp x <? timestamp r then x :: insert_timestamp r rest
      else r :: x :: rest
  end.

Definition insertion_sort_timestamp (df : DataFrame) : DataFrame :=
  fold_right insert_timestamp [] df.

(** ** Room view *)

(** What [room_view] shows: the room's name, the latest reading, the
    totals of the range, the three series of the first tab, the daily
    energy, the default of the manual switch and the estimated saving. *)
Record RoomPage : Type := mkRoomPage {
  page_room_name : string;
  latest : Sample;
  room_totals : Qc * Qc * Qc;
  voltage_current_series : list (datetime * (Qc * Qc));
  room_power_series : list (datetime * Qc);
  room_daily : list (Z * Qc);
  manual_on : bool;
  potential_savings : Qc
}.

(** [room_view(df_range)] for the room id chosen in the select boxes;
    [None] is the warning "No data for this room in the selected range." *)
Definition room_view (sort : DataFrame -> DataFrame)
    (df_range : DataFrame) (room_sel : string) : option RoomPage :=
  let df_room := select_eq room_id room_sel df_range in
  match df_room with
  | [] => None
  | first :: _ =>
      let df_room_sorted := sort df_room in
      let latest_ := last df_room_sorted first in
      let totals_ := aggregate_energy df_room in
      Some (mkRoomPage
              (room_name first)
              latest_
              totals_
              (map (fun r => (timestamp r, (voltage r, current r)))
                   df_room_sorted)
              (map (fun r => (timestamp r, power_kw r)) df_room_sorted)
              (daily_energy df_room_sorted)
              (is_on latest_)
              (snd (fst totals_) * qfrac 20 100)%Qc)
  end.

(** ** Choosing the room *)

(** A dictionary with string keys, in insertion order. *)
Fixpoint dict_get {V : Type} (k : string) (d : list (string * V)) : option V :=
  match d with
  | [] => None
  | (k', v) :: rest => if String.eqb k k' then Some v else dict_get k rest
  end.

Fixpoint dict_set {V : Type} (k : string) (v : V) (d : list (string * V))
  : list (string * V) :=
  match d with
  | [] => [(k, v)]
  | (k', v') :: rest =>
      if String.eqb k k' then (k', v) :: rest
      else (k', v') :: dict_set k v rest
  end.

(** [{f"{room_id} - {room_name}": room_id for room_id, room_name in
    room_options}]. *)
Definition room_label_map (room_options : list (string * string))
  : list (string * string) :=
  fold_left (fun d rm => dict_set (room_label (fst rm) (snd rm)) (fst rm) d)
            room_options [].

(** The result of a subscript: a value, or the exception it raises. *)
Inductive lookup_result (A : Type) : Type :=
| Found (a : A)
| KeyError
| IndexError.

Arguments Found {A} a.
Arguments KeyError {A}.
Arguments IndexError {A}.

(** The selection part of [room_view]: the rooms of the chosen floor, the
    label kept in the session if it names one of them and the first label
    otherwise, and the room id under that label.  The result is the label
    and the room id. *)
Definition select_room (floors : list (string * list (string * string)))
    (floor_sel : string) (stored_label : option string)
  : lookup_result (string * string) :=
  match dict_get floor_sel floors with
  | None => KeyError
  | Some room_options =>
      let map_ := room_label_map room_options in
      let kept :=
        match stored_label with
        | Some l => match dict_get l map_ with
                    | Some _ => Some l
                    | None => None
                    end
        | None => None
        end in
      match kept with
      | Some l =>
          match dict_get l map_ with
          | Some rid => Found (l, rid)
          | None => KeyError
          end
      | None =>
          match map_ with
          | [] => IndexError
          | (l, _) :: _ =>
              match dict_get l map_ with
              | Some rid => Found (l, rid)
              | None => KeyError
              end
          end
      end
  end.

(** ** Room tiles *)

(** One tile of [building_overview]: the group key, the two aggregates,
    and the cost and the emissions (in grams) written on the button. *)
Record RoomTile : Type := mkRoomTile {
  tile_floor : string;
  tile_room_id : string;
  tile_room_name : string;
  energy_kwh : Qc;
  last_power_kw : Qc;
  tile_cost : Qc;
  tile_co2_g : Qc
}.

Definition tile_key : Type := (string * string * string)%type.

Definition tile_key_eqb : tile_key -> tile_key -> bool :=
  pair_eqb (pair_eqb String.eqb String.eqb) String.eqb.

Definition tile_key_ltb : tile_key -> tile_key -> bool :=
  pair_ltb (pair_eqb String.eqb String.eqb)
           (pair_ltb String.eqb String.ltb String.ltb)
           String.ltb.

(** [agg(energy_kwh=(..., "sum"), last_power_kw=(..., "last"))] on a pair
    (energy, power). *)
Definition sum_last (acc new : Qc * Qc) : Qc * Qc :=
  ((fst acc + fst new)%Qc, snd new).

(** [.sort_values(["floor", "room_id"])], a stable sort. *)
Fixpoint insert_tile (t : RoomTile) (tiles : list RoomTile) : list RoomTile :=
  match tiles with
  | [] => [t]
  | x :: rest =>
      if pair_ltb String.eqb String.ltb String.ltb
           (tile_floor x, tile_room_id x) (tile_floor t, tile_room_id t)
      then x :: insert_tile t rest
      else t :: x :: rest
  end.

Definition sort_tiles (tiles : list RoomTile) : list RoomTile :=
  fold_right insert_tile [] tiles.

Definition rooms_agg (sort : DataFrame -> DataFrame) (df_range : DataFrame)
  : list RoomTile :=
  sort_tiles
    (map (fun g =>
            let e := fst (snd g) in
            mkRoomTile (fst (fst (fst g))) (snd (fst (fst g))) (snd (fst g))
                       e (snd (snd g))
                       (e * TARIFF_PER_KWH)%Qc
                       (e * CO2_PER_KWH_KG * qz 1000)%Qc)
         (groupby_agg tile_key_eqb tile_key_ltb sum_last
            (fun r => (floor r, room_id r, room_name r))
            (fun r => (energy_kwh_step r, power_kw r))
            (sort df_range))).

(** ** Session state

    [st.session_state] during one run of the script: the values stored
    under string keys, and the keys of the widgets created so far in the
    run.  An assignment to a key is refused with [StreamlitAPIException]
    once a widget with that key exists in the run. *)
Record Session : Type := mkSession {
  session_values : list (string * string);
  widget_keys : list string
}.

Definition session_assign (key value : string) (s : Session)
  : option Session :=
  if existsb (String.eqb key) (widget_keys s) then None
  else Some (mkSession (dict_set key value (session_values s))
                       (widget_keys s)).

(** How the handler of a click ends: with [st.experimental_rerun()], or
    with the exception of a refused assignment; either way with the
    session as the handler left it. *)
Inductive click_outcome : Type :=
| Rerun (s : Session)
| StreamlitAPIException (s : Session).

(** The key of a tile's button, [f"tile_{row['floor']}_{row['room_id']}"]. *)
Definition tile_button_key (t : RoomTile) : string :=
  ("tile_" ++ tile_floor t ++ "_" ++ tile_room_id t)%string.

(** The keyed widgets of a run of [main] that has come to a tile of
    [building_overview]: the radio of [sidebar_controls] and the buttons
    of the tiles drawn so far. *)
Definition overview_widget_keys (drawn : list RoomTile) : list string :=
  "view_mode"%string :: map tile_button_key drawn.

(** The handler of a click on a tile: three assignments to the session
    and a rerun. *)
Definition tile_click (t : RoomTile) (s : Session) : click_outcome :=
  match session_assign "floor_select" (tile_floor t) s with
  | None => StreamlitAPIException s
  | Some s1 =>
      let room_label_ := room_label (tile_room_id t) (tile_room_name t) in
      match session_assign "room_select_label" room_label_ s1 with
      | None => StreamlitAPIException s1
      | Some s2 =>
          match session_assign "view_mode" "Room View" s2 with
          | None => StreamlitAPIException s2
          | Some s3 => Rerun s3
          end
      end
  end.

(** ** Sidebar *)

(** What [st.date_input] returns: one date, or a tuple of dates. *)
Inductive date_input : Type :=
| OneDate (d : Z)
| DateTuple (ds : list Z).

(** [sidebar_controls] with the auto-refresh box left unchecked: the
    tuple is unpacked into exactly two dates, and each is combined with
    its time.  The range message it shows is [sidebar_notice]. *)
Definition sidebar_controls (view : View) (date_range_ : date_input)
    (start_time_sel end_time_sel : time)
  : outcome (View * datetime * datetime) :=
  let dates :=
    match date_range_ with
    | OneDate d => Returned (d, d)
    | DateTuple [d1; d2] => Returned (d1, d2)
    | DateTuple _ => Raised ValueError
    end in
  match dates with
  | Raised e => Raised e
  | Returned (start_date_sel, end_date_sel) =>
      Returned (view,
                combine start_date_sel start_time_sel,
                combine end_date_sel end_time_sel)
  end.

(** [main] with its call of [sidebar_controls]. *)
Definition main_with_sidebar (df : DataFrame) (view : View)
    (date_range_ : date_input) (start_time_sel end_time_sel : time)
  : list notice * outcome Page :=
  match sidebar_controls view date_range_ start_time_sel end_time_sel with
  | Raised e => ([], Raised e)
  | Returned (view_, start_dt, end_dt) => main df view_ start_dt end_dt
  end.

(** ** Device registry *)

Record Device : Type := mkDevice {
  dev_floor : string;
  dev_room_id : string;
  dev_room_name : string;
  iot_device_id : string;
  dev_status : string
}.

(** The two loops of [manage_devices_demo] that fill [rows]. *)
Fixpoint device_rooms_loop (floor_ : string) (rooms : list (string * string))
    (rows : list Device) : list Device :=
  match rooms with
  | [] => rows
  | (room_id_, room_name_) :: rest =>
      device_rooms_loop floor_ rest
        (rows ++ [mkDevice floor_ room_id_ room_name_
                           (room_id_ ++ "-AC")%string "active"%string])
  end.

Fixpoint device_floors_loop (floors : list (string * list (string * string)))
    (rows : list Device) : list Device :=
  match floors with
  | [] => rows
  | (floor_, rooms) :: rest =>
      device_floors_loop rest (device_rooms_loop floor_ rooms rows)
  end.

(** [manage_devices_demo]: the registry kept in the session, built from
    the catalog on the first visit, is handed to the editor, and what the
    editor returns is stored back. *)
Definition manage_devices_demo
    (floors : list (string * list (string * string)))
    (session : option (list Device))
    (data_editor : list Device -> list Device) : list Device :=
  let devices_df :=
    match session with
    | Some d => d
    | None => device_floors_loop floors []
    end in
  data_editor devices_df.

(** The group a row belongs to and the group a tile stands for. *)
Definition sample_key (r : Sample) : tile_key :=
  (floor r, room_id r, room_name r).

Definition tile_id (t : RoomTile) : tile_key :=
  (tile_floor t, tile_room_id t, tile_room_name t).

(** The rows of a frame that a tile stands for. *)
Definition tile_rows (t : RoomTile) (df : DataFrame) : DataFrame :=
  filter (fun r => tile_key_eqb (sample_key r) (tile_id t)) df.

(** ** A small frame

    Three readings of room F1-101, out of order, and one of room F1-102,
    for running the views. *)
Definition demo_readings : DataFrame :=
  [ demo_row (minutes 30) "Floor 1" "F1-101" (qz 3);
    demo_row 0 "Floor 1" "F1-101" (qz 1);
    demo_row (minutes 45) "Floor 1" "F1-102" (qz 4);
    demo_row (minutes 15) "Floor 1" "F1-101" (qz 2) ].

(** Readings of two rooms of the catalog, out of order. *)
Definition reading (ts : datetime) (floor_ room_id_ room_name_ : string)
    (energy : Qc) : Sample :=
  mkSample ts floor_ room_id_ room_name_ (qz 230) (qz 8) (energy * qz 4)%Qc
           energy true.

Definition catalog_readings : DataFrame :=
  [ reading (minutes 30) "Floor 1" "F1-101" "Computer Lab 1" (qz 3);
    reading 0 "Floor 1" "F1-101" "Computer Lab 1" (qz 1);
    reading (minutes 15) "Floor 2" "F2-203" "Seminar Room" (qz 4);
    reading (minutes 15) "Floor 1" "F1-101" "Computer Lab 1" (qz 2) ].

(** * Further properties *)

(** ** The schedule is weekly *)

Lemma weekday_add_weeks ts k :
  weekday (ts + k * (7 * US_PER_DAY)) = weekday ts.
Proof.
  unfold weekday, toordinal.
  replace (ts + k * (7 * US_PER_DAY)) with (ts + (k * 7) * US_PER_DAY) by ring.
  rewrite Z.div_add by (vm_compute; discriminate).
  replace (ts / US_PER_DAY + k * 7 + 1 + 6)
    with (ts / US_PER_DAY + 1 + 6 + k * 7) by ring.
  apply Z.mod_add. discriminate.
Qed.

Lemma time_of_add_days ts k : time_of (ts + k * US_PER_DAY) = time_of ts.
Proof. unfold time_of. apply Z.mod_add. vm_compute; discriminate. Qed.

(** The schedule recurs every week: moving a timestamp by any whole
    number of weeks, forwards or backwards, does not change [is_ac_on]. *)
Theorem is_ac_on_weekly (ts k : Z) :
  is_ac_on (ts + k * (7 * US_PER_DAY)) = is_ac_on ts.
Proof.
  unfold is_ac_on. rewrite weekday_add_weeks.
  replace (ts + k * (7 * US_PER_DAY)) with (ts + (k * 7) * US_PER_DAY) by ring.
  now rewrite time_of_add_days.
Qed.

(** ** Ranges compose *)

Lemma filter_filter {A} (f g : A -> bool) (l : list A) :
  filter f (filter g l) = filter (fun x => g x && f x) l.
Proof.
  induction l as [| a l IH]; simpl; [reflexivity |].
  destruct (g a); simpl; [destruct (f a) |]; now rewrite IH.
Qed.

(** Filtering a filtered frame is filtering by the intersection of the
    two ranges; in particular filtering twice by one range changes
    nothing. *)
Theorem filter_by_range_compose (df : DataFrame) (s1 e1 s2 e2 : datetime) :
  filter_by_range (filter_by_range df s1 e1) s2 e2
  = filter_by_range df (Z.max s1 s2) (Z.min e1 e2) /\
  filter_by_range (filter_by_range df s1 e1) s1 e1 = filter_by_range df s1 e1.
Proof.
  assert (Hgen : forall a b c d,
            filter_by_range (filter_by_range df a b) c d
            = filter_by_range df (Z.max a c) (Z.min b d)).
  { intros a b c d. rewrite !filter_by_range_filter, filter_filter.
    apply filter_ext. intros r. unfold in_range.
    destruct (a <=? timestamp r) eqn:H1; destruct (timestamp r <=? b) eqn:H2;
      destruct (c <=? timestamp r) eqn:H3; destruct (timestamp r <=? d) eqn:H4;
      destruct (Z.max a c <=? timestamp r) eqn:H5;
      destruct (timestamp r <=? Z.min b d) eqn:H6; simpl; try reflexivity;
      exfalso;
      repeat match goal with
             | H : (_ <=? _) = true |- _ => apply Z.leb_le in H
             | H : (_ <=? _) = false |- _ => apply Z.leb_gt in H
             end; lia. }
  split; [apply Hgen |].
  rewrite Hgen, Z.max_id, Z.min_id. reflexivity.
Qed.

(** ** Totals over adjacent ranges *)

Lemma series_sum_filter_split {A} (val : A -> Qc) (p p1 p2 : A -> bool)
    (l : list A) :
  (forall x, p x = p1 x || p2 x) ->
  (forall x, p1 x && p2 x = false) ->
  series_sum (map val (filter p l))
  = (series_sum (map val (filter p1 l)) + series_sum (map val (filter p2 l)))%Qc.
Proof.
  intros Hor Hdisj. induction l as [| a l IH]; simpl.
  - rewrite series_sum_nil. ring.
  - rewrite (Hor a). specialize (Hdisj a).
    destruct (p1 a), (p2 a); simpl in *; try discriminate;
      rewrite ?series_sum_cons, IH; ring.
Qed.

Lemma filter_split_perm {A} (p p1 p2 : A -> bool) (l : list A) :
  (forall x, p x = p1 x || p2 x) ->
  (forall x, p1 x && p2 x = false) ->
  Permutation (filter p l) (filter p1 l ++ filter p2 l).
Proof.
  intros Hor Hdisj. induction l as [| a l IH]; simpl; [constructor |].
  rewrite (Hor a). specialize (Hdisj a).
  destruct (p1 a), (p2 a); simpl in *; try discriminate.
  - now constructor.
  - now apply Permutation_cons_app.
  - exact IH.
Qed.

Lemma range_cut (start_dt m end_dt : datetime) (r : Sample) :
  start_dt <= m + 1 -> m <= end_dt ->
  in_range start_dt end_dt r = in_range start_dt m r || in_range (m + 1) end_dt r
  /\ in_range start_dt m r && in_range (m + 1) end_dt r = false.
Proof.
  intros Hs He. unfold in_range.
  destruct (start_dt <=? timestamp r) eqn:H1;
    destruct (timestamp r <=? end_dt) eqn:H2;
    destruct (timestamp r <=? m) eqn:H3;
    destruct (m + 1 <=? timestamp r) eqn:H4; simpl; split; try reflexivity;
    exfalso;
    repeat match goal with
           | H : (_ <=? _) = true |- _ => apply Z.leb_le in H
           | H : (_ <=? _) = false |- _ => apply Z.leb_gt in H
           end; lia.
Qed.

(** Cutting a range in two at an instant [m] loses no row and takes none
    twice: the rows of [start_dt, end_dt] are the rows of [start_dt, m]
    together with the rows of [m + 1, end_dt] (timestamps are whole
    microseconds).  With sums and products taken exactly, the three
    totals are cut in two with the rows: the energy, the cost and the
    emissions over the whole range are the sums of those over the two
    parts.  (In binary64 the two sides can differ by rounding.) *)
Theorem aggregate_energy_split (df : DataFrame) (start_dt m end_dt : datetime) :
  start_dt <= m + 1 -> m <= end_dt ->
  Permutation (filter_by_range df start_dt end_dt)
              (filter_by_range df start_dt m
               ++ filter_by_range df (m + 1) end_dt) /\
  let whole := aggregate_energy (filter_by_range df start_dt end_dt) in
  let left := aggregate_energy (filter_by_range df start_dt m) in
  let right := aggregate_energy (filter_by_range df (m + 1) end_dt) in
  fst (fst whole) = (fst (fst left) + fst (fst right))%Qc /\
  snd (fst whole) = (snd (fst left) + snd (fst right))%Qc /\
  snd whole = (snd left + snd right)%Qc.
Proof.
  intros Hs He.
  split.
  { rewrite !filter_by_range_filter.
    apply filter_split_perm; intros r;
      apply (range_cut start_dt m end_dt r Hs He). }
  assert (Hsum : series_sum (column energy_kwh_step
                               (filter_by_range df start_dt end_dt))
                 = (series_sum (column energy_kwh_step
                                  (filter_by_range df start_dt m))
                    + series_sum (column energy_kwh_step
                                    (filter_by_range df (m + 1)%Z end_dt)))%Qc).
  { unfold column. rewrite !filter_by_range_filter.
    apply series_sum_filter_split; intros r;
      apply (range_cut start_dt m end_dt r Hs He). }
  unfold aggregate_energy; simpl. rewrite Hsum.
  split; [reflexivity |]. split; ring.
Qed.

(** Three rows a quarter of an hour apart, cut after the first: the rows
    and each of the three totals. *)
Lemma aggregate_energy_split_witness :
  let df := [ demo_row 0 "Floor 1" "F1-101" (qz 1);
              demo_row (minutes 15) "Floor 1" "F1-101" (qz 2);
              demo_row (minutes 30) "Floor 1" "F1-101" (qz 3) ] in
  Permutation (filter_by_range df 0 (minutes 30))
              (filter_by_range df 0 0 ++ filter_by_range df (0 + 1) (minutes 30)) /\
  let whole := aggregate_energy (filter_by_range df 0 (minutes 30)) in
  let left := aggregate_energy (filter_by_range df 0 0) in
  let right := aggregate_energy (filter_by_range df (0 + 1) (minutes 30)) in
  fst (fst whole) = (fst (fst left) + fst (fst right))%Qc /\
  snd (fst whole) = (snd (fst left) + snd (fst right))%Qc /\
  snd whole = (snd left + snd right)%Qc.
Proof.
  intros df.
  apply (aggregate_energy_split df 0 0 (minutes 30));
    vm_compute; discriminate.
Defined.

(** ** Totals of the dataset are never negative *)

Lemma series_sum_nonneg (xs : list Qc) :
  (forall x, In x xs -> (0 <= x)%Qc) -> (0 <= series_sum xs)%Qc.
Proof.
  induction xs as [| x xs IH]; intros Hall.
  - apply Qcle_refl.
  - rewrite series_sum_cons.
    replace 0%Qc with (0 + 0)%Qc by ring.
    apply Qcplus_le_compat; [apply Hall; now left |].
    apply IH. intros y Hy. apply Hall. now right.
Qed.

Lemma Qcmult_nonneg (x y : Qc) : (0 <= x)%Qc -> (0 <= y)%Qc -> (0 <= x * y)%Qc.
Proof.
  intros Hx Hy. replace 0%Qc with (0 * y)%Qc by ring.
  now apply Qcmult_le_compat_r.
Qed.

Lemma step_hours_nonneg (f : Z) : 0 <= f -> (0 <= qz f / qz 60)%Qc.
Proof.
  intros Hf. unfold Qcle, Qcdiv, Qcmult, Qcinv, qz, Q2Qc; cbn [this].
  rewrite !Qred_correct.
  apply Qmult_le_0_compat.
  - unfold Qle; simpl. lia.
  - apply Qinv_le_0_compat. discriminate.
Qed.

Lemma room_frame_energy_nonneg cfg u df r :
  0 <= time_freq_min cfg ->
  room_frame cfg u df -> In r df -> (0 <= energy_kwh_step r)%Qc.
Proof.
  intros Hf Hu Hr.
  destruct (room_frame_power cfg u df r Hu Hr) as (_ & Hp & ->).
  apply Qcmult_nonneg; [exact Hp | now apply step_hours_nonneg].
Qed.

Lemma aggregate_energy_nonneg (df : DataFrame) :
  (forall r, In r df -> (0 <= energy_kwh_step r)%Qc) ->
  (0 <= fst (fst (aggregate_energy df)))%Qc /\
  (0 <= snd (fst (aggregate_energy df)))%Qc /\
  (0 <= snd (aggregate_energy df))%Qc.
Proof.
  intros Hall.
  assert (Hsum : (0 <= series_sum (column energy_kwh_step df))%Qc).
  { apply series_sum_nonneg. intros x Hx.
    apply in_map_iff in Hx as (r & <- & Hr). now apply Hall. }
  unfold aggregate_energy; simpl.
  split; [exact Hsum |].
  split; apply Qcmult_nonneg; try exact Hsum; discriminate.
Qed.

(** With a positive step, whatever range of the built dataset is
    queried, the energy, the cost and the emissions that
    [aggregate_energy] reports are all non-negative. *)
Theorem dataset_totals_nonneg {G : Type} `{RandomGen G}
    (cfg : Config) (g : G) :
  0 < time_freq_min cfg ->
  exists df p',
    load_data cfg (fresh g) = (Returned df, p') /\
    forall start_dt end_dt,
      let t := aggregate_energy (filter_by_range df start_dt end_dt) in
      (0 <= fst (fst t))%Qc /\ (0 <= snd (fst t))%Qc /\ (0 <= snd t)%Qc.
Proof.
  intros Hf.
  assert (Hf0 : time_freq_min cfg <> 0) by lia.
  destruct (load_data_body_returns cfg g Hf0) as (dfs & g' & Hfr & Hrun).
  exists (concat dfs), (mkProcess g' (Some (concat dfs))).
  split.
  { unfold load_data, fresh; simpl. now rewrite Hrun. }
  intros start_dt end_dt t. subst t. apply aggregate_energy_nonneg.
  intros r Hr. apply filter_by_range_In in Hr as [Hr _].
  apply in_concat in Hr as (df & Hdf & Hr).
  pose proof (frames_of_room_frame _ _ _ _ _ Hf0 Hfr) as Hall.
  clear Hfr Hrun. induction Hall as [| u d us ds Hu _ IH]; [contradiction |].
  destruct Hdf as [-> | Hdf]; [| now apply IH].
  refine (room_frame_energy_nonneg cfg u _ r _ Hu Hr). lia.
Qed.

(** The dataset of the source's constants on the counter generator. *)
Lemma dataset_totals_nonneg_witness :
  exists df p',
    load_data app_config (fresh 0%nat) = (Returned df, p') /\
    forall start_dt end_dt,
      let t := aggregate_energy (filter_by_range df start_dt end_dt) in
      (0 <= fst (fst t))%Qc /\ (0 <= snd (fst t))%Qc /\ (0 <= snd t)%Qc.
Proof.
  apply (dataset_totals_nonneg app_config 0%nat). reflexivity.
Defined.

(** ** Layout of the dataset *)

Lemma map_const_seq {A} (a : A) (start n : nat) :
  map (fun _ => a) (seq start n) = repeat a n.
Proof.
  revert start. induction n as [| n IH]; intros start; simpl;
    [reflexivity | now rewrite IH].
Qed.

Lemma room_frame_identity cfg u df :
  room_frame cfg u df ->
  map (fun r => (room_id r, floor r, room_name r)) df = repeat u (length df).
Proof.
  intros (idx & v_on & v_off & c_on & c_off & _ & ->).
  rewrite length_map, length_seq, map_map. destruct u as [[rid fl] rn].
  exact (map_const_seq (rid, fl, rn) 0 (length idx)).
Qed.

Lemma room_frame_is_on cfg u df r :
  room_frame cfg u df -> In r df -> is_on r = is_ac_on (timestamp r).
Proof.
  intros (idx & v_on & v_off & c_on & c_off & _ & ->) Hin.
  apply in_map_iff in Hin as (i & <- & _). reflexivity.
Qed.

Lemma room_frame_length cfg u df :
  0 < time_freq_min cfg -> start_date cfg <= end_date cfg ->
  room_frame cfg u df ->
  length df
  = Z.to_nat ((end_date cfg - start_date cfg) / minutes (time_freq_min cfg) + 1).
Proof.
  intros Hf Hse Hu. apply room_frame_timestamps in Hu.
  rewrite (date_range_grid _ _ _ Hf Hse) in Hu. injection Hu as Hgrid.
  rewrite <- (length_map timestamp df), <- Hgrid. apply regular_grid_length.
Qed.

(** For a horizon with a positive step and an end not before its start,
    the dataset lists the rooms one after the other in the order of
    [FLOORS], each with one row per grid point and each row carrying its
    room's id, floor and name; it therefore has nine times the grid
    length rows.  In every row the [is_on] flag is the schedule's answer
    at the row's timestamp. *)
Theorem dataset_layout {G : Type} `{RandomGen G} (cfg : Config) (g : G) :
  0 < time_freq_min cfg ->
  start_date cfg <= end_date cfg ->
  exists df p',
    load_data cfg (fresh g) = (Returned df, p') /\
    let n := Z.to_nat ((end_date cfg - start_date cfg)
                       / minutes (time_freq_min cfg) + 1) in
    map (fun r => (room_id r, floor r, room_name r)) df
    = flat_map (fun u => repeat u n) (catalog FLOORS) /\
    length df = (9 * n)%nat /\
    forall r, In r df -> is_on r = is_ac_on (timestamp r).
Proof.
  intros Hf Hse.
  assert (Hf0 : time_freq_min cfg <> 0) by lia.
  destruct (load_data_body_returns cfg g Hf0) as (dfs & g' & Hfr & Hrun).
  exists (concat dfs), (mkProcess g' (Some (concat dfs))).
  split.
  { unfold load_data, fresh; simpl. now rewrite Hrun. }
  intros n.
  pose proof (frames_of_room_frame _ _ _ _ _ Hf0 Hfr) as Hall.
  assert (Hmap : map (fun r => (room_id r, floor r, room_name r)) (concat dfs)
                 = flat_map (fun u => repeat u n) (catalog FLOORS)).
  { clear Hfr Hrun. induction Hall as [| u d us ds Hu _ IH]; [reflexivity |].
    simpl. rewrite map_app, IH, (room_frame_identity _ _ _ Hu).
    now rewrite (room_frame_length _ _ _ Hf Hse Hu). }
  split; [exact Hmap |].
  split.
  { rewrite <- (length_map (fun r => (room_id r, floor r, room_name r))), Hmap.
    simpl. rewrite !length_app, !repeat_length. simpl. lia. }
  intros r Hr. apply in_concat in Hr as (df & Hdf & Hr).
  clear Hfr Hrun Hmap. induction Hall as [| u d us ds Hu _ IH];
    [contradiction |].
  destruct Hdf as [-> | Hdf]; [| now apply IH].
  exact (room_frame_is_on _ _ _ _ Hu Hr).
Qed.

(** The source's constants: 9 rooms of 1440 rows. *)
Lemma dataset_layout_witness :
  exists df p',
    load_data app_config (fresh 0%nat) = (Returned df, p') /\
    length df = (9 * 1440)%nat.
Proof.
  destruct (dataset_layout app_config 0%nat) as (df & p' & Hload & _ & Hlen & _).
  - reflexivity.
  - vm_compute. discriminate.
  - exists df, p'. split; [exact Hload | exact Hlen].
Defined.

(** ** What a query run does *)

Lemma filter_by_range_nonempty df start_dt end_dt :
  (exists r, In r df /\ start_dt <= timestamp r <= end_dt) ->
  filter_by_range df start_dt end_dt <> [].
Proof.
  intros (r & Hin & Hr) Hnil.
  exact (proj1 (filter_by_range_nil_iff df start_dt end_dt) Hnil r Hin Hr).
Qed.

(** What a run of [main] does up to the call of the selected view, with
    the auto-refresh box left unchecked: one of four things.  If the date
    widget hands back a tuple that does not hold exactly two dates, the
    sidebar fails with [ValueError] before any message is shown.
    Otherwise the range runs from the first date at the start time to the
    second date at the end time, a single date serving for both.  If its
    end is not after its start, equality included, the run shows the
    sidebar error and stops, even though the filter would accept a
    one-instant range.  If the end is after the start and no row lies in
    the range, it shows the caption and the no-data warning and stops.
    Otherwise it shows the caption and goes on to the selected view with
    the non-empty filtered frame (the device page alone takes no frame);
    the building overview carries the aggregates of that frame. *)
Theorem main_outcomes (df : DataFrame) (view : View)
    (date_range_ : date_input) (start_time_sel end_time_sel : time) :
  ((exists ds, date_range_ = DateTuple ds /\ length ds <> 2%nat) \/
   (exists sd ed,
      date_range_ = DateTuple [sd; ed] \/ (date_range_ = OneDate sd /\ ed = sd))) /\
  (forall ds, date_range_ = DateTuple ds -> length ds <> 2%nat ->
     main_with_sidebar df view date_range_ start_time_sel end_time_sel
     = ([], Raised ValueError)) /\
  (forall sd ed,
     date_range_ = DateTuple [sd; ed] \/ (date_range_ = OneDate sd /\ ed = sd) ->
     let start_dt := combine sd start_time_sel in
     let end_dt := combine ed end_time_sel in
     let df_range := filter_by_range df start_dt end_dt in
     (end_dt <= start_dt ->
      main_with_sidebar df view date_range_ start_time_sel end_time_sel
      = ([SidebarError], Raised StopException)) /\
     (start_dt < end_dt ->
      (forall r, In r df -> ~ (start_dt <= timestamp r <= end_dt)) ->
      main_with_sidebar df view date_range_ start_time_sel end_time_sel
      = ([SidebarCaption start_dt end_dt; NoDataWarning],
         Raised StopException)) /\
     (start_dt < end_dt ->
      (exists r, In r df /\ start_dt <= timestamp r <= end_dt) ->
      df_range <> [] /\
      main_with_sidebar df view date_range_ start_time_sel end_time_sel
      = ([SidebarCaption start_dt end_dt],
         Returned (match view with
                   | BuildingOverview =>
                       OverviewPage (building_overview df_range)
                   | _ => OtherPage view df_range
                   end)))).
Proof.
  split; [| split].
  - destruct date_range_ as [d | ds].
    + right. exists d, d. right. now split.
    + destruct ds as [| d1 [| d2 [| d3 ds]]];
        try (left; eexists; split; [reflexivity | simpl; lia]).
      right. exists d1, d2. now left.
  - intros ds -> Hlen. unfold main_with_sidebar, sidebar_controls.
    destruct ds as [| d1 [| d2 [| d3 ds]]]; simpl in Hlen; try lia;
      reflexivity.
  - intros sd ed Hsel start_dt end_dt df_range.
    assert (Hrun : main_with_sidebar df view date_range_
                     start_time_sel end_time_sel
                   = main df view start_dt end_dt).
    { destruct Hsel as [-> | [-> ->]]; reflexivity. }
    rewrite Hrun. unfold main, sidebar_notice. fold df_range.
    split; [| split].
    + intros Hle. now rewrite (proj2 (Z.leb_le end_dt start_dt) Hle).
    + intros Hlt Hnone.
      rewrite (proj2 (Z.leb_gt end_dt start_dt) Hlt).
      unfold df_range.
      now rewrite (proj2 (filter_by_range_nil_iff df start_dt end_dt) Hnone).
    + intros Hlt Hsome.
      pose proof (filter_by_range_nonempty df start_dt end_dt Hsome) as Hne.
      fold df_range in Hne. split; [exact Hne |].
      rewrite (proj2 (Z.leb_gt end_dt start_dt) Hlt).
      destruct df_range as [| r rest]; [now elim Hne |].
      destruct view; reflexivity.
Qed.

(** One row stamped on 3 November 2025 at 08:15.  A range selection in
    progress fails; a one-instant query on the row's instant is stopped;
    a query that ends before the row finds no data; a query around the
    row reaches the room view. *)
Lemma main_outcomes_witness :
  let day := ymd2ord 2025 11 3 in
  let df := [demo_row (combine day (mk_time 8 15)) "Floor 1" "F1-101" (qz 2)] in
  main_with_sidebar df RoomView (DateTuple [day]) (mk_time 8 0) (mk_time 20 0)
  = ([], Raised ValueError) /\
  main_with_sidebar df RoomView (OneDate day) (mk_time 8 15) (mk_time 8 15)
  = ([SidebarError], Raised StopException) /\
  main_with_sidebar df RoomView (DateTuple [day; day]) (mk_time 8 0) (mk_time 8 10)
  = ([SidebarCaption (combine day (mk_time 8 0)) (combine day (mk_time 8 10));
      NoDataWarning], Raised StopException) /\
  main_with_sidebar df RoomView (DateTuple [day; day]) (mk_time 8 0) (mk_time 20 0)
  = ([SidebarCaption (combine day (mk_time 8 0)) (combine day (mk_time 20 0))],
     Returned (OtherPage RoomView
                 (filter_by_range df (combine day (mk_time 8 0))
                                  (combine day (mk_time 20 0))))).
Proof.
  intros day df.
  split; [| split; [| split]].
  - apply (proj1 (proj2 (main_outcomes df RoomView (DateTuple [day])
                           (mk_time 8 0) (mk_time 20 0))) [day]);
      [reflexivity | discriminate].
  - apply (proj1 (proj2 (proj2 (main_outcomes df RoomView (OneDate day)
                                  (mk_time 8 15) (mk_time 8 15)))
                   day day (or_intror (conj eq_refl eq_refl)))).
    vm_compute. discriminate.
  - apply (proj1 (proj2 (proj2 (proj2 (main_outcomes df RoomView
                                         (DateTuple [day; day])
                                         (mk_time 8 0) (mk_time 8 10)))
                           day day (or_introl eq_refl)))).
    + reflexivity.
    + intros r [<- | []]. vm_compute. intros [_ Hle]. apply Hle. reflexivity.
  - apply (proj2 (proj2 (proj2 (proj2 (main_outcomes df RoomView
                                         (DateTuple [day; day])
                                         (mk_time 8 0) (mk_time 20 0)))
                           day day (or_introl eq_refl)))).
    + reflexivity.
    + eexists. split; [left; reflexivity |].
      vm_compute. split; discriminate.
Defined.

(** ** Groups *)

Section AggregationFacts.

Context {K V : Type} (eqb ltb : K -> K -> bool) `{!KeyOrder eqb ltb}.
Context (f : V -> V -> V).

Lemma key_eqb_refl k : eqb k k = true.
Proof. now apply key_eqb_eq. Qed.

Lemma key_eqb_false a b : eqb a b = false <-> a <> b.
Proof.
  split.
  - intros Hf Heq. apply key_eqb_eq in Heq. congruence.
  - intros Hne. destruct (eqb a b) eqn:He; [| reflexivity].
    apply key_eqb_eq in He. contradiction.
Qed.

Lemma key_eqb_sym a b : eqb a b = eqb b a.
Proof.
  destruct (eqb b a) eqn:He.
  - apply key_eqb_eq in He. subst. apply key_eqb_refl.
  - apply key_eqb_false in He. apply key_eqb_false. congruence.
Qed.

Lemma key_ltb_neq a b : ltb a b = true -> a <> b.
Proof. intros Hlt ->. rewrite key_ltb_irrefl in Hlt. discriminate. Qed.

Lemma agg_add_keys k v (groups : list (K * V)) k' :
  In k' (map fst (agg_add eqb ltb f k v groups)) <->
  k' = k \/ In k' (map fst groups).
Proof.
  induction groups as [| [k0 s] rest IH]; simpl.
  - intuition.
  - destruct (eqb k k0) eqn:He; [| destruct (ltb k k0)]; simpl.
    + apply key_eqb_eq in He. subst k0. intuition.
    + intuition.
    + rewrite IH. intuition.
Qed.

Lemma agg_add_ascending k v (groups : list (K * V)) :
  keys_ascending ltb groups ->
  keys_ascending ltb (agg_add eqb ltb f k v groups).
Proof.
  unfold keys_ascending.
  induction groups as [| [k0 s] rest IH]; simpl; intros Hs.
  - repeat constructor.
  - inversion Hs as [| ? ? Hrest Hall]; subst.
    destruct (eqb k k0) eqn:He; [| destruct (ltb k k0) eqn:Hl]; simpl.
    + now constructor.
    + constructor; [exact Hs |]. constructor; [exact Hl |].
      eapply Forall_impl; [| exact Hall].
      intros x Hx. now apply (key_ltb_trans k k0 x).
    + constructor; [now apply IH |].
      apply Forall_forall. intros x Hx.
      apply agg_add_keys in Hx as [-> | Hx].
      * apply key_ltb_total; [exact Hl |]. now apply key_eqb_false.
      * rewrite Forall_forall in Hall. now apply Hall.
Qed.

Lemma agg_lookup_absent k (groups : list (K * V)) :
  agg_lookup eqb k groups = None <-> ~ In k (map fst groups).
Proof.
  induction groups as [| [k0 s] rest IH]; simpl; [tauto |].
  destruct (eqb k k0) eqn:He.
  - apply key_eqb_eq in He. subst. split; [discriminate | tauto].
  - apply key_eqb_false in He. rewrite IH. intuition.
Qed.

Lemma ascending_head_absent k s (rest : list (K * V)) :
  keys_ascending ltb ((k, s) :: rest) -> ~ In k (map fst rest).
Proof.
  unfold keys_ascending; simpl. intros Hs Hin.
  inversion Hs as [| ? ? _ Hall]; subst.
  rewrite Forall_forall in Hall. specialize (Hall k Hin).
  rewrite key_ltb_irrefl in Hall. discriminate.
Qed.

Lemma agg_lookup_In k v (groups : list (K * V)) :
  keys_ascending ltb groups ->
  (In (k, v) groups <-> agg_lookup eqb k groups = Some v).
Proof.
  induction groups as [| [k0 s] rest IH]; simpl; intros Hs.
  - split; [contradiction | discriminate].
  - pose proof (ascending_head_absent _ _ _ Hs) as Habs.
    assert (Hs' : keys_ascending ltb rest)
      by (unfold keys_ascending in *; simpl in Hs; now inversion Hs).
    destruct (eqb k k0) eqn:He.
    + apply key_eqb_eq in He. subst k0. split.
      * intros [Heq | Hin]; [congruence |].
        exfalso. apply Habs. exact (in_map fst _ _ Hin).
      * intros Heq. left. congruence.
    + apply key_eqb_false in He. rewrite <- (IH Hs'). split.
      * intros [Heq | Hin]; [congruence | exact Hin].
      * tauto.
Qed.

Lemma agg_lookup_add k v (groups : list (K * V)) k' :
  keys_ascending ltb groups ->
  agg_lookup eqb k' (agg_add eqb ltb f k v groups)
  = if eqb k' k
    then Some (match agg_lookup eqb k groups with
               | Some s => f s v
               | None => v
               end)
    else agg_lookup eqb k' groups.
Proof.
  induction groups as [| [k0 s] rest IH]; simpl; intros Hs.
  - destruct (eqb k' k); reflexivity.
  - pose proof (ascending_head_absent _ _ _ Hs) as Habs.
    assert (Hs' : keys_ascending ltb rest)
      by (unfold keys_ascending in *; simpl in Hs; now inversion Hs).
    destruct (eqb k k0) eqn:He; [| destruct (ltb k k0) eqn:Hl]; simpl.
    + apply key_eqb_eq in He. subst k0.
      destruct (eqb k' k); reflexivity.
    + destruct (eqb k' k) eqn:He'; [| reflexivity].
      assert (Hnone : agg_lookup eqb k rest = None).
      { apply agg_lookup_absent. intros Hin.
        unfold keys_ascending in Hs; simpl in Hs.
        inversion Hs as [| ? ? _ Hall]; subst.
        rewrite Forall_forall in Hall. specialize (Hall k Hin).
        pose proof (key_ltb_trans _ _ _ Hl Hall) as Hkk.
        rewrite key_ltb_irrefl in Hkk. discriminate. }
      now rewrite Hnone.
    + rewrite (IH Hs').
      destruct (eqb k' k0) eqn:He0; [| reflexivity].
      apply key_eqb_eq in He0. subst k0.
      destruct (eqb k' k) eqn:He'; [| reflexivity].
      apply key_eqb_eq in He'. subst k'. rewrite key_eqb_refl in He.
      discriminate.
Qed.

(** The groups of a frame folded into groups already there. *)
Lemma fold_agg_add_spec (key : Sample -> K) (val : Sample -> V)
    (df : DataFrame) (groups : list (K * V)) :
  keys_ascending ltb groups ->
  let out := fold_left (fun gs r => agg_add eqb ltb f (key r) (val r) gs)
                       df groups in
  keys_ascending ltb out /\
  (forall k, In k (map fst out) <->
             In k (map fst groups) \/ exists r, In r df /\ key r = k) /\
  (forall k,
     agg_lookup eqb k out
     = let vals := map val (filter (fun r => eqb (key r) k) df) in
       match agg_lookup eqb k groups with
       | Some s => Some (fold_left f vals s)
       | None => reduce f vals
       end).
Proof.
  revert groups. induction df as [| r df IH]; intros groups Hs; simpl.
  - split; [exact Hs |]. split.
    + intros k. split; [tauto | intros [Hin | (r & [] & _)]; exact Hin].
    + intros k. destruct (agg_lookup eqb k groups); reflexivity.
  - destruct (IH _ (agg_add_ascending (key r) (val r) groups Hs))
      as (Hasc & Hkeys & Hlook).
    split; [exact Hasc |]. split.
    + intros k. rewrite Hkeys, agg_add_keys. split.
      * intros [[-> | Hin] | (r' & Hin & Hk)].
        -- right. exists r. split; [now left | reflexivity].
        -- now left.
        -- right. exists r'. split; [now right | exact Hk].
      * intros [Hin | (r' & [-> | Hin] & Hk)].
        -- left. now right.
        -- left. left. now symmetry.
        -- right. exists r'. split; assumption.
    + intros k. rewrite Hlook, (agg_lookup_add _ _ _ _ Hs).
      rewrite (key_eqb_sym k (key r)).
      destruct (eqb (key r) k) eqn:He; simpl.
      * apply key_eqb_eq in He. subst k.
        destruct (agg_lookup eqb (key r) groups); reflexivity.
      * destruct (agg_lookup eqb k groups); reflexivity.
Qed.

End AggregationFacts.

(** ** Key orders *)

#[export] Instance Z_key_order : KeyOrder Z.eqb Z.ltb.
Proof.
  split.
  - intros a b. apply Z.eqb_eq.
  - intros a. apply Z.ltb_irrefl.
  - intros a b c Hab Hbc. apply Z.ltb_lt in Hab, Hbc. apply Z.ltb_lt. lia.
  - intros a b Hab Hne. apply Z.ltb_ge in Hab. apply Z.ltb_lt. lia.
Qed.

Lemma ascii_compare_refl c : Ascii.compare c c = Eq.
Proof. unfold Ascii.compare. apply N.compare_refl. Qed.

Lemma ascii_compare_lt_trans a b c :
  Ascii.compare a b = Lt -> Ascii.compare b c = Lt -> Ascii.compare a c = Lt.
Proof.
  unfold Ascii.compare. rewrite !N.compare_lt_iff. lia.
Qed.

Lemma string_compare_refl s : String.compare s s = Eq.
Proof.
  induction s as [| c s IH]; simpl; [reflexivity |].
  now rewrite ascii_compare_refl.
Qed.

Lemma string_compare_lt_trans a b c :
  String.compare a b = Lt -> String.compare b c = Lt ->
  String.compare a c = Lt.
Proof.
  revert b c. induction a as [| x a IH]; intros [| y b] [| z c]; simpl;
    try discriminate; try reflexivity.
  destruct (Ascii.compare x y) eqn:Hxy; try discriminate;
    destruct (Ascii.compare y z) eqn:Hyz; try discriminate; intros Hab Hbc.
  - apply Ascii.compare_eq_iff in Hxy, Hyz. subst.
    rewrite ascii_compare_refl. now apply (IH b c).
  - apply Ascii.compare_eq_iff in Hxy. subst. now rewrite Hyz.
  - apply Ascii.compare_eq_iff in Hyz. subst. now rewrite Hxy.
  - now rewrite (ascii_compare_lt_trans _ _ _ Hxy Hyz).
Qed.

#[export] Instance string_key_order : KeyOrder String.eqb String.ltb.
Proof.
  split.
  - intros a b. apply String.eqb_eq.
  - intros a. unfold String.ltb. now rewrite string_compare_refl.
  - intros a b c. unfold String.ltb.
    destruct (String.compare a b) eqn:Hab; try discriminate.
    destruct (String.compare b c) eqn:Hbc; try discriminate.
    now rewrite (string_compare_lt_trans _ _ _ Hab Hbc).
  - intros a b. unfold String.ltb.
    destruct (String.compare a b) eqn:Hab; try discriminate; intros _ Hne.
    + apply String.compare_eq_iff in Hab. contradiction.
    + now rewrite (String.compare_antisym b a), Hab.
Qed.

#[export] Instance pair_key_order {A B : Type}
    (eqa lta : A -> A -> bool) (eqb ltb : B -> B -> bool)
    `{!KeyOrder eqa lta} `{!KeyOrder eqb ltb} :
  KeyOrder (pair_eqb eqa eqb) (pair_ltb eqa lta ltb).
Proof.
  split.
  - intros [a1 b1] [a2 b2]. unfold pair_eqb; simpl.
    rewrite andb_true_iff, (@key_eqb_eq _ eqa lta _), (@key_eqb_eq _ eqb ltb _).
    split; [intros [-> ->] | intros [= -> ->]]; auto.
  - intros [a b]. unfold pair_ltb; simpl.
    rewrite (@key_ltb_irrefl _ eqa lta _ a), (@key_ltb_irrefl _ eqb ltb _ b).
    now rewrite andb_false_r.
  - intros [a1 b1] [a2 b2] [a3 b3]. unfold pair_ltb; simpl.
    rewrite !orb_true_iff, !andb_true_iff, !(@key_eqb_eq _ eqa lta _).
    intros [H12 | [-> H12]] [H23 | [-> H23]].
    + left. now apply (key_ltb_trans a1 a2 a3).
    + now left.
    + now left.
    + right. split; [reflexivity |]. now apply (key_ltb_trans b1 b2 b3).
  - intros [a1 b1] [a2 b2]. unfold pair_ltb; simpl. intros Hlt Hne.
    apply orb_false_iff in Hlt as [Ha Hb].
    destruct (eqa a1 a2) eqn:He.
    + apply (@key_eqb_eq _ eqa lta _) in He. subst a2. simpl in Hb.
      rewrite (key_eqb_refl eqa lta), (@key_ltb_irrefl _ eqa lta _ a1). simpl.
      apply key_ltb_total; [exact Hb | congruence].
    + apply (key_eqb_false eqa lta) in He.
      rewrite (key_ltb_total a1 a2 Ha He). reflexivity.
Qed.

(** ** Grouped sums, group by group *)

Lemma group_add_agg_add {K} (eqb ltb : K -> K -> bool) k v groups :
  group_add eqb ltb k v groups = agg_add eqb ltb Qcplus k v groups.
Proof.
  induction groups as [| [k0 s] rest IH]; simpl; [reflexivity |].
  now rewrite IH.
Qed.

Lemma groupby_sum_agg {K} (eqb ltb : K -> K -> bool) key val df :
  groupby_sum eqb ltb key val df = groupby_agg eqb ltb Qcplus key val df.
Proof.
  unfold groupby_sum, groupby_agg. generalize (@nil (K * Qc)).
  induction df as [| r df IH]; intros groups; simpl; [reflexivity |].
  now rewrite group_add_agg_add, IH.
Qed.

Lemma reduce_Qcplus (xs : list Qc) :
  xs <> [] -> reduce Qcplus xs = Some (series_sum xs).
Proof.
  destruct xs as [| x rest]; [congruence |]. intros _. simpl.
  rewrite fold_left_Qcplus, series_sum_cons. reflexivity.
Qed.

Lemma StronglySorted_impl {A} (R S : A -> A -> Prop) (l : list A) :
  (forall a b, R a b -> S a b) -> StronglySorted R l -> StronglySorted S l.
Proof.
  intros Himp. induction 1 as [| a l _ IH Hall]; constructor; [exact IH |].
  eapply Forall_impl; [| exact Hall]. intros b. apply Himp.
Qed.

Section GroupedSums.

Context {K : Type} (eqb ltb : K -> K -> bool) `{!KeyOrder eqb ltb}.

(** The rows of [groupby_sum]: keys ascending, one per key that occurs,
    each with the sum of the values of the rows that carry it. *)
Lemma groupby_sum_spec (key : Sample -> K) (val : Sample -> Qc)
    (df : DataFrame) :
  keys_ascending ltb (groupby_sum eqb ltb key val df) /\
  (forall k, In k (map fst (groupby_sum eqb ltb key val df)) <->
             exists r, In r df /\ key r = k) /\
  (forall k v, In (k, v) (groupby_sum eqb ltb key val df) <->
               (exists r, In r df /\ key r = k) /\
               v = series_sum (map val (filter (fun r => eqb (key r) k) df))).
Proof.
  rewrite groupby_sum_agg. unfold groupby_agg.
  destruct (fold_agg_add_spec eqb ltb Qcplus key val df [])
    as (Hasc & Hkeys & Hlook); [constructor |].
  cbv zeta in *. split; [exact Hasc |].
  assert (Hkeys' : forall k,
            In k (map fst (fold_left
                             (fun gs r => agg_add eqb ltb Qcplus (key r) (val r) gs)
                             df [])) <-> exists r, In r df /\ key r = k).
  { intros k. rewrite Hkeys. simpl. tauto. }
  split; [exact Hkeys' |].
  intros k v. rewrite (agg_lookup_In eqb ltb Qcplus k v _ Hasc), Hlook. simpl.
  split.
  - intros Hred.
    destruct (map val (filter (fun r => eqb (key r) k) df))
      as [| x rest] eqn:Hvals; [discriminate |].
    assert (Hx : In x (map val (filter (fun r => eqb (key r) k) df)))
      by (rewrite Hvals; now left).
    apply in_map_iff in Hx as (r & _ & Hr). apply filter_In in Hr as [Hr Hk].
    apply key_eqb_eq in Hk. split; [now exists r |].
    rewrite reduce_Qcplus in Hred by discriminate. congruence.
  - intros [(r & Hr & Hk) ->]. apply reduce_Qcplus. intros Hnil.
    assert (Hrin : In (val r) (map val (filter (fun r => eqb (key r) k) df))).
    { apply in_map, filter_In. split; [exact Hr | now apply key_eqb_eq]. }
    rewrite Hnil in Hrin. contradiction.
Qed.

End GroupedSums.

(** [daily_energy] returns one row per calendar date that occurs in the
    frame, dates strictly ascending, and each row holds the sum of the
    step energies of the rows of that date. *)
Theorem daily_energy_by_date (df : DataFrame) :
  StronglySorted Z.lt (map fst (daily_energy df)) /\
  (forall d, In d (map fst (daily_energy df)) <->
             exists r, In r df /\ date_of (timestamp r) = d) /\
  (forall d v, In (d, v) (daily_energy df) <->
               (exists r, In r df /\ date_of (timestamp r) = d) /\
               v = series_sum
                     (column energy_kwh_step
                        (filter (fun r => date_of (timestamp r) =? d) df))).
Proof.
  destruct (groupby_sum_spec Z.eqb Z.ltb
              (fun r => date_of (timestamp r)) energy_kwh_step df)
    as (Hasc & Hkeys & Hrows).
  split; [| split; [exact Hkeys | exact Hrows]].
  eapply StronglySorted_impl; [| exact Hasc].
  intros a b. apply Z.ltb_lt.
Qed.

(** ** The per-floor chart and the floor view *)

Lemma select_eq_filter col value df :
  select_eq col value df = filter (fun r => String.eqb (col r) value) df.
Proof.
  unfold select_eq, column.
  induction df as [| r df IH]; simpl; [reflexivity |].
  destruct (String.eqb (col r) value); now rewrite IH.
Qed.

Lemma insert_desc_In {K} (x y : K * Qc) rows :
  In y (insert_desc x rows) <-> y = x \/ In y rows.
Proof.
  induction rows as [| z rest IH]; simpl.
  - intuition.
  - destruct (Qc_ltb (snd x) (snd z)); simpl; [rewrite IH |]; intuition.
Qed.

Lemma sort_values_desc_In {K} (y : K * Qc) rows :
  In y (sort_values_desc rows) <-> In y rows.
Proof.
  induction rows as [| x rest IH]; simpl; [tauto |].
  rewrite insert_desc_In, IH. intuition.
Qed.

Lemma insert_desc_sorted {K} (x : K * Qc) rows :
  StronglySorted (fun a b => (snd b <= snd a)%Qc) rows ->
  StronglySorted (fun a b => (snd b <= snd a)%Qc) (insert_desc x rows).
Proof.
  induction rows as [| z rest IH]; simpl; intros Hs.
  - repeat constructor.
  - inversion Hs as [| ? ? Hrest Hall]; subst.
    destruct (Qc_ltb (snd x) (snd z)) eqn:Hlt.
    + apply Qc_ltb_spec in Hlt.
      constructor; [now apply IH |].
      apply Forall_forall. intros y Hy.
      apply insert_desc_In in Hy as [-> | Hy].
      * now apply Qclt_le_weak.
      * rewrite Forall_forall in Hall. now apply Hall.
    + assert (Hzx : (snd z <= snd x)%Qc).
      { apply Qcnot_lt_le. intros Hx. apply Qc_ltb_spec in Hx. congruence. }
      constructor; [exact Hs |].
      constructor; [exact Hzx |].
      eapply Forall_impl; [| exact Hall].
      intros y Hy. simpl in Hy. now apply (Qcle_trans _ (snd z)).
Qed.

Lemma sort_values_desc_sorted {K} (rows : list (K * Qc)) :
  StronglySorted (fun a b => (snd b <= snd a)%Qc) (sort_values_desc rows).
Proof.
  induction rows as [| x rest IH]; simpl; [constructor |].
  now apply insert_desc_sorted.
Qed.

Lemma floor_view_cases df_range floor_sel :
  (select_eq floor floor_sel df_range = [] /\
   floor_view df_range floor_sel = None) \/
  (select_eq floor floor_sel df_range <> [] /\
   exists page,
     floor_view df_range floor_sel = Some page /\
     floor_totals page
     = aggregate_energy (select_eq floor floor_sel df_range)).
Proof.
  unfold floor_view.
  destruct (select_eq floor floor_sel df_range) as [| r rest] eqn:Hsel.
  - left. split; reflexivity.
  - right. split; [discriminate |]. eexists. split; reflexivity.
Qed.

(** [floor_view] only warns exactly when the frame has no row of the
    chosen floor; otherwise the totals it shows are those of the rows of
    that floor. *)
Theorem floor_view_rows (df_range : DataFrame) (floor_sel : string) :
  (floor_view df_range floor_sel = None <->
   forall r, In r df_range -> floor r <> floor_sel) /\
  (forall page, floor_view df_range floor_sel = Some page ->
     floor_totals page
     = aggregate_energy
         (filter (fun r => String.eqb (floor r) floor_sel) df_range)).
Proof.
  split.
  - destruct (floor_view_cases df_range floor_sel)
      as [[Hnil ->] | [Hne (page & -> & _)]].
    + split; [intros _ | reflexivity].
      rewrite select_eq_filter in Hnil. intros r Hr.
      apply String.eqb_neq. exact (proj1 (filter_nil_iff _ _) Hnil r Hr).
    + split; [discriminate |]. intros Hall. exfalso. apply Hne.
      rewrite select_eq_filter. apply filter_nil_iff. intros r Hr.
      apply String.eqb_neq. now apply Hall.
  - intros page Hpage.
    destruct (floor_view_cases df_range floor_sel)
      as [[_ Hnone] | [_ (page' & Hsome & Htot)]]; [congruence |].
    rewrite Hsome in Hpage. injection Hpage as <-.
    now rewrite Htot, select_eq_filter.
Qed.

(** Two floors in the frame, a third one asked for. *)
Lemma floor_view_rows_witness :
  floor_view [ demo_row 0 "Floor 1" "F1-101" (qz 1);
               demo_row 0 "Floor 2" "F2-201" (qz 2) ] "Floor 3" = None.
Proof.
  apply (proj1 (floor_view_rows _ "Floor 3")).
  intros r [<- | [<- | []]]; discriminate.
Defined.

(** The "Energy by Floor" chart agrees with the floor view: it has a bar
    for a floor exactly when the floor view shows a page for it, and the
    bar is the energy total of that page; the bars are in descending
    order of energy. *)
Theorem energy_by_floor_matches_floor_view (df_range : DataFrame) :
  StronglySorted (fun a b => (snd b <= snd a)%Qc) (energy_by_floor df_range) /\
  (forall f v,
     In (f, v) (energy_by_floor df_range) <->
     exists page, floor_view df_range f = Some page /\
                  fst (fst (floor_totals page)) = v).
Proof.
  split; [apply sort_values_desc_sorted |].
  intros f v. unfold energy_by_floor. rewrite sort_values_desc_In.
  destruct (groupby_sum_spec String.eqb String.ltb floor energy_kwh_step
              df_range) as (_ & _ & Hrows).
  rewrite Hrows. clear Hrows.
  destruct (floor_view_cases df_range f)
    as [[Hnil Hnone] | [Hne (page & Hsome & Htot)]].
  - rewrite Hnone. rewrite select_eq_filter in Hnil. split.
    + intros [(r & Hr & Hf) _]. exfalso.
      pose proof (proj1 (filter_nil_iff _ _) Hnil r Hr) as Hfalse.
      simpl in Hfalse. rewrite Hf, String.eqb_refl in Hfalse. discriminate.
    + intros (page & Hpage & _). discriminate.
  - rewrite Hsome. rewrite select_eq_filter in Hne, Htot. split.
    + intros [_ ->]. exists page. split; [reflexivity |].
      rewrite Htot. reflexivity.
    + intros (page' & [= <-] & <-). split.
      * destruct (filter (fun r => String.eqb (floor r) f) df_range)
          as [| r rest] eqn:Hfil; [contradiction |].
        assert (Hr : In r (filter (fun r => String.eqb (floor r) f) df_range))
          by (rewrite Hfil; now left).
        apply filter_In in Hr as [Hr Hf]. apply String.eqb_eq in Hf.
        now exists r.
      * rewrite Htot. reflexivity.
Qed.

(** ** Floors partition the building *)

Lemma series_sum_map_add {A} (f g : A -> Qc) (l : list A) :
  series_sum (map (fun a => (f a + g a)%Qc) l)
  = (series_sum (map f l) + series_sum (map g l))%Qc.
Proof.
  induction l as [| a l IH]; simpl.
  - rewrite series_sum_nil. ring.
  - rewrite !series_sum_cons, IH. ring.
Qed.

Lemma series_sum_map_zero {A} (l : list A) :
  series_sum (map (fun _ => 0%Qc) l) = 0%Qc.
Proof.
  induction l as [| a l IH]; simpl; [reflexivity |].
  rewrite series_sum_cons, IH. ring.
Qed.

Lemma series_sum_indicator (k0 : string) (v : Qc) (ks : list string) :
  NoDup ks ->
  series_sum (map (fun k => if String.eqb k0 k then v else 0%Qc) ks)
  = if in_dec string_dec k0 ks then v else 0%Qc.
Proof.
  induction 1 as [| k ks Hnotin _ IH]; simpl; [reflexivity |].
  rewrite series_sum_cons, IH.
  destruct (string_dec k k0) as [-> | Hne].
  - rewrite String.eqb_refl.
    destruct (in_dec string_dec k0 ks); [contradiction | ring].
  - assert (Hf : String.eqb k0 k = false) by (apply String.eqb_neq; congruence).
    rewrite Hf. destruct (in_dec string_dec k0 ks); ring.
Qed.

Lemma series_sum_partition (key : Sample -> string) (val : Sample -> Qc)
    (ks : list string) (df : DataFrame) :
  NoDup ks ->
  (forall r, In r df -> In (key r) ks) ->
  series_sum
    (map (fun k => series_sum
                     (map val (filter (fun r => String.eqb (key r) k) df)))
         ks)
  = series_sum (map val df).
Proof.
  intros Hnd. induction df as [| r df IH]; intros Hall; simpl.
  - apply series_sum_map_zero.
  - assert (Hind : series_sum
                     (map (fun k => if String.eqb (key r) k then val r else 0%Qc)
                          ks) = val r).
    { rewrite (series_sum_indicator (key r) (val r) ks Hnd).
      destruct (in_dec string_dec (key r) ks) as [_ | Hno]; [reflexivity |].
      exfalso. apply Hno, Hall. now left. }
    rewrite series_sum_cons, <- IH by (intros r' Hr'; apply Hall; now right).
    rewrite <- Hind at 1. rewrite <- series_sum_map_add.
    f_equal. apply map_ext. intros k.
    destruct (String.eqb (key r) k); simpl;
      rewrite ?series_sum_cons; ring.
Qed.

Lemma floor_energy_filter df_range floor_sel :
  floor_energy df_range floor_sel
  = series_sum
      (map energy_kwh_step
           (filter (fun r => String.eqb (floor r) floor_sel) df_range)).
Proof.
  unfold floor_energy.
  destruct (floor_view_cases df_range floor_sel)
    as [[Hnil ->] | [_ (page & -> & ->)]].
  - rewrite select_eq_filter in Hnil. now rewrite Hnil.
  - now rewrite select_eq_filter.
Qed.

Lemma catalog_floor floors rid fl rn :
  In (rid, fl, rn) (catalog floors) -> In fl (map fst floors).
Proof.
  unfold catalog. intros Hin.
  apply in_flat_map in Hin as ([f rooms] & Hf & Hrm).
  apply in_map_iff in Hrm as ([rid' rn'] & [= _ <- _] & _).
  exact (in_map fst _ _ Hf).
Qed.

Lemma room_frame_floor cfg u df r :
  room_frame cfg u df -> In r df -> floor r = snd (fst u).
Proof.
  intros (idx & v_on & v_off & c_on & c_off & _ & ->) Hin.
  apply in_map_iff in Hin as (i & <- & _). reflexivity.
Qed.

Lemma frames_rows_floor cfg us dfs :
  Forall2 (room_frame cfg) us dfs ->
  forall df r, In df dfs -> In r df ->
    exists u, In u us /\ floor r = snd (fst u).
Proof.
  induction 1 as [| u d us ds Hu _ IH]; intros df r Hdf Hr; [contradiction |].
  destruct Hdf as [-> | Hdf].
  - exists u. split; [now left | exact (room_frame_floor _ _ _ _ Hu Hr)].
  - destruct (IH df r Hdf Hr) as (u' & Hu' & Hfl).
    exists u'. split; [now right | exact Hfl].
Qed.

Lemma filter_all {A} (p : A -> bool) (l : list A) :
  (forall x, In x l -> p x = true) -> filter p l = l.
Proof.
  induction l as [| a l IH]; intros Hall; simpl; [reflexivity |].
  rewrite (Hall a (or_introl eq_refl)), IH; [reflexivity |].
  intros x Hx. apply Hall. now right.
Qed.

Lemma partition_by_key_perm (key : Sample -> string) (ks : list string)
    (df : DataFrame) :
  NoDup ks ->
  Permutation (filter (fun r => existsb (String.eqb (key r)) ks) df)
              (flat_map (fun k => filter (fun r => String.eqb (key r) k) df) ks).
Proof.
  induction 1 as [| k ks Hnotin _ IH]; simpl.
  - induction df as [| r df IHdf]; simpl; [constructor | exact IHdf].
  - etransitivity; [| apply Permutation_app_head, IH].
    apply filter_split_perm; intros r; [reflexivity |].
    destruct (String.eqb (key r) k) eqn:Hk; [| reflexivity].
    destruct (existsb (String.eqb (key r)) ks) eqn:Hks; [| reflexivity].
    exfalso. apply Hnotin.
    apply String.eqb_eq in Hk. apply existsb_exists in Hks as (k' & Hin & Hk').
    apply String.eqb_eq in Hk'. congruence.
Qed.

Lemma floor_frames_perm (df_range : DataFrame) :
  (forall r, In r df_range -> In (floor r) (map fst FLOORS)) ->
  Permutation df_range
    (flat_map (fun fl => select_eq floor fl df_range) (map fst FLOORS)).
Proof.
  intros Hall.
  rewrite (flat_map_ext _ _ (fun fl => select_eq_filter floor fl df_range)).
  rewrite <- (filter_all (fun r => existsb (String.eqb (floor r)) (map fst FLOORS))
                df_range) at 1.
  - apply partition_by_key_perm.
    simpl. repeat constructor; simpl; intuition discriminate.
  - intros r Hr. apply existsb_exists. exists (floor r).
    split; [now apply Hall | apply String.eqb_refl].
Qed.

(** The floor pages split the building.  On any frame whose rows all
    carry a floor of [FLOORS], every row is on the page of exactly one
    floor: the frame is the frames of the floor pages put together.  With
    sums taken exactly, the energies that the floor view reports for the
    floors of [FLOORS] (zero where it only warns) therefore add up to the
    total energy of the frame; in binary64 the two can differ by
    rounding.  Every range of the built dataset is such a frame. *)
Theorem floors_partition_building {G : Type} `{RandomGen G}
    (cfg : Config) (g : G) :
  (forall df_range : DataFrame,
     (forall r, In r df_range -> In (floor r) (map fst FLOORS)) ->
     Permutation df_range
       (flat_map (fun fl => select_eq floor fl df_range) (map fst FLOORS)) /\
     series_sum (map (floor_energy df_range) (map fst FLOORS))
     = fst (fst (aggregate_energy df_range))) /\
  (time_freq_min cfg <> 0 ->
   exists df p',
     load_data cfg (fresh g) = (Returned df, p') /\
     forall start_dt end_dt,
       let df_range := filter_by_range df start_dt end_dt in
       Permutation df_range
         (flat_map (fun fl => select_eq floor fl df_range) (map fst FLOORS)) /\
       series_sum (map (floor_energy df_range) (map fst FLOORS))
       = fst (fst (aggregate_energy df_range))).
Proof.
  assert (Hgen : forall df_range : DataFrame,
            (forall r, In r df_range -> In (floor r) (map fst FLOORS)) ->
            Permutation df_range
              (flat_map (fun fl => select_eq floor fl df_range)
                        (map fst FLOORS)) /\
            series_sum (map (floor_energy df_range) (map fst FLOORS))
            = fst (fst (aggregate_energy df_range))).
  { intros df_range Hall. split; [exact (floor_frames_perm df_range Hall) |].
    rewrite (map_ext _ _ (floor_energy_filter df_range)).
    apply series_sum_partition; [| exact Hall].
    simpl. repeat constructor; simpl; intuition discriminate. }
  split; [exact Hgen |].
  intros Hf0.
  destruct (load_data_body_returns cfg g Hf0) as (dfs & g' & Hfr & Hrun).
  exists (concat dfs), (mkProcess g' (Some (concat dfs))).
  split.
  { unfold load_data, fresh; simpl. now rewrite Hrun. }
  intros start_dt end_dt df_range. apply Hgen.
  intros r Hr. apply filter_by_range_In in Hr as [Hr _].
  apply in_concat in Hr as (df & Hdf & Hr).
  pose proof (frames_of_room_frame _ _ _ _ _ Hf0 Hfr) as Hall.
  destruct (frames_rows_floor _ _ _ Hall df r Hdf Hr) as ([[rid fl] rn] & Hu & ->).
  exact (catalog_floor _ _ _ _ Hu).
Qed.

(** Two floors of demo rows and the dataset of the source's constants. *)
Lemma floors_partition_building_witness :
  let demo := [ demo_row 0 "Floor 1" "F1-101" (qz 1);
                demo_row 0 "Floor 2" "F2-201" (qz 2) ] in
  (Permutation demo
     (flat_map (fun fl => select_eq floor fl demo) (map fst FLOORS)) /\
   series_sum (map (floor_energy demo) (map fst FLOORS))
   = fst (fst (aggregate_energy demo))) /\
  exists df p',
    load_data app_config (fresh 0%nat) = (Returned df, p') /\
    forall start_dt end_dt,
      let df_range := filter_by_range df start_dt end_dt in
      Permutation df_range
        (flat_map (fun fl => select_eq floor fl df_range) (map fst FLOORS)) /\
      series_sum (map (floor_energy df_range) (map fst FLOORS))
      = fst (fst (aggregate_energy df_range)).
Proof.
  intros demo.
  destruct (floors_partition_building app_config 0%nat) as [Hgen Hdata].
  split.
  - apply Hgen. intros r [<- | [<- | []]]; simpl; tauto.
  - apply Hdata. vm_compute. discriminate.
Defined.

(** ** Sorting by timestamp *)

Lemma insert_timestamp_perm r df : Permutation (insert_timestamp r df) (r :: df).
Proof.
  induction df as [| x rest IH]; simpl; [reflexivity |].
  destruct (timestamp x <? timestamp r); [| reflexivity].
  rewrite IH. apply perm_swap.
Qed.

Lemma insert_timestamp_sorted r df :
  StronglySorted (fun a b => timestamp a <= timestamp b) df ->
  StronglySorted (fun a b => timestamp a <= timestamp b) (insert_timestamp r df).
Proof.
  induction df as [| x rest IH]; simpl; intros Hs.
  - repeat constructor.
  - inversion Hs as [| ? ? Hrest Hall]; subst.
    destruct (timestamp x <? timestamp r) eqn:Hlt.
    + apply Z.ltb_lt in Hlt. constructor; [now apply IH |].
      apply Forall_forall. intros y Hy.
      apply (Permutation_in _ (insert_timestamp_perm r rest)) in Hy.
      destruct Hy as [<- | Hy]; [lia |].
      rewrite Forall_forall in Hall. now apply Hall.
    + apply Z.ltb_ge in Hlt. constructor; [exact Hs |].
      constructor; [exact Hlt |].
      eapply Forall_impl; [| exact Hall]. intros y Hy. simpl in Hy. lia.
Qed.

#[export] Instance insertion_sort_timestamp_ok :
  TimestampSort insertion_sort_timestamp.
Proof.
  split.
  - intros df. induction df as [| r df IH]; simpl; [reflexivity |].
    rewrite insert_timestamp_perm. now constructor.
  - intros df. induction df as [| r df IH]; simpl; [constructor |].
    now apply insert_timestamp_sorted.
Qed.

(** ** Room view *)

Lemma sorted_last_max (l : list Sample) (d : Sample) :
  StronglySorted (fun a b => timestamp a <= timestamp b) l ->
  forall r, In r l -> timestamp r <= timestamp (last l d).
Proof.
  induction 1 as [| a l Hs IH Hall]; intros r Hr; [contradiction |].
  destruct l as [| b l'].
  - destruct Hr as [<- | []]. simpl. lia.
  - change (last (a :: b :: l') d) with (last (b :: l') d).
    destruct Hr as [<- | Hr]; [| now apply IH].
    rewrite Forall_forall in Hall.
    assert (Hb : In (last (b :: l') d) (b :: l')).
    { destruct (exists_last (l := b :: l')) as (l0 & x & Heq);
        [discriminate |].
      rewrite Heq, last_last. apply in_or_app. right. now left. }
    now apply Hall.
Qed.

Lemma last_In {A} (l : list A) (d : A) : l <> [] -> In (last l d) l.
Proof.
  intros Hne. destruct (exists_last Hne) as (l0 & x & ->).
  rewrite last_last. apply in_or_app. right. now left.
Qed.

Section RoomViewFacts.

Context (sort : DataFrame -> DataFrame) `{!TimestampSort sort}.

Lemma room_view_some (df_range : DataFrame) (room_sel : string) first rest :
  filter (fun r => String.eqb (room_id r) room_sel) df_range = first :: rest ->
  exists page,
    room_view sort df_range room_sel = Some page /\
    page_room_name page = room_name first /\
    latest page = last (sort (first :: rest)) first /\
    manual_on page = is_on (latest page) /\
    room_totals page = aggregate_energy (first :: rest) /\
    room_daily page = daily_energy (sort (first :: rest)).
Proof.
  intros Hfil. unfold room_view. rewrite select_eq_filter, Hfil.
  eexists. split; [reflexivity |]. simpl. repeat split.
Qed.

Lemma latest_reading (rows : DataFrame) (first : Sample) :
  rows <> [] ->
  In (last (sort rows) first) rows /\
  forall r, In r rows -> timestamp r <= timestamp (last (sort rows) first).
Proof.
  intros Hne.
  assert (Hsne : sort rows <> []).
  { intros Hnil. pose proof (sort_permutation rows) as Hp.
    rewrite Hnil in Hp. apply Permutation_nil in Hp. contradiction. }
  split.
  - apply (Permutation_in _ (sort_permutation rows)). now apply last_In.
  - intros r Hr. apply sorted_last_max; [apply sort_ascending |].
    exact (Permutation_in _ (Permutation_sym (sort_permutation rows)) Hr).
Qed.

(** [room_view] only warns exactly when the frame has no row of the
    chosen room.  Otherwise the latest reading it shows is a row of that
    room in the frame, stamped no earlier than any other row of the room,
    whatever order the sort leaves equal timestamps in; the totals are
    those of the room's rows. *)
Theorem room_view_latest (df_range : DataFrame) (room_sel : string) :
  (room_view sort df_range room_sel = None <->
   forall r, In r df_range -> room_id r <> room_sel) /\
  (forall page, room_view sort df_range room_sel = Some page ->
     In (latest page) df_range /\
     room_id (latest page) = room_sel /\
     (forall r, In r df_range -> room_id r = room_sel ->
                timestamp r <= timestamp (latest page)) /\
     manual_on page = is_on (latest page) /\
     room_totals page
     = aggregate_energy
         (filter (fun r => String.eqb (room_id r) room_sel) df_range)).
Proof.
  destruct (filter (fun r => String.eqb (room_id r) room_sel) df_range)
    as [| first rest] eqn:Hfil.
  - assert (Hnone : room_view sort df_range room_sel = None)
      by (unfold room_view; now rewrite select_eq_filter, Hfil).
    rewrite Hnone. split.
    + split; [intros _ | reflexivity].
      intros r Hr. apply String.eqb_neq.
      exact (proj1 (filter_nil_iff _ _) Hfil r Hr).
    + intros page Hpage. discriminate.
  - destruct (room_view_some df_range room_sel first rest Hfil)
      as (page & Hsome & _ & Hlatest & Hon & Htot & _).
    destruct (latest_reading (first :: rest) first) as [Hin Hmax];
      [discriminate |].
    rewrite Hsome. split.
    + split; [discriminate |]. intros Hall. exfalso.
      assert (Hf : In first (filter (fun r => String.eqb (room_id r) room_sel)
                                    df_range)) by (rewrite Hfil; now left).
      apply filter_In in Hf as [Hf Heq]. apply String.eqb_eq in Heq.
      exact (Hall first Hf Heq).
    + intros page' [= <-]. rewrite Hlatest in *.
      assert (Hin' : In (last (sort (first :: rest)) first)
                        (filter (fun r => String.eqb (room_id r) room_sel)
                                df_range)) by (rewrite Hfil; exact Hin).
      apply filter_In in Hin' as [Hdf Hrid]. apply String.eqb_eq in Hrid.
      split; [exact Hdf |]. split; [exact Hrid |].
      split; [| split; [exact Hon | exact Htot]].
      intros r Hr Heq. apply Hmax.
      assert (Hr' : In r (filter (fun r => String.eqb (room_id r) room_sel)
                                 df_range))
        by (apply filter_In; split; [exact Hr | now apply String.eqb_eq]).
      rewrite Hfil in Hr'. exact Hr'.
Qed.

End RoomViewFacts.

(** The latest reading of room F1-101 in the small frame. *)
Lemma room_view_latest_witness :
  exists page,
    room_view insertion_sort_timestamp demo_readings "F1-101" = Some page /\
    timestamp (latest page) = minutes 30 /\
    room_id (latest page) = "F1-101"%string.
Proof.
  eexists. split; [reflexivity |].
  split; [reflexivity |].
  exact (proj1 (proj2 (proj2 (room_view_latest insertion_sort_timestamp
                                demo_readings "F1-101") _ eq_refl))).
Defined.

(** ** Row order does not matter *)

Lemma series_sum_perm (xs ys : list Qc) :
  Permutation xs ys -> series_sum xs = series_sum ys.
Proof.
  induction 1 as [| x xs ys _ IH | x y xs | xs ys zs _ IH1 _ IH2].
  - reflexivity.
  - now rewrite !series_sum_cons, IH.
  - rewrite !series_sum_cons. ring.
  - congruence.
Qed.

Lemma filter_perm {A} (p : A -> bool) (l l' : list A) :
  Permutation l l' -> Permutation (filter p l) (filter p l').
Proof.
  induction 1 as [| x l l' _ IH | x y l | l l' l'' _ IH1 _ IH2]; simpl.
  - constructor.
  - destruct (p x); [now constructor | exact IH].
  - destruct (p x), (p y); try reflexivity. apply perm_swap.
  - now transitivity (filter p l').
Qed.

Section GroupOrder.

Context {K : Type} (eqb ltb : K -> K -> bool) `{!KeyOrder eqb ltb}.

Lemma keys_ascending_tail {V} (kv : K * V) (rest : list (K * V)) :
  keys_ascending ltb (kv :: rest) -> keys_ascending ltb rest.
Proof. unfold keys_ascending; simpl. intros Hs. now inversion Hs. Qed.

Lemma keys_ascending_head_lt {V} (kv x : K * V) (rest : list (K * V)) :
  keys_ascending ltb (kv :: rest) -> In x rest -> ltb (fst kv) (fst x) = true.
Proof.
  unfold keys_ascending; simpl. intros Hs Hin.
  inversion Hs as [| ? ? _ Hall]; subst.
  rewrite Forall_forall in Hall. apply Hall. exact (in_map fst _ _ Hin).
Qed.

(** Two lists of groups in ascending key order with the same rows are
    the same list. *)
Lemma keys_ascending_ext {V} (l1 l2 : list (K * V)) :
  keys_ascending ltb l1 -> keys_ascending ltb l2 ->
  (forall kv, In kv l1 <-> In kv l2) -> l1 = l2.
Proof.
  revert l2. induction l1 as [| a r1 IH]; intros [| b r2] H1 H2 Hext.
  - reflexivity.
  - exfalso. apply (proj2 (Hext b)). now left.
  - exfalso. apply (proj1 (Hext a)). now left.
  - assert (Hab : a = b).
    { destruct (proj1 (Hext a) (or_introl eq_refl)) as [Hba | Ha];
        [now symmetry |].
      destruct (proj2 (Hext b) (or_introl eq_refl)) as [Hab | Hb];
        [exact Hab |].
      pose proof (keys_ascending_head_lt _ _ _ H2 Ha) as Hlt1.
      pose proof (keys_ascending_head_lt _ _ _ H1 Hb) as Hlt2.
      pose proof (key_ltb_trans _ _ _ Hlt1 Hlt2) as Hbb.
      rewrite key_ltb_irrefl in Hbb. discriminate. }
    subst b. f_equal.
    apply IH; [exact (keys_ascending_tail _ _ H1)
              | exact (keys_ascending_tail _ _ H2) |].
    intros kv. split; intros Hin.
    + destruct (proj1 (Hext kv) (or_intror Hin)) as [<- | Hin']; [| exact Hin'].
      pose proof (keys_ascending_head_lt _ _ _ H1 Hin) as Hlt.
      rewrite key_ltb_irrefl in Hlt. discriminate.
    + destruct (proj2 (Hext kv) (or_intror Hin)) as [<- | Hin']; [| exact Hin'].
      pose proof (keys_ascending_head_lt _ _ _ H2 Hin) as Hlt.
      rewrite key_ltb_irrefl in Hlt. discriminate.
Qed.

Lemma groupby_sum_perm (key : Sample -> K) (val : Sample -> Qc)
    (df df' : DataFrame) :
  Permutation df df' ->
  groupby_sum eqb ltb key val df = groupby_sum eqb ltb key val df'.
Proof.
  intros Hp.
  destruct (groupby_sum_spec eqb ltb key val df) as (H1 & _ & Hrows1).
  destruct (groupby_sum_spec eqb ltb key val df') as (H2 & _ & Hrows2).
  apply keys_ascending_ext; [exact H1 | exact H2 |].
  intros [k v]. rewrite Hrows1, Hrows2.
  rewrite (series_sum_perm _ _
             (Permutation_map val
                (filter_perm (fun r => eqb (key r) k) _ _ Hp))).
  split; intros [(r & Hr & Hk) Hv]; (split; [| exact Hv]); exists r;
    (split; [| exact Hk]).
  - exact (Permutation_in _ Hp Hr).
  - exact (Permutation_in _ (Permutation_sym Hp) Hr).
Qed.

End GroupOrder.

Lemma aggregate_energy_perm (df df' : DataFrame) :
  Permutation df df' -> aggregate_energy df = aggregate_energy df'.
Proof.
  intros Hp. unfold aggregate_energy, column.
  now rewrite (series_sum_perm _ _ (Permutation_map energy_kwh_step Hp)).
Qed.

(** Sums being exact, the pages do not depend on the order of the rows:
    two frames with the same rows in different orders give the same
    building overview (totals, per-floor chart, daily trend), the same
    daily energy and the same floor page for every floor. *)
Theorem pages_ignore_row_order (df df' : DataFrame) :
  Permutation df df' ->
  building_overview df = building_overview df' /\
  daily_energy df = daily_energy df' /\
  forall floor_sel, floor_view df floor_sel = floor_view df' floor_sel.
Proof.
  intros Hp.
  assert (Hdaily : forall a b, Permutation a b ->
                               daily_energy a = daily_energy b).
  { intros a b Hab. unfold daily_energy.
    now apply (groupby_sum_perm Z.eqb Z.ltb). }
  split; [| split; [now apply Hdaily |]].
  - unfold building_overview, energy_by_floor.
    rewrite (aggregate_energy_perm _ _ Hp), (Hdaily _ _ Hp).
    now rewrite (groupby_sum_perm String.eqb String.ltb _ _ _ _ Hp).
  - intros floor_sel. unfold floor_view. rewrite !select_eq_filter.
    pose proof (filter_perm (fun r => String.eqb (floor r) floor_sel) _ _ Hp)
      as Hfp.
    destruct (filter (fun r => String.eqb (floor r) floor_sel) df)
      as [| a l] eqn:Ha;
      destruct (filter (fun r => String.eqb (floor r) floor_sel) df')
        as [| b l'] eqn:Hb.
    + reflexivity.
    + apply Permutation_nil in Hfp. discriminate.
    + apply Permutation_sym, Permutation_nil in Hfp. discriminate.
    + rewrite (aggregate_energy_perm _ _ Hfp), (Hdaily _ _ Hfp).
      rewrite (groupby_sum_perm Z.eqb Z.ltb _ _ _ _ Hfp).
      now rewrite (groupby_sum_perm _ _ _ _ _ _ Hfp).
Qed.

(** The small frame and the same rows sorted by timestamp. *)
Lemma pages_ignore_row_order_witness :
  building_overview demo_readings
  = building_overview (insertion_sort_timestamp demo_readings) /\
  floor_view demo_readings "Floor 1"
  = floor_view (insertion_sort_timestamp demo_readings) "Floor 1".
Proof.
  destruct (pages_ignore_row_order demo_readings
              (insertion_sort_timestamp demo_readings)) as (Hb & _ & Hf).
  - apply Permutation_sym, sort_permutation.
  - split; [exact Hb | apply Hf].
Defined.

(** ** Choosing the room *)

Lemma dict_get_set_same {V} k (v : V) d : dict_get k (dict_set k v d) = Some v.
Proof.
  induction d as [| [k' v'] rest IH]; simpl.
  - now rewrite String.eqb_refl.
  - destruct (String.eqb k k') eqn:He; simpl; rewrite He; [reflexivity | exact IH].
Qed.

Lemma dict_get_set_other {V} k k' (v : V) d :
  k' <> k -> dict_get k' (dict_set k v d) = dict_get k' d.
Proof.
  intros Hne. induction d as [| [k0 v0] rest IH]; simpl.
  - now rewrite (proj2 (String.eqb_neq k' k) Hne).
  - destruct (String.eqb k k0) eqn:He; simpl.
    + apply String.eqb_eq in He. subst k0.
      now rewrite (proj2 (String.eqb_neq k' k) Hne).
    + now rewrite IH.
Qed.

Lemma room_label_map_snoc rooms rm :
  room_label_map (rooms ++ [rm])
  = dict_set (room_label (fst rm) (snd rm)) (fst rm) (room_label_map rooms).
Proof. unfold room_label_map. now rewrite fold_left_app. Qed.

Lemma room_label_map_get rooms rid rn :
  NoDup (map (fun rm => room_label (fst rm) (snd rm)) rooms) ->
  In (rid, rn) rooms ->
  dict_get (room_label rid rn) (room_label_map rooms) = Some rid.
Proof.
  induction rooms as [| rm rooms IH] using rev_ind; [contradiction |].
  rewrite map_app, room_label_map_snoc. simpl. intros Hnd Hin.
  apply in_app_or in Hin as [Hin | [-> | []]].
  - rewrite dict_get_set_other.
    + apply IH; [| exact Hin]. now apply NoDup_app_remove_r in Hnd.
    + intros Heq. apply NoDup_remove_2 in Hnd. apply Hnd.
      rewrite app_nil_r, <- Heq.
      exact (in_map (fun rm => room_label (fst rm) (snd rm)) _ _ Hin).
  - apply dict_get_set_same.
Qed.

Lemma room_label_map_values rooms l rid :
  dict_get l (room_label_map rooms) = Some rid ->
  exists rn, In (rid, rn) rooms /\ l = room_label rid rn.
Proof.
  induction rooms as [| [rid0 rn0] rooms IH] using rev_ind;
    [discriminate |].
  rewrite room_label_map_snoc. simpl. intros Hget.
  destruct (string_dec l (room_label rid0 rn0)) as [-> | Hne].
  - rewrite dict_get_set_same in Hget. injection Hget as <-.
    exists rn0. split; [apply in_or_app; right; now left | reflexivity].
  - rewrite dict_get_set_other in Hget by exact Hne.
    destruct (IH Hget) as (rn & Hin & Hl).
    exists rn. split; [apply in_or_app; now left | exact Hl].
Qed.

Lemma dict_set_head {V} k (v : V) d :
  exists k0 v0 rest, dict_set k v d = (k0, v0) :: rest /\
                     match d with
                     | [] => k0 = k
                     | (k1, _) :: _ => k0 = k1
                     end.
Proof.
  destruct d as [| [k1 v1] rest]; simpl.
  - now exists k, v, [].
  - destruct (String.eqb k k1); eexists _, _, _; split; reflexivity.
Qed.

Lemma room_label_map_head rid rn rooms :
  exists v rest,
    room_label_map ((rid, rn) :: rooms) = (room_label rid rn, v) :: rest.
Proof.
  induction rooms as [| rm rooms IH] using rev_ind.
  - now exists rid, [].
  - destruct IH as (v & rest & Hmap).
    change ((rid, rn) :: rooms ++ [rm]) with (((rid, rn) :: rooms) ++ [rm]).
    rewrite room_label_map_snoc, Hmap. simpl.
    destruct (String.eqb (room_label (fst rm) (snd rm)) (room_label rid rn));
      eexists _, _; reflexivity.
Qed.

Lemma dict_get_head {V} k (v : V) rest : dict_get k ((k, v) :: rest) = Some v.
Proof. simpl. now rewrite String.eqb_refl. Qed.

Lemma select_room_kept floors floor_sel rooms l rid :
  dict_get floor_sel floors = Some rooms ->
  dict_get l (room_label_map rooms) = Some rid ->
  select_room floors floor_sel (Some l) = Found (l, rid).
Proof. intros Hf Hl. unfold select_room. now rewrite Hf, Hl, Hl. Qed.

Lemma select_room_reset floors floor_sel rooms stored l0 v rest :
  dict_get floor_sel floors = Some rooms ->
  (forall l, stored = Some l -> dict_get l (room_label_map rooms) = None) ->
  room_label_map rooms = (l0, v) :: rest ->
  select_room floors floor_sel stored = Found (l0, v).
Proof.
  intros Hf Hstale Hmap. unfold select_room. rewrite Hf.
  assert (Hhead : dict_get l0 (room_label_map rooms) = Some v)
    by (rewrite Hmap; apply dict_get_head).
  destruct stored as [l |].
  - rewrite (Hstale l eq_refl). rewrite Hmap at 1. now rewrite Hhead.
  - rewrite Hmap at 1. now rewrite Hhead.
Qed.

(** The selection never fails on the label.  It raises [KeyError] only
    when the floor is not in the catalog and [IndexError] only when the
    floor has no room; otherwise it yields the id of a room of that
    floor, under that room's label.  When the labels of the floor's rooms
    are distinct, a stored label that names one of them selects that
    room, and any other stored label, or none, selects the floor's first
    room. *)
Theorem select_room_valid (floors : list (string * list (string * string)))
    (floor_sel : string) (stored_label : option string) :
  (dict_get floor_sel floors = None ->
   select_room floors floor_sel stored_label = KeyError) /\
  (dict_get floor_sel floors = Some [] ->
   select_room floors floor_sel stored_label = IndexError) /\
  (forall rooms, dict_get floor_sel floors = Some rooms -> rooms <> [] ->
     exists rid rn,
       In (rid, rn) rooms /\
       select_room floors floor_sel stored_label
       = Found (room_label rid rn, rid)) /\
  (forall rooms rid rn,
     dict_get floor_sel floors = Some rooms ->
     NoDup (map (fun rm => room_label (fst rm) (snd rm)) rooms) ->
     In (rid, rn) rooms ->
     stored_label = Some (room_label rid rn) ->
     select_room floors floor_sel stored_label
     = Found (room_label rid rn, rid)) /\
  (forall rid rn rooms,
     dict_get floor_sel floors = Some ((rid, rn) :: rooms) ->
     NoDup (map (fun rm => room_label (fst rm) (snd rm)) ((rid, rn) :: rooms)) ->
     (forall l, stored_label = Some l ->
                forall rid' rn', In (rid', rn') ((rid, rn) :: rooms) ->
                                 l <> room_label rid' rn') ->
     select_room floors floor_sel stored_label
     = Found (room_label rid rn, rid)).
Proof.
  split; [intros Hf; unfold select_room; now rewrite Hf |].
  split.
  { intros Hf. unfold select_room. rewrite Hf.
    destruct stored_label; reflexivity. }
  split; [| split].
  - intros rooms Hf Hne.
    destruct rooms as [| [rid0 rn0] rooms]; [congruence |].
    destruct (room_label_map_head rid0 rn0 rooms) as (v & rest & Hmap).
    assert (Hcases :
              (exists l rid, stored_label = Some l /\
                 dict_get l (room_label_map ((rid0, rn0) :: rooms)) = Some rid) \/
              (forall l, stored_label = Some l ->
                 dict_get l (room_label_map ((rid0, rn0) :: rooms)) = None)).
    { destruct stored_label as [l |]; [| right; discriminate].
      destruct (dict_get l (room_label_map ((rid0, rn0) :: rooms)))
        as [rid |] eqn:Hget.
      - left. now exists l, rid.
      - right. intros l' [= <-]. exact Hget. }
    destruct Hcases as [(l & rid & -> & Hget) | Hstale].
    + destruct (room_label_map_values _ _ _ Hget) as (rn & Hin & Hl).
      exists rid, rn. split; [exact Hin |].
      rewrite <- Hl. exact (select_room_kept _ _ _ _ _ Hf Hget).
    + assert (Hv : dict_get (room_label rid0 rn0)
                            (room_label_map ((rid0, rn0) :: rooms)) = Some v)
        by (rewrite Hmap; apply dict_get_head).
      destruct (room_label_map_values _ _ _ Hv) as (rn & Hin & Hl).
      exists v, rn. split; [exact Hin |].
      rewrite <- Hl. exact (select_room_reset _ _ _ _ _ _ _ Hf Hstale Hmap).
  - intros rooms rid rn Hf Hnd Hin ->.
    apply (select_room_kept _ _ _ _ _ Hf).
    exact (room_label_map_get rooms rid rn Hnd Hin).
  - intros rid rn rooms Hf Hnd Hstale.
    destruct (room_label_map_head rid rn rooms) as (v & rest & Hmap).
    assert (Hget0 : dict_get (room_label rid rn)
                             (room_label_map ((rid, rn) :: rooms)) = Some rid)
      by (apply room_label_map_get; [exact Hnd | now left]).
    assert (Hv : v = rid).
    { rewrite Hmap, dict_get_head in Hget0. congruence. }
    subst v.
    refine (select_room_reset _ _ _ _ _ _ rest Hf _ Hmap).
    intros l Hl.
    destruct (dict_get l (room_label_map ((rid, rn) :: rooms)))
      as [rid' |] eqn:Hget; [| reflexivity].
    destruct (room_label_map_values _ _ _ Hget) as (rn' & Hin & Heq).
    exfalso. exact (Hstale l Hl rid' rn' Hin Heq).
Qed.

(** Floor 2 of the catalog: a stored label of one of its rooms, and a
    label left over from another floor. *)
Lemma select_room_valid_witness :
  select_room FLOORS "Floor 2" (Some (room_label "F2-202" "Classroom 202"))
  = Found (room_label "F2-202" "Classroom 202", "F2-202"%string) /\
  select_room FLOORS "Floor 2" (Some (room_label "F1-101" "Computer Lab 1"))
  = Found (room_label "F2-201" "Classroom 201", "F2-201"%string).
Proof.
  assert (Hnd : NoDup (map (fun rm => room_label (fst rm) (snd rm))
                           [ ("F2-201", "Classroom 201");
                             ("F2-202", "Classroom 202");
                             ("F2-203", "Seminar Room") ]%string)).
  { repeat constructor; simpl; intuition discriminate. }
  split.
  - apply (proj1 (proj2 (proj2 (proj2
             (select_room_valid FLOORS "Floor 2"
                (Some (room_label "F2-202" "Classroom 202"))))))
             [ ("F2-201", "Classroom 201"); ("F2-202", "Classroom 202");
               ("F2-203", "Seminar Room") ]
             "F2-202" "Classroom 202")%string.
    + reflexivity.
    + exact Hnd.
    + right; left; reflexivity.
    + reflexivity.
  - apply (proj2 (proj2 (proj2 (proj2
             (select_room_valid FLOORS "Floor 2"
                (Some (room_label "F1-101" "Computer Lab 1"))))))
             "F2-201" "Classroom 201"
             [ ("F2-202", "Classroom 202"); ("F2-203", "Seminar Room") ])%string.
    + reflexivity.
    + exact Hnd.
    + intros l [= <-] rid' rn' [[= <- <-] | [[= <- <-] | [[= <- <-] | []]]];
        discriminate.
Defined.

(** ** Room tiles *)

#[export] Instance tile_key_order : KeyOrder tile_key_eqb tile_key_ltb.
Proof. unfold tile_key_eqb, tile_key_ltb. exact _. Qed.

Lemma fold_sum_last (x : Qc * Qc) (rest : list (Qc * Qc)) :
  fold_left sum_last rest x
  = ((fst x + series_sum (map fst rest))%Qc, snd (last rest x)).
Proof.
  revert x. induction rest as [| y rest IH]; intros x; simpl.
  - rewrite series_sum_nil. destruct x as [a b]; simpl. f_equal. ring.
  - rewrite IH, series_sum_cons. simpl. f_equal; [ring |].
    destruct rest as [| z rest']; [reflexivity |].
    simpl. clear. revert z. induction rest' as [| w rest'' IH']; intros z;
      [reflexivity |]. apply IH'.
Qed.

Lemma StronglySorted_filter {A} (R : A -> A -> Prop) (p : A -> bool) l :
  StronglySorted R l -> StronglySorted R (filter p l).
Proof.
  induction 1 as [| a l _ IH Hall]; simpl; [constructor |].
  destruct (p a); [| exact IH]. constructor; [exact IH |].
  apply Forall_forall. intros x Hx. apply filter_In in Hx as [Hx _].
  rewrite Forall_forall in Hall. now apply Hall.
Qed.

Lemma insert_tile_perm t tiles : Permutation (insert_tile t tiles) (t :: tiles).
Proof.
  induction tiles as [| x rest IH]; simpl; [reflexivity |].
  destruct (pair_ltb String.eqb String.ltb String.ltb
              (tile_floor x, tile_room_id x) (tile_floor t, tile_room_id t));
    [| reflexivity].
  rewrite IH. apply perm_swap.
Qed.

Lemma sort_tiles_perm tiles : Permutation (sort_tiles tiles) tiles.
Proof.
  induction tiles as [| t tiles IH]; simpl; [reflexivity |].
  rewrite insert_tile_perm. now constructor.
Qed.

Lemma last_cons_default {A} (x : A) (rest : list A) (d : A) :
  last (x :: rest) d = last rest x.
Proof.
  revert x d. induction rest as [| y rest IH]; intros x d; [reflexivity |].
  change (last (x :: y :: rest) d) with (last (y :: rest) d).
  now rewrite (IH y d), (IH y x).
Qed.

Lemma last_map {A B} (f : A -> B) (l : list A) (d : A) :
  last (map f l) (f d) = f (last l d).
Proof.
  induction l as [| a [| b l] IH]; try reflexivity.
  change (last (map f (a :: b :: l)) (f d)) with (last (map f (b :: l)) (f d)).
  now rewrite IH.
Qed.

Lemma keys_ascending_NoDup {K V} (eqb ltb : K -> K -> bool)
    `{!KeyOrder eqb ltb} (groups : list (K * V)) :
  keys_ascending ltb groups -> NoDup (map fst groups).
Proof.
  unfold keys_ascending.
  induction 1 as [| k ks _ IH Hall]; constructor; [| exact IH].
  intros Hin. rewrite Forall_forall in Hall. specialize (Hall k Hin).
  rewrite key_ltb_irrefl in Hall. discriminate.
Qed.

Section TileFacts.

Context (sort : DataFrame -> DataFrame) `{!TimestampSort sort}.

Lemma rooms_agg_groups df_range :
  let groups := groupby_agg tile_key_eqb tile_key_ltb sum_last sample_key
                  (fun r => (energy_kwh_step r, power_kw r)) (sort df_range) in
  Permutation (rooms_agg sort df_range)
    (map (fun g => mkRoomTile (fst (fst (fst g))) (snd (fst (fst g)))
                              (snd (fst g)) (fst (snd g)) (snd (snd g))
                              (fst (snd g) * TARIFF_PER_KWH)%Qc
                              (fst (snd g) * CO2_PER_KWH_KG * qz 1000)%Qc)
         groups).
Proof. intros groups. unfold rooms_agg. apply sort_tiles_perm. Qed.

Lemma group_of_tile df_range k e p :
  In (k, (e, p))
     (groupby_agg tile_key_eqb tile_key_ltb sum_last sample_key
        (fun r => (energy_kwh_step r, power_kw r)) (sort df_range)) ->
  let rows := filter (fun r => tile_key_eqb (sample_key r) k) df_range in
  rows <> [] /\
  e = series_sum (map energy_kwh_step rows) /\
  exists rlast,
    In rlast rows /\ p = power_kw rlast /\
    forall r, In r rows -> timestamp r <= timestamp rlast.
Proof.
  intros Hin rows. unfold groupby_agg in Hin.
  destruct (fold_agg_add_spec tile_key_eqb tile_key_ltb sum_last sample_key
              (fun r => (energy_kwh_step r, power_kw r)) (sort df_range) [])
    as (Hasc & _ & Hlook); [constructor |].
  cbv zeta in Hasc, Hlook.
  apply (agg_lookup_In tile_key_eqb tile_key_ltb sum_last _ _ _ Hasc) in Hin.
  rewrite Hlook in Hin. simpl in Hin. clear Hlook Hasc.
  set (srows := filter (fun r => tile_key_eqb (sample_key r) k)
                       (sort df_range)) in *.
  assert (Hperm : Permutation srows rows)
    by (apply filter_perm, sort_permutation).
  assert (Hsorted : StronglySorted (fun a b => timestamp a <= timestamp b) srows)
    by (apply StronglySorted_filter, sort_ascending).
  destruct srows as [| x rest] eqn:Hs; [discriminate |].
  simpl in Hin. injection Hin as Hfold. rewrite fold_sum_last in Hfold.
  injection Hfold as He Hp. simpl in He, Hp.
  split.
  { intros Hnil. rewrite Hnil in Hperm.
    apply Permutation_sym, Permutation_nil in Hperm. discriminate. }
  split.
  { rewrite <- (series_sum_perm _ _ (Permutation_map energy_kwh_step Hperm)).
    simpl. rewrite series_sum_cons, map_map in *. now rewrite <- He. }
  exists (last (x :: rest) x).
  split; [| split].
  - apply (Permutation_in _ Hperm). apply last_In. discriminate.
  - rewrite <- Hp, last_cons_default.
    pose proof (last_map (fun r => (energy_kwh_step r, power_kw r)) rest x)
      as Hl.
    simpl in Hl. now rewrite Hl.
  - intros r Hr. apply sorted_last_max; [exact Hsorted |].
    exact (Permutation_in _ (Permutation_sym Hperm) Hr).
Qed.

(** The room tiles of the building overview, whatever order the sort
    leaves equal timestamps in.  There is exactly one tile per room that
    has rows in the frame.  A tile's energy is the sum over its room's
    rows, its "now" power is the power of a row of the room stamped no
    earlier than any other, and its cost and emissions are that energy
    times the tariff and the emission factor (in grams). *)
Theorem rooms_agg_tiles (df_range : DataFrame) :
  let tiles := rooms_agg sort df_range in
  NoDup (map tile_id tiles) /\
  (forall r, In r df_range ->
     exists t, In t tiles /\ tile_id t = sample_key r) /\
  (forall t, In t tiles ->
     tile_rows t df_range <> [] /\
     energy_kwh t = series_sum (map energy_kwh_step (tile_rows t df_range)) /\
     (exists rlast,
        In rlast (tile_rows t df_range) /\
        last_power_kw t = power_kw rlast /\
        forall r, In r (tile_rows t df_range) ->
                  timestamp r <= timestamp rlast) /\
     tile_cost t = (energy_kwh t * TARIFF_PER_KWH)%Qc /\
     tile_co2_g t = (energy_kwh t * CO2_PER_KWH_KG * qz 1000)%Qc).
Proof.
  intros tiles.
  pose (groups := groupby_agg tile_key_eqb tile_key_ltb sum_last sample_key
                    (fun r => (energy_kwh_step r, power_kw r))
                    (sort df_range)).
  pose (mk := fun g : tile_key * (Qc * Qc) =>
                mkRoomTile (fst (fst (fst g))) (snd (fst (fst g)))
                           (snd (fst g)) (fst (snd g)) (snd (snd g))
                           (fst (snd g) * TARIFF_PER_KWH)%Qc
                           (fst (snd g) * CO2_PER_KWH_KG * qz 1000)%Qc).
  assert (Hperm : Permutation tiles (map mk groups))
    by exact (rooms_agg_groups df_range).
  assert (Hspec : keys_ascending tile_key_ltb groups /\
                  forall k, In k (map fst groups) <->
                            In k (map fst (@nil (tile_key * (Qc * Qc)))) \/
                            exists r, In r (sort df_range) /\ sample_key r = k).
  { destruct (fold_agg_add_spec tile_key_eqb tile_key_ltb sum_last sample_key
                (fun r => (energy_kwh_step r, power_kw r)) (sort df_range) [])
      as (Ha & Hk & _); [constructor |].
    split; [exact Ha | exact Hk]. }
  destruct Hspec as [Hasc Hkeys].
  assert (Hids : map tile_id (map mk groups) = map fst groups).
  { rewrite map_map. apply map_ext. intros [[[f i] n] [e p]]. reflexivity. }
  split.
  { apply (Permutation_NoDup (Permutation_sym (Permutation_map tile_id Hperm))).
    rewrite Hids.
    exact (keys_ascending_NoDup tile_key_eqb tile_key_ltb _ Hasc). }
  split.
  { intros r Hr.
    assert (Hk : In (sample_key r) (map fst groups)).
    { apply Hkeys. right. exists r. split; [| reflexivity].
      exact (Permutation_in _ (Permutation_sym (sort_permutation df_range)) Hr). }
    rewrite <- Hids in Hk. apply in_map_iff in Hk as (t & Ht & Hin).
    exists t. split; [| exact Ht].
    exact (Permutation_in _ (Permutation_sym Hperm) Hin). }
  intros t Ht. apply (Permutation_in _ Hperm) in Ht.
  apply in_map_iff in Ht as ([[[f i] n] [e p]] & <- & Hg).
  destruct (group_of_tile df_range _ _ _ Hg) as (Hne & He & Hlast).
  unfold tile_rows, tile_id; simpl.
  split; [exact Hne |]. split; [exact He |].
  split; [exact Hlast |]. split; reflexivity.
Qed.

End TileFacts.

(** The tiles of the small frame: room F1-101 with 6 kWh and the power of
    its 00:30 reading, room F1-102 with 4 kWh. *)
Example rooms_agg_rows :
  map (fun t => (tile_room_id t, this (energy_kwh t), this (last_power_kw t),
                 this (tile_cost t)))
      (rooms_agg insertion_sort_timestamp demo_readings)
  = [ ("F1-101"%string, 6 # 1, 12 # 1, 48 # 1);
      ("F1-102"%string, 4 # 1, 16 # 1, 32 # 1) ].
Proof. vm_compute. reflexivity. Qed.

Lemma rooms_agg_tiles_witness :
  let tiles := rooms_agg insertion_sort_timestamp demo_readings in
  NoDup (map tile_id tiles) /\
  forall r, In r demo_readings ->
    exists t, In t tiles /\ tile_id t = sample_key r.
Proof.
  intros tiles.
  destruct (rooms_agg_tiles insertion_sort_timestamp demo_readings)
    as (Hnd & Hall & _).
  split; [exact Hnd | exact Hall].
Defined.

(** ** From a tile to the room view *)

Lemma NoDup_map_inj {A B} (f : A -> B) (l : list A) a b :
  NoDup (map f l) -> In a l -> In b l -> f a = f b -> a = b.
Proof.
  induction l as [| x l IH]; simpl; intros Hnd Ha Hb Hf; [contradiction |].
  inversion Hnd as [| ? ? Hnotin Hnd']; subst.
  destruct Ha as [-> | Ha], Hb as [-> | Hb].
  - reflexivity.
  - exfalso. apply Hnotin. rewrite Hf. now apply in_map.
  - exfalso. apply Hnotin. rewrite <- Hf. now apply in_map.
  - now apply IH.
Qed.

Lemma catalog_FLOORS_unique rid f1 n1 f2 n2 :
  In (rid, f1, n1) (catalog FLOORS) -> In (rid, f2, n2) (catalog FLOORS) ->
  f1 = f2 /\ n1 = n2.
Proof.
  intros H1 H2.
  pose proof (NoDup_map_inj (fun u : string * string * string => fst (fst u))
                _ _ _ catalog_FLOORS_NoDup H1 H2 eq_refl) as Heq.
  now injection Heq.
Qed.

Lemma select_room_catalog rid fl rn :
  In (rid, fl, rn) (catalog FLOORS) ->
  select_room FLOORS fl (Some (room_label rid rn))
  = Found (room_label rid rn, rid).
Proof.
  simpl. intros Hin.
  repeat (destruct Hin as [[= <- <- <-] | Hin]; [reflexivity |]).
  contradiction.
Qed.

Section TileToRoom.

Context (sort : DataFrame -> DataFrame) `{!TimestampSort sort}.

Lemma rooms_agg_tile_group df_range t :
  In t (rooms_agg sort df_range) ->
  exists e p,
    In (tile_id t, (e, p))
       (groupby_agg tile_key_eqb tile_key_ltb sum_last sample_key
          (fun r => (energy_kwh_step r, power_kw r)) (sort df_range)) /\
    energy_kwh t = e /\ last_power_kw t = p /\
    tile_cost t = (e * TARIFF_PER_KWH)%Qc.
Proof.
  intros Ht. apply (Permutation_in _ (rooms_agg_groups sort df_range)) in Ht.
  apply in_map_iff in Ht as ([[[f i] n] [e p]] & <- & Hg).
  exists e, p. simpl. unfold tile_id; simpl. auto.
Qed.

Lemma tile_buttons_other_key (k : string) (drawn : list RoomTile) :
  (forall t, String.eqb k (tile_button_key t) = false) ->
  existsb (String.eqb k) (map tile_button_key drawn) = false.
Proof.
  intros Hk. induction drawn as [| t drawn IH]; [reflexivity |].
  cbn [map existsb]. now rewrite IH, Hk.
Qed.

Lemma tile_click_refused (t : RoomTile) (s : Session) (drawn : list RoomTile) :
  widget_keys s = overview_widget_keys drawn ->
  tile_click t s
  = StreamlitAPIException
      (mkSession
         (dict_set "room_select_label"
                   (room_label (tile_room_id t) (tile_room_name t))
                   (dict_set "floor_select" (tile_floor t) (session_values s)))
         (widget_keys s)).
Proof.
  intros Hkeys.
  assert (Hfree : forall k value s0,
            (forall t0, String.eqb k (tile_button_key t0) = false) ->
            String.eqb k "view_mode"%string = false ->
            widget_keys s0 = overview_widget_keys drawn ->
            session_assign k value s0
            = Some (mkSession (dict_set k value (session_values s0))
                              (widget_keys s0))).
  { intros k value s0 Hk Hv Hs0. unfold session_assign.
    rewrite Hs0. unfold overview_widget_keys. cbn [existsb].
    now rewrite Hv, (tile_buttons_other_key k drawn Hk). }
  unfold tile_click.
  rewrite (Hfree "floor_select"%string _ s (fun _ => eq_refl) eq_refl Hkeys).
  cbv zeta.
  rewrite (Hfree "room_select_label"%string _
             (mkSession (dict_set "floor_select" (tile_floor t)
                                  (session_values s))
                        (widget_keys s))
             (fun _ => eq_refl) eq_refl Hkeys).
  unfold session_assign at 1. cbn [widget_keys]. rewrite Hkeys.
  unfold overview_widget_keys. cbn [existsb]. rewrite String.eqb_refl.
  reflexivity.
Qed.

(** A click on a tile does not change the view.  In a run of [main] that
    has come to the tiles, the handler stores the tile's floor and room
    label under [floor_select] and [room_select_label] and is then refused
    the assignment to [view_mode], whose radio the sidebar has already
    created: it ends with [StreamlitAPIException], the view mode is what
    it was, and no rerun is asked for.  On a frame whose rows all belong
    to rooms of the catalog, the floor and the label it has stored are
    those with which the selection of [room_view] picks the tile's own
    room; and [room_view] on that room shows the tile's room name and,
    when the room's rows have distinct timestamps, the tile's current
    power. *)
Theorem tile_click_selects_room (df_range : DataFrame) (t : RoomTile)
    (drawn : list RoomTile) (s : Session) :
  (forall r, In r df_range ->
             In (room_id r, floor r, room_name r) (catalog FLOORS)) ->
  In t (rooms_agg sort df_range) ->
  widget_keys s = overview_widget_keys drawn ->
  let label := room_label (tile_room_id t) (tile_room_name t) in
  exists s',
    tile_click t s = StreamlitAPIException s' /\
    dict_get "view_mode" (session_values s')
    = dict_get "view_mode" (session_values s) /\
    dict_get "floor_select" (session_values s') = Some (tile_floor t) /\
    dict_get "room_select_label" (session_values s') = Some label /\
    select_room FLOORS (tile_floor t) (Some label)
    = Found (label, tile_room_id t) /\
    exists page,
      room_view sort df_range (tile_room_id t) = Some page /\
      page_room_name page = tile_room_name t /\
      (NoDup (map timestamp
                (filter (fun r => String.eqb (room_id r) (tile_room_id t))
                        df_range)) ->
       power_kw (latest page) = last_power_kw t).
Proof.
  intros Hcat Ht Hkeys label. subst label.
  eexists.
  split; [exact (tile_click_refused t s drawn Hkeys) |].
  cbn [session_values].
  split; [rewrite !dict_get_set_other by discriminate; reflexivity |].
  split.
  { rewrite dict_get_set_other by discriminate. apply dict_get_set_same. }
  split; [apply dict_get_set_same |].
  destruct (rooms_agg_tile_group df_range t Ht)
    as (e & p & Hg & He & Hp & Hcost).
  destruct (group_of_tile sort df_range _ _ _ Hg)
    as (Hne & Hsum & rlast & Hlast & Hpl & Hmax).
  destruct t as [fl rid rn e' p' c' g']. unfold tile_id in *; simpl in *.
  subst e' p' c'.
  set (rows_key := filter (fun r => tile_key_eqb (sample_key r) (fl, rid, rn))
                          df_range) in *.
  assert (Hkey : forall r, In r rows_key ->
                           In r df_range /\ sample_key r = (fl, rid, rn)).
  { intros r Hr. apply filter_In in Hr as [Hr Hk].
    apply (@key_eqb_eq _ tile_key_eqb tile_key_ltb _) in Hk. now split. }
  assert (Hmem : In (rid, fl, rn) (catalog FLOORS)).
  { destruct rows_key as [| r0 rest0] eqn:Hrows; [contradiction |].
    destruct (Hkey r0 (or_introl eq_refl)) as [Hr0 Hk0].
    specialize (Hcat r0 Hr0). unfold sample_key in Hk0.
    injection Hk0 as Hf Hi Hn. now rewrite Hf, Hi, Hn in Hcat. }
  assert (Hsame : filter (fun r => String.eqb (room_id r) rid) df_range
                  = rows_key).
  { apply filter_ext_in. intros r Hr.
    destruct (String.eqb (room_id r) rid) eqn:Hrid.
    - apply String.eqb_eq in Hrid. symmetry.
      apply (@key_eqb_eq _ tile_key_eqb tile_key_ltb _).
      pose proof (Hcat r Hr) as Hr'. rewrite Hrid in Hr'.
      destruct (catalog_FLOORS_unique _ _ _ _ _ Hr' Hmem) as [Hf Hn].
      unfold sample_key. now rewrite Hrid, Hf, Hn.
    - apply String.eqb_neq in Hrid. symmetry.
      apply (key_eqb_false tile_key_eqb tile_key_ltb).
      unfold sample_key. intros [= _ Hi _]. contradiction. }
  split; [exact (select_room_catalog rid fl rn Hmem) |].
  destruct rows_key as [| first rest] eqn:Hrows; [contradiction |].
  destruct (room_view_some sort df_range rid first rest Hsame)
    as (page & Hsome & Hname & Hlatest & _ & _ & _).
  exists page. split; [exact Hsome |].
  destruct (Hkey first (or_introl eq_refl)) as [_ Hk1].
  split.
  { rewrite Hname. unfold sample_key in Hk1. now injection Hk1. }
  intros Hnd. rewrite Hsame in Hnd. rewrite Hlatest, Hpl.
  destruct (latest_reading sort (first :: rest) first) as [Hin Hmax'];
    [discriminate |].
  f_equal.
  apply (NoDup_map_inj timestamp (first :: rest)); try assumption.
  apply Z.le_antisymm; [now apply Hmax | now apply Hmax'].
Qed.

End TileToRoom.

(** The first tile of the readings of two catalog rooms, clicked in the
    overview at the first visit of the page. *)
Lemma tile_click_selects_room_witness :
  exists t s',
    In t (rooms_agg insertion_sort_timestamp catalog_readings) /\
    tile_click t (mkSession [("view_mode", "Building Overview")]%string
                            (overview_widget_keys [t]))
    = StreamlitAPIException s' /\
    dict_get "view_mode" (session_values s') = Some "Building Overview"%string /\
    dict_get "floor_select" (session_values s') = Some (tile_floor t).
Proof.
  destruct (rooms_agg insertion_sort_timestamp catalog_readings)
    as [| t rest] eqn:Htiles; [vm_compute in Htiles; discriminate |].
  destruct (tile_click_selects_room insertion_sort_timestamp catalog_readings
              t [t]
              (mkSession [("view_mode", "Building Overview")]%string
                         (overview_widget_keys [t])))
    as (s' & Hclick & Hview & Hfloor & _).
  - intros r [<- | [<- | [<- | [<- | []]]]]; simpl; tauto.
  - rewrite Htiles. now left.
  - reflexivity.
  - exists t, s'. split; [now left |]. split; [exact Hclick |].
    split; [exact Hview | exact Hfloor].
Defined.

(** ** Sidebar *)

Lemma US_PER_DAY_pos : 0 < US_PER_DAY.
Proof. reflexivity. Qed.

Lemma date_of_combine d t : 0 <= t < US_PER_DAY -> date_of (combine d t) = d.
Proof.
  intros Ht. unfold date_of, toordinal, combine.
  rewrite Z.div_add_l by (vm_compute; discriminate).
  rewrite Z.div_small by exact Ht. lia.
Qed.

Lemma time_of_combine d t : 0 <= t < US_PER_DAY -> time_of (combine d t) = t.
Proof.
  intros Ht. unfold time_of, combine.
  rewrite Z.add_comm, Z.mod_add by (vm_compute; discriminate).
  now apply Z.mod_small.
Qed.

Lemma combine_le d1 t1 d2 t2 :
  0 <= t1 < US_PER_DAY -> 0 <= t2 < US_PER_DAY ->
  (combine d2 t2 <= combine d1 t1 <-> d2 < d1 \/ (d2 = d1 /\ t2 <= t1)).
Proof.
  unfold combine. pose proof US_PER_DAY_pos as Hpos.
  intros H1 H2. split.
  - intros Hle. destruct (Z.lt_trichotomy d2 d1) as [Hlt | [Heq | Hgt]].
    + now left.
    + right. split; [exact Heq |]. subst. lia.
    + exfalso. nia.
  - intros [Hlt | [-> Hle]]; [nia | lia].
Qed.

(** The sidebar fails with [ValueError] when the date widget hands back a
    tuple that does not hold exactly two dates (a range selection in
    progress holds one).  With two dates, or a single date used for both
    ends, it returns the two datetimes whose dates and times are the
    chosen ones, and the run is stopped with the sidebar error exactly
    when the end date is earlier, or the dates are equal and the end time
    is not after the start time. *)
Theorem sidebar_controls_range (df : DataFrame) (view : View)
    (date_range_ : date_input) (start_time_sel end_time_sel : time) :
  (forall ds, date_range_ = DateTuple ds -> length ds <> 2%nat ->
     sidebar_controls view date_range_ start_time_sel end_time_sel
     = Raised ValueError /\
     main_with_sidebar df view date_range_ start_time_sel end_time_sel
     = ([], Raised ValueError)) /\
  (forall sd ed,
     date_range_ = DateTuple [sd; ed] \/ (date_range_ = OneDate sd /\ ed = sd) ->
     0 <= start_time_sel < US_PER_DAY ->
     0 <= end_time_sel < US_PER_DAY ->
     exists start_dt end_dt,
       sidebar_controls view date_range_ start_time_sel end_time_sel
       = Returned (view, start_dt, end_dt) /\
       date_of start_dt = sd /\ time_of start_dt = start_time_sel /\
       date_of end_dt = ed /\ time_of end_dt = end_time_sel /\
       (main_with_sidebar df view date_range_ start_time_sel end_time_sel
        = ([SidebarError], Raised StopException) <->
        ed < sd \/ (ed = sd /\ end_time_sel <= start_time_sel))).
Proof.
  split.
  - intros ds -> Hlen. unfold main_with_sidebar, sidebar_controls.
    destruct ds as [| d1 [| d2 [| d3 ds]]]; simpl in Hlen; try lia;
      split; reflexivity.
  - intros sd ed Hsel Hst Het.
    exists (combine sd start_time_sel), (combine ed end_time_sel).
    assert (Hret : sidebar_controls view date_range_ start_time_sel end_time_sel
                   = Returned (view, combine sd start_time_sel,
                               combine ed end_time_sel)).
    { destruct Hsel as [-> | [-> ->]]; reflexivity. }
    split; [exact Hret |].
    rewrite !date_of_combine, !time_of_combine by assumption.
    repeat (split; [reflexivity |]).
    unfold main_with_sidebar. rewrite Hret.
    rewrite <- (combine_le sd start_time_sel ed end_time_sel Hst Het).
    split.
    + intros Hmain.
      destruct (Z_le_gt_dec (combine ed end_time_sel)
                            (combine sd start_time_sel)) as [Hle | Hgt];
        [exact Hle |].
      exfalso. unfold main, sidebar_notice in Hmain.
      rewrite (proj2 (Z.leb_gt _ _)) in Hmain by lia.
      destruct (filter_by_range df (combine sd start_time_sel)
                                (combine ed end_time_sel));
        [discriminate | destruct view; discriminate].
    + intros Hle. unfold main, sidebar_notice.
      now rewrite (proj2 (Z.leb_le _ _) Hle).
Qed.

(** A one-date tuple; and 3 November 2025 chosen alone with the default
    times 08:00 and 20:00 swapped. *)
Lemma sidebar_controls_range_witness :
  sidebar_controls RoomView (DateTuple [ymd2ord 2025 11 3])
                   (mk_time 8 0) (mk_time 20 0)
  = Raised ValueError /\
  main_with_sidebar demo_readings RoomView (OneDate (ymd2ord 2025 11 3))
                    (mk_time 20 0) (mk_time 8 0)
  = ([SidebarError], Raised StopException).
Proof.
  split.
  - apply (proj1 (sidebar_controls_range demo_readings RoomView
                    (DateTuple [ymd2ord 2025 11 3]) (mk_time 8 0) (mk_time 20 0))
             [ymd2ord 2025 11 3]); [reflexivity | discriminate].
  - destruct (proj2 (sidebar_controls_range demo_readings RoomView
                       (OneDate (ymd2ord 2025 11 3)) (mk_time 20 0) (mk_time 8 0))
                (ymd2ord 2025 11 3) (ymd2ord 2025 11 3))
      as (s & e & _ & _ & _ & _ & _ & Hstop).
    + right. split; reflexivity.
    + vm_compute. split; [discriminate | reflexivity].
    + vm_compute. split; [discriminate | reflexivity].
    + apply Hstop. right. split; [reflexivity |]. vm_compute. discriminate.
Defined.

(** ** Device registry *)

Lemma string_length_append (a b : string) :
  String.length (a ++ b) = (String.length a + String.length b)%nat.
Proof. induction a as [| c a IH]; simpl; [reflexivity | now rewrite IH]. Qed.

Lemma string_append_inj_r (a b c : string) :
  (a ++ c = b ++ c)%string -> a = b.
Proof.
  revert b. induction a as [| x a IH]; intros [| y b]; simpl; intros Heq.
  - reflexivity.
  - exfalso. apply (f_equal String.length) in Heq. simpl in Heq.
    rewrite string_length_append in Heq. lia.
  - exfalso. apply (f_equal String.length) in Heq. simpl in Heq.
    rewrite string_length_append in Heq. lia.
  - injection Heq as -> Heq. f_equal. now apply IH.
Qed.

Lemma device_rooms_loop_rows floor_ rooms rows :
  device_rooms_loop floor_ rooms rows
  = rows ++ map (fun rm => mkDevice floor_ (fst rm) (snd rm)
                                    (fst rm ++ "-AC")%string "active"%string)
                rooms.
Proof.
  revert rows. induction rooms as [| [rid rn] rooms IH]; intros rows; simpl.
  - now rewrite app_nil_r.
  - rewrite IH, <- app_assoc. reflexivity.
Qed.

Lemma device_floors_loop_rows floors rows :
  device_floors_loop floors rows
  = rows ++ map (fun u => mkDevice (snd (fst u)) (fst (fst u)) (snd u)
                                   (fst (fst u) ++ "-AC")%string
                                   "active"%string)
                (catalog floors).
Proof.
  revert rows. induction floors as [| [fl rooms] floors IH]; intros rows; simpl.
  - now rewrite app_nil_r.
  - rewrite IH, device_rooms_loop_rows, <- app_assoc, map_app, map_map.
    reflexivity.
Qed.

(** On the first visit the registry holds one device per room of the
    catalog, in catalog order, each named after its room id with the
    suffix "-AC" and marked active; if the room ids are distinct, so are
    the device ids.  On later visits the registry kept in the session is
    edited as it is, and the catalog is not read again. *)
Theorem device_registry (floors : list (string * list (string * string)))
    (data_editor : list Device -> list Device) :
  let first_visit := manage_devices_demo floors None (fun d => d) in
  map (fun d => (dev_room_id d, dev_floor d, dev_room_name d)) first_visit
  = catalog floors /\
  (forall d, In d first_visit ->
     iot_device_id d = (dev_room_id d ++ "-AC")%string /\
     dev_status d = "active"%string) /\
  (NoDup (map (fun u => fst (fst u)) (catalog floors)) ->
   NoDup (map iot_device_id first_visit)) /\
  (forall kept floors',
     manage_devices_demo floors' (Some kept) data_editor = data_editor kept).
Proof.
  intros first_visit. subst first_visit. unfold manage_devices_demo.
  rewrite device_floors_loop_rows. simpl.
  split; [| split; [| split]].
  - rewrite map_map. simpl. rewrite <- (map_id (catalog floors)) at 2.
    apply map_ext. intros [[rid fl] rn]. reflexivity.
  - intros d Hd. apply in_map_iff in Hd as (u & <- & _). split; reflexivity.
  - intros Hnd. rewrite map_map. simpl.
    rewrite <- (map_map (fun u : string * string * string => fst (fst u))
                        (fun rid => (rid ++ "-AC")%string)).
    apply Finite.Injective_map_NoDup; [| exact Hnd].
    intros a b. apply string_append_inj_r.
  - reflexivity.
Qed.

(** The registry of the source's catalog. *)
Lemma device_registry_witness :
  NoDup (map iot_device_id (manage_devices_demo FLOORS None (fun d => d))) /\
  length (manage_devices_demo FLOORS None (fun d => d)) = 9%nat.
Proof.
  destruct (device_registry FLOORS (fun d => d)) as (Hcat & _ & Hnd & _).
  split.
  - apply Hnd. exact catalog_FLOORS_NoDup.
  - rewrite <- (length_map
                  (fun d => (dev_room_id d, dev_floor d, dev_room_name d))),
      Hcat. reflexivity.
Defined.

(** ** Every room answers a query with the same timestamps *)

Lemma map_timestamp_filter_range start_dt end_dt (df : DataFrame) :
  map timestamp (filter (in_range start_dt end_dt) df)
  = filter (fun t => (start_dt <=? t) && (t <=? end_dt)) (map timestamp df).
Proof.
  induction df as [| r df IH]; simpl; [reflexivity |].
  unfold in_range at 1.
  destruct ((start_dt <=? timestamp r) && (timestamp r <=? end_dt)); simpl;
    now rewrite IH.
Qed.

Lemma rows_of_room_filter_by_range room df start_dt end_dt :
  rows_of_room room (filter_by_range df start_dt end_dt)
  = filter_by_range (rows_of_room room df) start_dt end_dt.
Proof.
  unfold rows_of_room. rewrite !filter_by_range_filter, !filter_filter.
  apply filter_ext. intros r. apply andb_comm.
Qed.

(** With a non-zero step, a range of the built dataset selects the same
    timestamps, in the same order, for every room of the catalog: the
    grid points that lie in the range.  The series of the rooms stay
    aligned under every query. *)
Theorem rooms_share_timestamps {G : Type} `{RandomGen G}
    (cfg : Config) (g : G) :
  time_freq_min cfg <> 0 ->
  exists df p' idx,
    load_data cfg (fresh g) = (Returned df, p') /\
    date_range (start_date cfg) (end_date cfg) (time_freq_min cfg)
    = Returned idx /\
    forall start_dt end_dt u, In u (catalog FLOORS) ->
      map timestamp
          (rows_of_room (fst (fst u)) (filter_by_range df start_dt end_dt))
      = filter (fun t => (start_dt <=? t) && (t <=? end_dt)) idx.
Proof.
  intros Hf0.
  destruct (load_data_body_returns cfg g Hf0) as (dfs & g' & Hfr & Hrun).
  destruct (date_range_returns (start_date cfg) (end_date cfg) _ Hf0)
    as [idx Hidx].
  exists (concat dfs), (mkProcess g' (Some (concat dfs))), idx.
  split.
  { unfold load_data, fresh; simpl. now rewrite Hrun. }
  split; [exact Hidx |].
  intros start_dt end_dt u Hu.
  pose proof (rows_of_room_concat cfg _ _ u
                (frames_of_room_frame _ _ _ _ _ Hf0 Hfr)
                catalog_FLOORS_NoDup Hu) as Hroom.
  apply room_frame_timestamps in Hroom. rewrite Hidx in Hroom.
  injection Hroom as Hstamps.
  rewrite rows_of_room_filter_by_range, filter_by_range_filter.
  now rewrite map_timestamp_filter_range, <- Hstamps.
Qed.

(** The dataset of the source's constants on the counter generator. *)
Lemma rooms_share_timestamps_witness :
  exists df p' idx,
    load_data app_config (fresh 0%nat) = (Returned df, p') /\
    date_range START_DATE END_DATE TIME_FREQ_MIN = Returned idx /\
    forall start_dt end_dt u, In u (catalog FLOORS) ->
      map timestamp
          (rows_of_room (fst (fst u)) (filter_by_range df start_dt end_dt))
      = filter (fun t => (start_dt <=? t) && (t <=? end_dt)) idx.
Proof.
  apply (rooms_share_timestamps app_config 0%nat). vm_compute. discriminate.
Defined.

(** ** Charts of the floor view *)

(** When the floor view shows a page for a floor, its power profile has
    one point per timestamp of the floor's rows, timestamps strictly
    ascending, each the sum of the power of the floor's rows at that
    timestamp; every bar of its energy-by-room chart carries the label of
    a room that has rows on the floor and is the sum of the step energies
    of that room's rows on the floor, and every room with rows on the
    floor has its bar; and its daily trend is the daily energy of the
    floor's rows. *)
Theorem floor_view_charts (df_range : DataFrame) (floor_sel : string)
    (page : FloorPage) :
  floor_view df_range floor_sel = Some page ->
  let df_floor := filter (fun r => String.eqb (floor r) floor_sel) df_range in
  let room_rows := fun r0 : Sample =>
    filter (fun r => pair_eqb String.eqb String.eqb
                       (room_id r, room_name r) (room_id r0, room_name r0))
           df_floor in
  StronglySorted Z.lt (map fst (floor_power_series page)) /\
  (forall ts v,
     In (ts, v) (floor_power_series page) <->
     (exists r, In r df_floor /\ timestamp r = ts) /\
     v = series_sum (map power_kw
                         (filter (fun r => timestamp r =? ts) df_floor))) /\
  (forall label v, In (label, v) (floor_energy_by_room page) ->
     exists r0, In r0 df_floor /\
                label = room_label (room_id r0) (room_name r0) /\
                v = series_sum (map energy_kwh_step (room_rows r0))) /\
  (forall r0, In r0 df_floor ->
     In (room_label (room_id r0) (room_name r0),
         series_sum (map energy_kwh_step (room_rows r0)))
        (floor_energy_by_room page)) /\
  floor_daily page = daily_energy df_floor.
Proof.
  intros Hpage df_floor room_rows. unfold floor_view in Hpage.
  rewrite select_eq_filter in Hpage. fold df_floor in Hpage.
  subst room_rows.
  destruct df_floor as [| r0 rest] eqn:Hfloor; [discriminate |].
  injection Hpage as <-. simpl floor_power_series.
  simpl floor_energy_by_room. simpl floor_daily.
  destruct (groupby_sum_spec Z.eqb Z.ltb timestamp power_kw (r0 :: rest))
    as (Hasc & _ & Hrows).
  destruct (groupby_sum_spec (pair_eqb String.eqb String.eqb)
              (pair_ltb String.eqb String.ltb String.ltb)
              (fun r => (room_id r, room_name r)) energy_kwh_step
              (r0 :: rest)) as (_ & _ & Hrooms).
  split.
  { eapply StronglySorted_impl; [| exact Hasc]. intros a b. apply Z.ltb_lt. }
  split; [exact Hrows |].
  split; [| split; [| reflexivity]].
  - intros label v Hin.
    apply in_map_iff in Hin as ([[rid rn] e] & [= <- <-] & Hg).
    apply Hrooms in Hg as [(r & Hr & Hk) Hv].
    exists r. split; [exact Hr |]. injection Hk as -> ->.
    split; [reflexivity | exact Hv].
  - intros r Hr. apply in_map_iff.
    exists ((room_id r, room_name r),
            series_sum (map energy_kwh_step
                          (filter (fun r' => pair_eqb String.eqb String.eqb
                                               (room_id r', room_name r')
                                               (room_id r, room_name r))
                                  (r0 :: rest)))).
    split; [reflexivity |].
    apply Hrooms. split; [| reflexivity]. now exists r.
Qed.

(** The floor page of the readings of two catalog rooms: one bar, of the
    6 kWh of room F1-101. *)
Lemma floor_view_charts_witness :
  exists page,
    floor_view catalog_readings "Floor 1" = Some page /\
    StronglySorted Z.lt (map fst (floor_power_series page)) /\
    map (fun b => (fst b, this (snd b))) (floor_energy_by_room page)
    = [(room_label "F1-101" "Computer Lab 1", 6 # 1)].
Proof.
  eexists. split; [reflexivity |].
  split; [| reflexivity].
  exact (proj1 (floor_view_charts catalog_readings "Floor 1" _ eq_refl)).
Defined.

(** ** Charts of the room view *)

Lemma StronglySorted_map_le {A} (f : A -> Z) (l : list A) :
  StronglySorted (fun a b => f a <= f b) l -> StronglySorted Z.le (map f l).
Proof.
  induction 1 as [| a l _ IH Hall]; simpl; constructor; [exact IH |].
  rewrite Forall_forall in *. intros t Ht.
  apply in_map_iff in Ht as (r & <- & Hr). now apply Hall.
Qed.

Section RoomSeries.

Context (sort : DataFrame -> DataFrame) `{!TimestampSort sort}.

(** When the room view shows a page, the series of its first tab list
    the room's rows by ascending timestamp, each row once, the two
    series at the same timestamps; and, with sums taken exactly, its
    daily energy is the daily energy of the room's rows, whatever the
    sort did with equal timestamps. *)
Theorem room_view_series (df_range : DataFrame) (room_sel : string)
    (page : RoomPage) :
  room_view sort df_range room_sel = Some page ->
  let df_room := filter (fun r => String.eqb (room_id r) room_sel) df_range in
  StronglySorted Z.le (map fst (room_power_series page)) /\
  Permutation (room_power_series page)
              (map (fun r => (timestamp r, power_kw r)) df_room) /\
  Permutation (voltage_current_series page)
              (map (fun r => (timestamp r, (voltage r, current r))) df_room) /\
  map fst (voltage_current_series page) = map fst (room_power_series page) /\
  room_daily page = daily_energy df_room.
Proof.
  intros Hpage df_room. unfold room_view in Hpage.
  rewrite select_eq_filter in Hpage. fold df_room in Hpage.
  destruct df_room as [| first rest] eqn:Hroom; [discriminate |].
  injection Hpage as <-. simpl.
  pose proof (sort_permutation (first :: rest)) as Hperm.
  pose proof (sort_ascending (first :: rest)) as Hsorted.
  split.
  { rewrite map_map. simpl. exact (StronglySorted_map_le timestamp _ Hsorted). }
  split; [exact (Permutation_map _ Hperm) |].
  split; [exact (Permutation_map _ Hperm) |].
  split; [now rewrite !map_map |].
  unfold daily_energy. now apply (groupby_sum_perm Z.eqb Z.ltb).
Qed.

End RoomSeries.

(** Room F1-101 of the small frame. *)
Lemma room_view_series_witness :
  exists page,
    room_view insertion_sort_timestamp demo_readings "F1-101" = Some page /\
    map fst (room_power_series page) = [0; minutes 15; minutes 30] /\
    room_daily page
    = daily_energy (filter (fun r => String.eqb (room_id r) "F1-101")
                           demo_readings).
Proof.
  eexists. split; [reflexivity |].
  split; [reflexivity |].
  exact (proj2 (proj2 (proj2 (proj2
           (room_view_series insertion_sort_timestamp demo_readings
              "F1-101" _ eq_refl))))).
Defined.
